(** * Verification of the penetration-testing script

    Shallow embedding of [scripts/security/penetration-testing.py]
    (class [PenetrationTester]) and the properties of its probes.

    Modelling conventions.
    - Text is a [string] of bytes, the UTF-8 encoding of a Python [str];
      [x in s] is substring search.  [str.lower] and [str.upper] are
      modelled on the ASCII letters, which is what Python does to ASCII
      text; where a property depends on the lowering of a response body
      that may hold other letters, it says so.
    - The target service and the [requests.Session] that talks to it are one
      deterministic state machine [respond]: a call of [session.get] or
      [session.post] either returns a response or raises; cookies kept by
      the session are part of that machine's state, and so are the
      redirects the session follows on its own before it returns.
    - [urllib.parse.urljoin] returns a URL or raises [ValueError] (as it
      does on a base such as [http://[bad]).
    - [datetime.now()] is a clock: an arbitrary stream of readings, the
      n-th reading being consumed by the n-th call of [datetime.now()].
    - A Python exception is represented by its [str()].  Only exceptions of
      class [Exception] are modelled (those are what the script catches).
    - [print] appends a line to [stdout]; writing a file appends to
      [files]. *)

From Stdlib Require Import ZArith Ascii String DecimalString Lia.
From stdpp Require Import base list strings gmap.

Local Open Scope Z_scope.

(** ** Python strings *)

Module Str.

Definition is_upper (c : ascii) : bool :=
  let n := N_of_ascii c in ((65 <=? n) && (n <=? 90))%N.

Definition is_lower (c : ascii) : bool :=
  let n := N_of_ascii c in ((97 <=? n) && (n <=? 122))%N.

Definition lower_char (c : ascii) : ascii :=
  if is_upper c then ascii_of_N (N_of_ascii c + 32) else c.

Definition upper_char (c : ascii) : ascii :=
  if is_lower c then ascii_of_N (N_of_ascii c - 32) else c.

(** [s.lower()], for ASCII letters *)
Fixpoint lower (s : string) : string :=
  match s with
  | EmptyString => EmptyString
  | String c s' => String (lower_char c) (lower s')
  end.

(** [s.upper()], for ASCII letters *)
Fixpoint upper (s : string) : string :=
  match s with
  | EmptyString => EmptyString
  | String c s' => String (upper_char c) (upper s')
  end.

(** [s.isascii()] *)
Fixpoint is_ascii (s : string) : bool :=
  match s with
  | EmptyString => true
  | String c s' => (N_of_ascii c <? 128)%N && is_ascii s'
  end.

(** [needle in hay] *)
Fixpoint contains (needle hay : string) : bool :=
  String.prefix needle hay
  || match hay with
     | EmptyString => false
     | String _ hay' => contains needle hay'
     end.

(** [s.split(sep)] for a one-character separator *)
Fixpoint split (sep : ascii) (s : string) : list string :=
  match s with
  | EmptyString => [EmptyString]
  | String c s' =>
      if Ascii.eqb c sep then EmptyString :: split sep s'
      else match split sep s' with
           | h :: t => String c h :: t
           | [] => [String c EmptyString]
           end
  end.

(** [sep.join(l)] *)
Definition join (sep : string) (l : list string) : string :=
  String.concat sep l.

(** [str(n)] for a non-negative integer *)
Definition of_nat (n : nat) : string :=
  NilEmpty.string_of_uint (Nat.to_uint n).

(** ['A' * n] *)
Fixpoint repeat (c : ascii) (n : nat) : string :=
  match n with
  | O => EmptyString
  | S n' => String c (repeat c n')
  end.

(** [s.rstrip(c)] for a one-character set *)
Fixpoint rstrip (c : ascii) (s : string) : string :=
  match s with
  | EmptyString => EmptyString
  | String a s' =>
      match rstrip c s' with
      | EmptyString => if Ascii.eqb a c then EmptyString else String a EmptyString
      | rest => String a rest
      end
  end.

Definition newline : string := String (ascii_of_N 10) EmptyString.

(** The double quote. *)
Definition dquote : string := String (ascii_of_N 34) EmptyString.

(** The lines of a triple-quoted literal, put together. *)
Definition lines (l : list string) : string := String.concat newline l.

(** [repr(s)] for a string without quotes, backslashes or characters
    that [repr] escapes. *)
Definition repr (s : string) : string := "'" +:+ s +:+ "'".

(** [d.strftime('%Y-%m-%d %H:%M:%S')], computed from [d.isoformat()]
    (which reads [YYYY-MM-DDTHH:MM:SS], followed by the microseconds when
    there are any). *)
Definition strftime (iso : string) : string :=
  String.substring 0 10 iso +:+ " " +:+ String.substring 11 8 iso.

End Str.

(** ** [str.format] *)

Module Format.

(** [template.format] with keyword arguments, read from the left as CPython reads it:
    text is copied up to a brace; a doubled brace stands for itself; a
    replacement field runs to its closing brace, and once it is read the
    argument it names is looked up, before anything that follows it in
    the template is examined.  A name that is no keyword of the call
    raises [KeyError]; an empty name or a number asks for a positional
    argument, of which the call has none, and raises [IndexError].

    Not modelled: attribute and index accessors in a field name, and the
    effect of a conversion or of a format specification on an argument
    that exists; such a field is replaced by the argument as it is. *)

(** Where the scan stands. *)
Inductive Scan :=
| InText
| AfterOpen
| AfterClose
| InName (name : string)
| InIndex (name : string)
| InConversion (name : string)
| AfterConversion (name : string)
| InSpec (name : string) (depth : nat).

(** The part of a field name that names the argument: what comes
    before the first [.] or [[]. *)
Fixpoint arg_name (field : string) : string :=
  match field with
  | EmptyString => EmptyString
  | String c rest =>
      if Ascii.eqb c "." || Ascii.eqb c "[" then EmptyString
      else String c (arg_name rest)
  end.

Definition is_digit (c : ascii) : bool :=
  let n := N_of_ascii c in ((48 <=? n) && (n <=? 57))%N.

(** The number a string of digits stands for. *)
Fixpoint digits_value (acc : nat) (s : string) : option nat :=
  match s with
  | EmptyString => Some acc
  | String c rest =>
      if is_digit c
      then digits_value (10 * acc + (N.to_nat (N_of_ascii c) - 48)) rest
      else None
  end.

Definition index_error (n : nat) : string :=
  "Replacement index " +:+ Str.of_nat n
    +:+ " out of range for positional args tuple".

(** The argument a field asks for. *)
Definition lookup (field : string) (kwargs : list (string * string))
    : string + string :=
  let name := arg_name field in
  match name with
  | EmptyString => inl (index_error 0)
  | _ =>
      match digits_value 0 name with
      | Some n => inl (index_error n)
      | None =>
          match List.find (fun kv => String.eqb (fst kv) name) kwargs with
          | Some kv => inr (snd kv)
          | None => inl (Str.repr name)
          end
      end
  end.

Definition push (s : string) (c : ascii) : string := s +:+ String c "".

(** The end of a field: its argument is looked up and written out. *)
Definition close_field (name out : string) (kwargs : list (string * string))
    : string + Scan * string :=
  match lookup name kwargs with
  | inl e => inl e
  | inr value => inr (InText, out +:+ value)
  end.

(** One character of the template. *)
Definition step (kwargs : list (string * string)) (scan : Scan)
    (out : string) (c : ascii) : string + Scan * string :=
  match scan with
  | InText =>
      if Ascii.eqb c "{" then inr (AfterOpen, out)
      else if Ascii.eqb c "}" then inr (AfterClose, out)
      else inr (InText, push out c)
  | AfterClose =>
      if Ascii.eqb c "}" then inr (InText, push out c)
      else inl "Single '}' encountered in format string"
  | AfterOpen | InName _ =>
      let name := match scan with InName name => name | _ => "" end in
      if Ascii.eqb c "{" then
        match scan with
        | AfterOpen => inr (InText, push out c)
        | _ => inl "unexpected '{' in field name"
        end
      else if Ascii.eqb c "[" then inr (InIndex (push name c), out)
      else if Ascii.eqb c "}" then close_field name out kwargs
      else if Ascii.eqb c ":" then inr (InSpec name 1, out)
      else if Ascii.eqb c "!" then inr (InConversion name, out)
      else inr (InName (push name c), out)
  | InIndex name =>
      if Ascii.eqb c "]" then inr (InName (push name c), out)
      else inr (InIndex (push name c), out)
  | InConversion name => inr (AfterConversion name, out)
  | AfterConversion name =>
      if Ascii.eqb c "}" then close_field name out kwargs
      else if Ascii.eqb c ":" then inr (InSpec name 1, out)
      else inl "expected ':' after conversion specifier"
  | InSpec name depth =>
      if Ascii.eqb c "{" then inr (InSpec name (S depth), out)
      else if Ascii.eqb c "}" then
        match depth with
        | 0%nat | 1%nat => close_field name out kwargs
        | S depth' => inr (InSpec name depth', out)
        end
      else inr (InSpec name depth, out)
  end.

(** The end of the template. *)
Definition finish (scan : Scan) (out : string) : string + string :=
  match scan with
  | InText => inr out
  | AfterOpen => inl "Single '{' encountered in format string"
  | AfterClose => inl "Single '}' encountered in format string"
  | InName _ | InIndex _ => inl "expected '}' before end of string"
  | InConversion _ =>
      inl "end of string while looking for conversion specifier"
  | AfterConversion _ | InSpec _ _ => inl "unmatched '{' in format spec"
  end.

Fixpoint scan_from (kwargs : list (string * string)) (scan : Scan)
    (out : string) (template : string) : string + string :=
  match template with
  | EmptyString => finish scan out
  | String c rest =>
      match step kwargs scan out c with
      | inl e => inl e
      | inr (scan', out') => scan_from kwargs scan' out' rest
      end
  end.

(** The message of the exception, or the formatted text. *)
Definition format (template : string) (kwargs : list (string * string))
    : string + string :=
  scan_from kwargs InText "" template.

End Format.

(** ** Python values (the image of [response.json()]) *)

(** JSON numbers with a fraction or exponent decode to [float]; the script
    only ever observes whether such a value is zero. *)
#[local] Unset Elimination Schemes.
Inductive PyVal :=
| PNone
| PBool (b : bool)
| PInt (z : Z)
| PFloat (nonzero : bool)
| PStr (s : string)
| PList (l : list PyVal)
| PDict (d : gmap string PyVal).
#[local] Set Elimination Schemes.

(** Truthiness, as tested by [if x], [not x] and [x or y]. *)
Definition truthy (v : PyVal) : bool :=
  match v with
  | PNone => false
  | PBool b => b
  | PInt z => negb (z =? 0)
  | PFloat nz => nz
  | PStr s => negb (String.eqb s "")
  | PList l => match l with [] => false | _ => true end
  | PDict d => negb (bool_decide (d = ∅))
  end.

Definition type_name (v : PyVal) : string :=
  match v with
  | PNone => "NoneType"
  | PBool _ => "bool"
  | PInt _ => "int"
  | PFloat _ => "float"
  | PStr _ => "str"
  | PList _ => "list"
  | PDict _ => "dict"
  end.

(** [str(e)] of the [AttributeError] raised by [v.attr] when [v] has no
    such attribute. *)
Definition no_attribute (v : PyVal) (attr : string) : string :=
  "'" +:+ type_name v +:+ "' object has no attribute '" +:+ attr +:+ "'".

(** ** HTTP *)

Inductive Method := GET | POST.

(** A call of the session.  [json_data] is the [json=] argument (a dict
    literal, in its written order); [bearer] is the value formatted into
    the header [Authorization: Bearer ...], when that header is sent. *)
Record Request := mkRequest {
  meth : Method;
  url : string;
  json_data : option (list (string * string));
  bearer : option PyVal
}.

(** A response.  [headers] is the case-insensitive dict of [requests],
    keyed by the lower-cased header name.  [json] is the outcome of
    [response.json()]: the decoded value, or the message of the error it
    raises. *)
Record Response := mkResponse {
  status_code : Z;
  text : string;
  headers : gmap string string;
  json : string + PyVal
}.

Definition Exn := string.

Inductive Outcome :=
| Responded (r : Response)
| Failed (e : Exn).

(** ** Results *)

Record ProbeResult := mkResult {
  timestamp : string;
  test_name : string;
  status : string;
  severity : string;
  details : string
}.

(** ** State and exception monad of the script *)

Inductive Res (A : Type) :=
| Ok (a : A)
| Raise (e : Exn).
Arguments Ok {A} a.
Arguments Raise {A} e.

(** How one iteration of a [for] loop ends: it falls through to the next
    iteration, executes [break], or executes [return]. *)
Inductive Flow := Next | Break | Return.

(** What a run is given: the target seen through the session (a call is
    answered or raises, and the target moves on), [urllib.parse.urljoin]
    (the joined URL, or the message of the [ValueError] it raises), and the
    arguments [base_url] and [output_file] of the constructor. *)
Class Setting := {
  T : Type;
  respond : T -> Request -> Outcome * T;
  urljoin : string -> string -> Exn + string;
  base : string;
  output_file : string
}.

(** [results] is [self.results]; [exchanges] records, in order, every
    call of the session and what came back; [files] records, in order,
    every file written, with its content. *)
Record State `{Setting} := mkState {
  results : list ProbeResult;
  stdout : list string;
  target : T;
  exchanges : list (Request * Outcome);
  clock : nat -> string;
  ticks : nat;
  files : list (string * string)
}.

Definition M `{Setting} (A : Type) : Type := State -> Res A * State.

Section Monad.
Context `{Setting}.

Definition ret {A} (a : A) : M A := fun s => (Ok a, s).

Definition bind {A B} (m : M A) (k : A -> M B) : M B :=
  fun s =>
    match m s with
    | (Ok a, s') => k a s'
    | (Raise e, s') => (Raise e, s')
    end.

Definition raise {A} (e : Exn) : M A := fun s => (Raise e, s).

(** [try: m  except Exception as e: handler e] *)
Definition try_except {A} (m : M A) (handler : Exn -> M A) : M A :=
  fun s =>
    match m s with
    | (Ok a, s') => (Ok a, s')
    | (Raise e, s') => handler e s'
    end.
End Monad.

Declare Scope pen_scope.
Delimit Scope pen_scope with pen.
Notation "x <- m ;; k" := (bind m (fun x => k))
  (at level 100, m at next level, right associativity) : pen_scope.
Notation "m ;; k" := (bind m (fun _ => k))
  (at level 100, right associativity) : pen_scope.

(** ** The script *)

Section Tester.
Context `{Setting}.
Local Open Scope pen_scope.

(** [self.base_url = base_url.rstrip('/')] *)
Definition base_url : string := Str.rstrip "/" base.

(** [PenetrationTester(...)]: nothing logged, nothing sent. *)
Definition initial (t : T) (clk : nat -> string) : State :=
  mkState _ [] [] t [] clk 0 [].

(** [for x in xs: body x] *)
Fixpoint for_each {A} (xs : list A) (body : A -> M Flow) : M Flow :=
  match xs with
  | [] => ret Next
  | x :: xs' =>
      f <- body x ;;
      match f with
      | Next => for_each xs' body
      | Break => ret Break
      | Return => ret Return
      end
  end.

Definition print (line : string) : M unit :=
  fun s =>
    (Ok tt,
     mkState _ (results s) (stdout s ++ [line]) (target s) (exchanges s)
             (clock s) (ticks s) (files s)).

(** [datetime.now().isoformat()] *)
Definition now : M string :=
  fun s =>
    (Ok (clock s (ticks s)),
     mkState _ (results s) (stdout s) (target s) (exchanges s)
             (clock s) (S (ticks s)) (files s)).

(** [self.results], read *)
Definition get_results : M (list ProbeResult) :=
  fun s => (Ok (results s), s).

(** [with open(path, 'w', encoding='utf-8') as f: f.write(content)] *)
Definition write_file (path content : string) : M unit :=
  fun s =>
    (Ok tt,
     mkState _ (results s) (stdout s) (target s) (exchanges s)
             (clock s) (ticks s) (files s ++ [(path, content)])).

(** The line [log_result] prints. *)
Definition log_line (test_name status details : string) : string :=
  "[" +:+ Str.upper status +:+ "] " +:+ test_name +:+ ": " +:+ details.

(** [log_result(test_name, status, details, severity)]; every call in the
    script passes the severity. *)
Definition log_result (test_name status details severity : string) : M unit :=
  fun s =>
    let result :=
      {| timestamp := clock s (ticks s);
         test_name := test_name;
         status := status;
         severity := severity;
         details := details |} in
    (Ok tt,
     mkState _ (results s ++ [result])
             (stdout s ++ [log_line test_name status details])
             (target s) (exchanges s) (clock s) (S (ticks s)) (files s)).

(** One call of the session; [timeout=10] is part of [respond]. *)
Definition send (req : Request) : M Response :=
  fun s =>
    let (o, t') := respond (target s) req in
    let s' := mkState _ (results s) (stdout s) t' (exchanges s ++ [(req, o)])
                      (clock s) (ticks s) (files s) in
    match o with
    | Responded r => (Ok r, s')
    | Failed e => (Raise e, s')
    end.

Definition session_post (u : string) (data : list (string * string))
    (token : option PyVal) : M Response :=
  send (mkRequest POST u (Some data) token).

Definition session_get (u : string) (token : option PyVal) : M Response :=
  send (mkRequest GET u None token).

(** [urljoin(base, path)] *)
Definition py_urljoin (b path : string) : M string :=
  match urljoin b path with
  | inr joined => ret joined
  | inl msg => raise msg
  end.

(** [response.json()] *)
Definition response_json (r : Response) : M PyVal :=
  match json r with
  | inr v => ret v
  | inl msg => raise msg
  end.

(** [v.get(key)]: [dict.get], an [AttributeError] on anything else. *)
Definition py_get (v : PyVal) (key : string) : M PyVal :=
  match v with
  | PDict d => ret (default PNone (d !! key))
  | _ => raise (no_attribute v "get")
  end.

(** [v.split(sep)] *)
Definition py_split (v : PyVal) (sep : ascii) : M (list string) :=
  match v with
  | PStr s => ret (Str.split sep s)
  | _ => raise (no_attribute v "split")
  end.

(** [template.format] with keyword arguments *)
Definition py_format (template : string) (kwargs : list (string * string))
    : M string :=
  match Format.format template kwargs with
  | inr formatted => ret formatted
  | inl msg => raise msg
  end.

(** *** Payloads *)

Definition sql_payloads : list string :=
  [ "' OR '1'='1";
    "'; DROP TABLE users; --";
    "' UNION SELECT * FROM users --";
    "admin'--";
    "' OR 1=1 --" ].

Definition xss_payloads : list string :=
  [ "<script>alert('XSS')</script>";
    "<img src=x onerror=alert('XSS')>";
    "javascript:alert('XSS')";
    "<svg onload=alert('XSS')>";
    "';alert('XSS');//" ].

(** *** authenticate *)

Definition authenticate : M PyVal :=
  try_except
    (login_url <- py_urljoin base_url "/api/auth/login" ;;
     let data := [("email", "test@example.com");
                  ("password", "testpassword123")] in
     response <- session_post login_url data None ;;
     if status_code response =? 200 then
       result <- response_json response ;;
       token <- py_get result "token" ;;
       if truthy token then ret token else py_get result "accessToken"
     else ret PNone)
    (fun e =>
       log_result "Authentication Error" "ERROR"
                  ("Could not authenticate: " +:+ e) "low" ;;
       ret PNone).

(** *** test_sql_injection *)

Definition error_indicators : list string :=
  [ "sql syntax"; "mysql_fetch"; "postgresql"; "ora-";
    "microsoft jet database"; "sqlite_"; "syntax error" ].

Definition sql_data (payload : string) : list (string * string) :=
  [("email", "admin" +:+ payload); ("password", "password")].

Definition sql_iteration (login_url payload : string) : M Flow :=
  try_except
    (response <- session_post login_url (sql_data payload) None ;;
     let response_text := Str.lower (text response) in
     if existsb (fun indicator => Str.contains indicator response_text)
                error_indicators
     then
       log_result "SQL Injection - Login" "VULNERABLE"
                  ("SQL error detected with payload: " +:+ payload)
                  "critical" ;;
       ret Return
     else if (status_code response =? 200)
             && Str.contains "token" (text response)
     then
       log_result "SQL Injection - Authentication Bypass" "VULNERABLE"
                  ("Authentication bypassed with payload: " +:+ payload)
                  "critical" ;;
       ret Return
     else ret Next)
    (fun e =>
       log_result "SQL Injection Test Error" "ERROR"
                  ("Error testing payload " +:+ payload +:+ ": " +:+ e)
                  "low" ;;
       ret Next).

Definition test_sql_injection : M unit :=
  print (Str.newline +:+ "=== Testing SQL Injection ===") ;;
  login_url <- py_urljoin base_url "/api/auth/login" ;;
  f <- for_each sql_payloads (sql_iteration login_url) ;;
  match f with
  | Return => ret tt
  | _ =>
      log_result "SQL Injection - Login" "SECURE"
        "No SQL injection vulnerabilities detected in login endpoint" "info"
  end.

(** *** test_xss_vulnerabilities *)

Definition xss_data (payload : string) : list (string * string) :=
  [("title", "Test Task " +:+ payload);
   ("description", "Description with XSS: " +:+ payload);
   ("projectId", "123")].

Definition xss_iteration (create_task_url : string) (auth_token : PyVal)
    (payload : string) : M Flow :=
  try_except
    (response <- session_post create_task_url (xss_data payload)
                              (Some auth_token) ;;
     if Str.contains payload (text response)
        && ((status_code response =? 200) || (status_code response =? 201))
     then
       log_result "XSS - Task Creation" "VULNERABLE"
                  ("XSS payload reflected: " +:+ payload) "high" ;;
       ret Return
     else ret Next)
    (fun e =>
       log_result "XSS Test Error" "ERROR"
                  ("Error testing XSS payload " +:+ payload +:+ ": " +:+ e)
                  "low" ;;
       ret Next).

Definition test_xss_vulnerabilities : M unit :=
  print (Str.newline +:+ "=== Testing XSS Vulnerabilities ===") ;;
  auth_token <- authenticate ;;
  if negb (truthy auth_token) then
    log_result "XSS Testing" "SKIPPED"
               "Could not authenticate - skipping XSS tests" "low"
  else
    create_task_url <- py_urljoin base_url "/api/tasks" ;;
    f <- for_each xss_payloads (xss_iteration create_task_url auth_token) ;;
    match f with
    | Return => ret tt
    | _ =>
        log_result "XSS - Task Creation" "SECURE"
          "No XSS vulnerabilities detected in task creation" "info"
    end.

(** *** test_authentication_security *)

Definition brute_force_data (i : nat) : list (string * string) :=
  [("email", "test@example.com");
   ("password", "wrongpassword" +:+ Str.of_nat i)].

(** One iteration of the loop; [failed_attempts] is carried along. *)
Definition brute_force_attempt (login_url : string) (i failed_attempts : nat)
    : M (Flow * nat) :=
  try_except
    (response <- session_post login_url (brute_force_data i) None ;;
     if status_code response =? 401 then ret (Next, S failed_attempts)
     else if status_code response =? 429 then
       log_result "Brute Force Protection" "SECURE"
                  ("Rate limiting activated after "
                     +:+ Str.of_nat failed_attempts +:+ " attempts")
                  "info" ;;
       ret (Break, failed_attempts)
     else ret (Next, failed_attempts))
    (fun e =>
       log_result "Authentication Test Error" "ERROR"
                  ("Error during brute force test: " +:+ e) "low" ;;
       ret (Break, failed_attempts)).

Fixpoint brute_force_loop (login_url : string) (attempts : list nat)
    (failed_attempts : nat) : M (Flow * nat) :=
  match attempts with
  | [] => ret (Next, failed_attempts)
  | i :: rest =>
      r <- brute_force_attempt login_url i failed_attempts ;;
      match fst r with
      | Next => brute_force_loop login_url rest (snd r)
      | _ => ret r
      end
  end.

(** The [else] of the [for] runs when the loop was not left by [break]. *)
Definition test_authentication_security : M unit :=
  print (Str.newline +:+ "=== Testing Authentication Security ===") ;;
  login_url <- py_urljoin base_url "/api/auth/login" ;;
  r <- brute_force_loop login_url (seq 0 10) 0 ;;
  match fst r with
  | Next =>
      log_result "Brute Force Protection" "VULNERABLE"
                 ("No rate limiting detected after "
                    +:+ Str.of_nat (snd r) +:+ " failed attempts")
                 "medium"
  | _ => ret tt
  end.

(** *** test_authorization_bypass *)

Definition admin_endpoints : list string :=
  [ "/api/admin/users";
    "/api/admin/system/health";
    "/api/admin/analytics";
    "/api/admin/settings" ].

Definition authorization_iteration (endpoint : string) : M Flow :=
  try_except
    (url <- py_urljoin base_url endpoint ;;
     response <- session_get url None ;;
     if status_code response =? 200 then
       log_result "Authorization Bypass" "VULNERABLE"
                  ("Admin endpoint accessible without authentication: "
                     +:+ endpoint)
                  "critical" ;;
       ret Next
     else if (status_code response =? 401) || (status_code response =? 403)
     then
       log_result "Authorization Check" "SECURE"
                  ("Admin endpoint properly protected: " +:+ endpoint)
                  "info" ;;
       ret Next
     else ret Next)
    (fun e =>
       log_result "Authorization Test Error" "ERROR"
                  ("Error testing endpoint " +:+ endpoint +:+ ": " +:+ e)
                  "low" ;;
       ret Next).

Definition test_authorization_bypass : M unit :=
  print (Str.newline +:+ "=== Testing Authorization Bypass ===") ;;
  for_each admin_endpoints authorization_iteration ;;
  ret tt.

(** *** test_input_validation *)

Definition large_string : string := Str.repeat "A" (Z.to_nat 10000).

Definition endpoints_to_test : list (string * list (string * string)) :=
  [ ("/api/tasks", [("title", large_string); ("description", "test")]);
    ("/api/projects", [("name", large_string); ("description", "test")]);
    ("/api/users/profile",
     [("firstName", large_string); ("lastName", "test")]) ].

Definition input_validation_iteration (auth_token : PyVal)
    (entry : string * list (string * string)) : M Flow :=
  let (endpoint, data) := entry in
  try_except
    (url <- py_urljoin base_url endpoint ;;
     response <- session_post url data (Some auth_token) ;;
     if status_code response =? 500 then
       log_result "Input Validation - Buffer Overflow" "VULNERABLE"
                  ("Server error with large input on " +:+ endpoint)
                  "medium" ;;
       ret Next
     else if status_code response =? 400 then
       log_result "Input Validation" "SECURE"
                  ("Proper input validation on " +:+ endpoint) "info" ;;
       ret Next
     else ret Next)
    (fun e =>
       log_result "Input Validation Test Error" "ERROR"
                  ("Error testing " +:+ endpoint +:+ ": " +:+ e) "low" ;;
       ret Next).

Definition test_input_validation : M unit :=
  print (Str.newline +:+ "=== Testing Input Validation ===") ;;
  auth_token <- authenticate ;;
  if negb (truthy auth_token) then
    log_result "Input Validation Testing" "SKIPPED"
      "Could not authenticate - skipping input validation tests" "low"
  else
    for_each endpoints_to_test (input_validation_iteration auth_token) ;;
    ret tt.

(** *** test_session_management *)

Definition test_session_management : M unit :=
  print (Str.newline +:+ "=== Testing Session Management ===") ;;
  auth_token <- authenticate ;;
  if negb (truthy auth_token) then ret tt
  else
    try_except
      (parts <- py_split auth_token "." ;;
       match parts with
       | [part0; part1; _] =>
           let tampered_token := part0 +:+ "." +:+ part1 +:+ "." in
           profile_url <- py_urljoin base_url "/api/users/profile" ;;
           response <- session_get profile_url
                                   (Some (PStr tampered_token)) ;;
           if status_code response =? 200 then
             log_result "JWT Security" "VULNERABLE"
                        "JWT token accepted without valid signature"
                        "critical"
           else
             log_result "JWT Security" "SECURE"
                        "JWT signature validation working properly" "info"
       | _ => ret tt
       end)
      (fun e =>
         log_result "Session Management Test Error" "ERROR"
                    ("Error testing JWT security: " +:+ e) "low").

(** *** test_information_disclosure *)

Definition sensitive_endpoints : list string :=
  [ "/.env"; "/config.json"; "/package.json"; "/api/debug"; "/api/health";
    "/swagger.json"; "/api-docs" ].

Definition sensitive_patterns : list string :=
  [ "password"; "secret"; "key"; "token"; "database"; "connection" ].

Definition information_iteration (endpoint : string) : M Flow :=
  try_except
    (url <- py_urljoin base_url endpoint ;;
     response <- session_get url None ;;
     if status_code response =? 200 then
       let response_text := Str.lower (text response) in
       if existsb (fun pattern => Str.contains pattern response_text)
                  sensitive_patterns
       then
         log_result "Information Disclosure" "VULNERABLE"
                    ("Sensitive information exposed at " +:+ endpoint)
                    "medium" ;;
         ret Next
       else
         log_result "Information Disclosure" "INFO"
                    ("Endpoint accessible but no sensitive data detected: "
                       +:+ endpoint)
                    "low" ;;
         ret Next
     else ret Next)
    (fun e =>
       log_result "Information Disclosure Test Error" "ERROR"
                  ("Error testing " +:+ endpoint +:+ ": " +:+ e) "low" ;;
       ret Next).

Definition test_information_disclosure : M unit :=
  print (Str.newline +:+ "=== Testing Information Disclosure ===") ;;
  for_each sensitive_endpoints information_iteration ;;
  ret tt.

(** *** test_security_headers *)

(** The values of the [security_headers] dict: a string, a list of
    strings, or [None]. *)
Inductive Expected :=
| ExpStr (v : string)
| ExpList (vs : list string)
| ExpNone.

(** The dict literal, in its written (iteration) order. *)
Definition security_headers : list (string * Expected) :=
  [ ("X-Content-Type-Options", ExpStr "nosniff");
    ("X-Frame-Options", ExpList ["DENY"; "SAMEORIGIN"]);
    ("X-XSS-Protection", ExpStr "1; mode=block");
    ("Strict-Transport-Security", ExpNone);
    ("Content-Security-Policy", ExpNone);
    ("Referrer-Policy", ExpNone) ].

(** [header in headers] / [headers[header]] on the case-insensitive dict *)
Definition header_value (hs : gmap string string) (header : string)
    : option string :=
  hs !! Str.lower header.

(** One iteration of the loop over the table: what it appends to
    [missing_headers]. *)
Definition check_header (hs : gmap string string) (header : string)
    (expected_value : Expected) : list string :=
  match header_value hs header with
  | None => [header]
  | Some actual =>
      match expected_value with
      | ExpList [] => []
      | ExpList vs =>
          if bool_decide (actual ∈ vs) then []
          else [header +:+ " (incorrect value)"]
      | ExpStr v =>
          if negb (String.eqb v "") && negb (String.eqb actual v)
          then [header +:+ " (incorrect value)"]
          else []
      | ExpNone => []
      end
  end.

Definition missing_headers (hs : gmap string string) : list string :=
  foldl (fun missing entry =>
           missing ++ check_header hs (fst entry) (snd entry))
        [] security_headers.

Definition test_security_headers : M unit :=
  print (Str.newline +:+ "=== Testing Security Headers ===") ;;
  try_except
    (response <- session_get base_url None ;;
     let missing := missing_headers (headers response) in
     match missing with
     | _ :: _ =>
         log_result "Security Headers" "VULNERABLE"
                    ("Missing or incorrect security headers: "
                       +:+ Str.join ", " missing)
                    "medium"
     | [] =>
         log_result "Security Headers" "SECURE"
           "All important security headers present and configured correctly"
           "info"
     end)
    (fun e =>
       log_result "Security Headers Test Error" "ERROR"
                  ("Error testing security headers: " +:+ e) "low").

(** *** generate_report *)

Definition html_template : string :=
  Str.lines [
    "";
    "        <!DOCTYPE html>";
    "        <html>";
    "        <head>";
    "            <title>Penetration Testing Report</title>";
    "            <style>";
    "                body { font-family: Arial, sans-serif; margin: 20px; }";
    "                .header { background-color: #f4f4f4; padding: 20px; border-radius: 5px; }";
    "                .summary { margin: 20px 0; }";
    "                .result { margin: 10px 0; padding: 10px; border-radius: 5px; }";
    "                .critical { background-color: #ffebee; border-left: 5px solid #f44336; }";
    "                .high { background-color: #fff3e0; border-left: 5px solid #ff9800; }";
    "                .medium { background-color: #f3e5f5; border-left: 5px solid #9c27b0; }";
    "                .low { background-color: #e8f5e8; border-left: 5px solid #4caf50; }";
    "                .info { background-color: #e3f2fd; border-left: 5px solid #2196f3; }";
    "                .vulnerable { background-color: #ffcdd2; }";
    "                .secure { background-color: #c8e6c9; }";
    "                .error { background-color: #ffecb3; }";
    "                .timestamp { font-size: 0.8em; color: #666; }";
    "            </style>";
    "        </head>";
    "        <body>";
    "            <div class=" +:+ Str.dquote +:+ "header" +:+ Str.dquote +:+ ">";
    "                <h1>Penetration Testing Report</h1>";
    "                <p><strong>Target:</strong> {target}</p>";
    "                <p><strong>Generated:</strong> {timestamp}</p>";
    "            </div>";
    "            ";
    "            <div class=" +:+ Str.dquote +:+ "summary" +:+ Str.dquote +:+ ">";
    "                <h2>Summary</h2>";
    "                <p><strong>Total Tests:</strong> {total_tests}</p>";
    "                <p><strong>Critical Issues:</strong> {critical_count}</p>";
    "                <p><strong>High Issues:</strong> {high_count}</p>";
    "                <p><strong>Medium Issues:</strong> {medium_count}</p>";
    "                <p><strong>Low Issues:</strong> {low_count}</p>";
    "            </div>";
    "            ";
    "            <div class=" +:+ Str.dquote +:+ "results" +:+ Str.dquote +:+ ">";
    "                <h2>Detailed Results</h2>";
    "                {results_html}";
    "            </div>";
    "        </body>";
    "        </html>";
    "        " ].

(** "Count results by severity" *)
Definition severity_counts (rs : list ProbeResult) : gmap string nat :=
  foldl (fun counts result =>
           let sev := severity result in
           match counts !! sev with
           | Some n => <[sev := S n]> counts
           | None => counts
           end)
        {[ "critical" := 0%nat; "high" := 0%nat;
           "medium" := 0%nat; "low" := 0%nat ]}
        rs.

(** What one result adds to [results_html]. *)
Definition result_html (result : ProbeResult) : string :=
  let css_class := severity result +:+ " " +:+ Str.lower (status result) in
  Str.lines [
    "";
    "            <div class=" +:+ Str.dquote +:+ "result " +:+ css_class
      +:+ Str.dquote +:+ ">";
    "                <h3>" +:+ test_name result +:+ "</h3>";
    "                <p><strong>Status:</strong> " +:+ status result +:+ "</p>";
    "                <p><strong>Severity:</strong> "
      +:+ Str.upper (severity result) +:+ "</p>";
    "                <p><strong>Details:</strong> " +:+ details result
      +:+ "</p>";
    "                <p class=" +:+ Str.dquote +:+ "timestamp" +:+ Str.dquote
      +:+ ">" +:+ timestamp result +:+ "</p>";
    "            </div>";
    "            " ].

(** The four counters are keys of the tally from the start, so that
    [severity_counts[...]] never raises. *)
Definition generate_report : M unit :=
  collected <- get_results ;;
  let counts := severity_counts collected in
  let results_html :=
    foldl (fun html result => html +:+ result_html result) "" collected in
  generated <- now ;;
  html_content <-
    py_format html_template
      [ ("target", base_url);
        ("timestamp", Str.strftime generated);
        ("total_tests", Str.of_nat (length collected));
        ("critical_count", Str.of_nat (counts !!! "critical"));
        ("high_count", Str.of_nat (counts !!! "high"));
        ("medium_count", Str.of_nat (counts !!! "medium"));
        ("low_count", Str.of_nat (counts !!! "low"));
        ("results_html", results_html) ] ;;
  write_file output_file html_content ;;
  print (Str.newline +:+ "Report generated: " +:+ output_file).

(** *** run_all_tests *)

(** A bound method: its [__name__] and what calling it does. *)
Record TestMethod := mkMethod {
  method_name : string;
  call : M unit
}.

Definition test_methods : list TestMethod :=
  [ mkMethod "test_sql_injection" test_sql_injection;
    mkMethod "test_xss_vulnerabilities" test_xss_vulnerabilities;
    mkMethod "test_authentication_security" test_authentication_security;
    mkMethod "test_authorization_bypass" test_authorization_bypass;
    mkMethod "test_input_validation" test_input_validation;
    mkMethod "test_session_management" test_session_management;
    mkMethod "test_information_disclosure" test_information_disclosure;
    mkMethod "test_security_headers" test_security_headers ].

Definition run_method (test_method : TestMethod) : M Flow :=
  try_except (call test_method)
    (fun e =>
       log_result ("Test Error - " +:+ method_name test_method) "ERROR"
                  ("Unexpected error: " +:+ e) "low") ;;
  ret Next.

(** The loop of [run_all_tests] over a list of methods. *)
Definition run_methods (methods : list TestMethod) : M unit :=
  for_each methods run_method ;;
  ret tt.

(** One line of the console summary for an issue. *)
Definition print_issue (issue : ProbeResult) : M Flow :=
  print ("   - " +:+ test_name issue +:+ ": " +:+ details issue) ;;
  ret Next.

(** The console summary, which follows the call of [generate_report]. *)
Definition print_summary : M unit :=
  print (Str.newline +:+ Str.repeat "=" 60) ;;
  print "PENETRATION TESTING COMPLETE" ;;
  print (Str.repeat "=" 60) ;;
  collected <- get_results ;;
  let critical_issues :=
    filter (fun r => severity r = "critical" /\ status r = "VULNERABLE")
           collected in
  let high_issues :=
    filter (fun r => severity r = "high" /\ status r = "VULNERABLE")
           collected in
  (match critical_issues with
   | _ :: _ =>
       print ("üö® CRITICAL: " +:+ Str.of_nat (length critical_issues)
                +:+ " critical security issues found!") ;;
       for_each critical_issues print_issue ;;
       ret tt
   | [] => ret tt
   end) ;;
  (match high_issues with
   | _ :: _ =>
       print ("‚ö†Ô∏è  HIGH: " +:+ Str.of_nat (length high_issues)
                +:+ " high-severity security issues found!") ;;
       for_each high_issues print_issue ;;
       ret tt
   | [] => ret tt
   end) ;;
  (match critical_issues, high_issues with
   | [], [] =>
       print "‚úÖ No critical or high-severity vulnerabilities detected!"
   | _, _ => ret tt
   end) ;;
  print (Str.newline +:+ "Detailed report saved to: " +:+ output_file).

Definition run_all_tests : M unit :=
  print ("Starting penetration testing against: " +:+ base_url) ;;
  print (Str.repeat "=" 60) ;;
  run_methods test_methods ;;
  generate_report ;;
  print_summary.

End Tester.

(** ** Vocabulary of the properties *)

(** [needle] occurs in [hay]. *)
Definition occurs (needle hay : string) : Prop :=
  exists pre post, hay = pre +:+ needle +:+ post.

(** [needle] occurs in [hay] up to the case of ASCII letters: some
    stretch of [hay] differs from [needle] in case only. *)
Definition occurs_ci (needle hay : string) : Prop :=
  exists mid, occurs mid hay /\ Str.lower mid = Str.lower needle.

(** What became of one entry of a loop that joins a path to the base
    URL and asks for it: [urljoin] raised and nothing was sent, or the
    session was called and answered or raised. *)
Inductive Attempt :=
| Unjoined (e : Exn)
| Asked (q : Request) (o : Outcome).

(** The calls of the session among attempts. *)
Definition asked (tried : list Attempt) : list (Request * Outcome) :=
  omap (fun a => match a with
                 | Asked q o => Some (q, o)
                 | Unjoined _ => None
                 end) tried.

Section Observations.
Context `{Setting}.

(** What a computation started in [s] appended to [self.results] and
    sent through the session. *)
Definition emitted {A} (m : M A) (s : State) : list ProbeResult :=
  drop (length (results s)) (results (snd (m s))).

Definition sent {A} (m : M A) (s : State) : list (Request * Outcome) :=
  drop (length (exchanges s)) (exchanges (snd (m s))).

(** What the target answers to a sequence of requests, from state [t]. *)
Fixpoint replies (t : T) (reqs : list Request) : list Outcome :=
  match reqs with
  | [] => []
  | q :: qs => let (o, t') := respond t q in o :: replies t' qs
  end.

(** What becomes of the entries of a list, from state [t], when for
    each in turn its path is joined to the base URL and, if that gives a
    URL, the request made of it is sent. *)
Fixpoint attempts {X} (path : X -> string) (request : X -> string -> Request)
    (t : T) (xs : list X) : list Attempt :=
  match xs with
  | [] => []
  | x :: xs' =>
      match urljoin base_url (path x) with
      | inl e => Unjoined e :: attempts path request t xs'
      | inr u =>
          let (o, t') := respond t (request x u) in
          Asked (request x u) o :: attempts path request t' xs'
      end
  end.

(** The request of the authorization-bypass probe for the URL of an
    endpoint. *)
Definition authorization_request (u : string) : Request :=
  mkRequest GET u None None.

(** The verdict the authorization-bypass probe owes an endpoint, given
    what became of it; an endpoint whose URL could not be built, or whose
    request raised, is reported as an error. *)
Definition authorization_verdict (endpoint : string) (a : Attempt)
    (rs : list ProbeResult) : Prop :=
  match a with
  | Asked _ (Responded r) =>
      if decide (status_code r = 200) then
        exists x, rs = [x] /\ status x = "VULNERABLE"
                  /\ severity x = "critical" /\ occurs endpoint (details x)
      else if decide (status_code r = 401 \/ status_code r = 403) then
        exists x, rs = [x] /\ status x = "SECURE"
                  /\ severity x = "info" /\ occurs endpoint (details x)
      else rs = []
  | Asked _ (Failed e) | Unjoined e =>
      exists x, rs = [x] /\ status x = "ERROR" /\ severity x = "low"
                /\ occurs endpoint (details x) /\ occurs e (details x)
  end.

(** The requests of the brute-force probe, the status of a reply (none
    when the request raised), and the number of 401s among status
    codes. *)
Definition brute_force_request (login_url : string) (i : nat) : Request :=
  mkRequest POST login_url (Some (brute_force_data i)) None.

Definition brute_force_requests (login_url : string) : list Request :=
  map (brute_force_request login_url) (seq 0 10).

Definition reply_status (o : Outcome) : option Z :=
  match o with
  | Responded r => Some (status_code r)
  | Failed _ => None
  end.

Definition count_401 (codes : list Z) : nat :=
  length (filter (fun c => c = 401) codes).

(** The request of the SQL-injection probe for a payload, and a
    response whose body shows one of the database-error signatures,
    whatever the case of its letters. *)
Definition sql_request (login_url payload : string) : Request :=
  mkRequest POST login_url (Some (sql_data payload)) None.

Definition reveals_sql_error (r : Response) : Prop :=
  exists sig, sig ∈ error_indicators /\ occurs_ci sig (text r).

(** The one request [authenticate] sends. *)
Definition login_request (login_url : string) : Request :=
  mkRequest POST login_url
            (Some [("email", "test@example.com");
                   ("password", "testpassword123")])
            None.


(** [result.get('token') or result.get('accessToken')] on a decoded
    object. *)
Definition login_token (d : gmap string PyVal) : PyVal :=
  let token := default PNone (d !! "token") in
  if truthy token then token else default PNone (d !! "accessToken").


(** The severities the tally has a counter for. *)
Definition tallied_severities : list string :=
  [ "critical"; "high"; "medium"; "low" ].

(** How many results have a severity, whatever their status, and how
    many VULNERABLE results have it. *)
Definition count_severity (sev : string) (rs : list ProbeResult) : nat :=
  length (filter (fun r => severity r = sev) rs).

Definition count_vulnerable (sev : string) (rs : list ProbeResult) : nat :=
  length (filter (fun r => status r = "VULNERABLE" /\ severity r = sev) rs).

(** The one request of the security-headers probe. *)
Definition headers_request : Request := mkRequest GET base_url None None.

(** What the script requires of the response headers: a header name
    and the values accepted for it. *)
Definition required_headers : list (string * (string -> bool)) :=
  [ ("X-Content-Type-Options", String.eqb "nosniff");
    ("X-Frame-Options",
     fun v => String.eqb v "DENY" || String.eqb v "SAMEORIGIN");
    ("X-XSS-Protection", String.eqb "1; mode=block");
    ("Strict-Transport-Security", fun _ => true);
    ("Content-Security-Policy", fun _ => true);
    ("Referrer-Policy", fun _ => true) ].

(** The table with the five rows the specification lists. *)
Definition five_required_headers : list (string * (string -> bool)) :=
  [ ("X-Content-Type-Options", String.eqb "nosniff");
    ("X-Frame-Options",
     fun v => String.eqb v "DENY" || String.eqb v "SAMEORIGIN");
    ("Strict-Transport-Security", fun _ => true);
    ("Content-Security-Policy", fun _ => true);
    ("Referrer-Policy", fun _ => true) ].

(** A header is in order when it is present with an accepted value. *)
Definition in_order (hs : gmap string string)
    (rule : string * (string -> bool)) : bool :=
  match header_value hs rule.1 with
  | Some v => rule.2 v
  | None => false
  end.

Definition offending (hs : gmap string string)
    (rules : list (string * (string -> bool))) : list string :=
  map fst (filter (fun rule => in_order hs rule = false) rules).

(** The state once [req] has been sent and answered. *)
Definition answered (s : State) (req : Request) (o : Outcome) (t' : T)
    : State :=
  mkState _ (results s) (stdout s) t' (exchanges s ++ [(req, o)])
          (clock s) (ticks s) (files s).

(** The state in which a probe that needs a token finds itself once it
    has printed its banner and the login has been answered. *)
Definition logged_in (login_url : string) (s : State) (r : Response)
    (t' : T) (banner : string) : State :=
  answered (print banner s).2 (login_request login_url) (Responded r) t'.

(** What the loop over the payloads leaves behind when one of the
    responses it received shows a database-error signature. *)
Definition sql_match_found (login_url : string)
    (ex : list (Request * Outcome)) (rs : list ProbeResult)
    (flow : Res Flow) : Prop :=
  forall payload r,
    (sql_request login_url payload, Responded r) ∈ ex ->
    reveals_sql_error r ->
    flow = Ok Return
    /\ (exists before,
          ex = before ++ [(sql_request login_url payload, Responded r)])
    /\ exists errors x,
         rs = errors ++ [x]
         /\ Forall (fun y => status y = "ERROR" /\ severity y = "low") errors
         /\ status x = "VULNERABLE" /\ severity x = "critical"
         /\ occurs payload (details x).

(** A row of the script's table against a rule: the row reports nothing
    when the header is in order, and otherwise one entry that shows the
    header's name. *)
Definition row_agrees (hs : gmap string string) (entry : string * Expected)
    (rule : string * (string -> bool)) : Prop :=
  entry.1 = rule.1
  /\ if in_order hs rule then check_header hs entry.1 entry.2 = []
     else exists m, check_header hs entry.1 entry.2 = [m]
                    /\ occurs rule.1 m.

(** The lines that announce a probe module on the console. *)
Definition is_banner (line : string) : bool :=
  String.prefix (Str.newline +:+ "=== Testing ") line.

Definition banners (out : list string) : list string :=
  filter (fun line => is_banner line = true) out.

(** A result with its timestamp blanked, and two results that agree on
    every field but the timestamp. *)
Definition untimed (r : ProbeResult) : ProbeResult :=
  mkResult "" (test_name r) (status r) (severity r) (details r).

Definition same_but_timestamp (r1 r2 : ProbeResult) : Prop :=
  test_name r1 = test_name r2 /\ status r1 = status r2
  /\ severity r1 = severity r2 /\ details r1 = details r2.

(** The state with every clock reading forgotten. *)
Definition erase (s : State) : State :=
  mkState _ (map untimed (results s)) (stdout s) (target s) (exchanges s)
          (fun _ => "") (ticks s) (files s).

(** The state after one more reading of the clock. *)
Definition ticked (s : State) : State :=
  mkState _ (results s) (stdout s) (target s) (exchanges s)
          (clock s) (S (ticks s)) (files s).

(** Two properties of a computation: it announces no module; the
    clock has no influence on what it does. *)
Definition tidy {A} (m : M A) : Prop :=
  forall s, banners (stdout (m s).2) = banners (stdout s).

Definition stable {A} (m : M A) : Prop :=
  forall s, m (erase s) = ((m s).1, erase (m s).2).

(** A module prints its banner and nothing else that looks like one. *)
Definition announces (banner : string) (m : M unit) : Prop :=
  forall s, banners (stdout (m s).2) = banners (stdout s) ++ [banner].

(** The state after one more result has been logged by the handler of
    [run_all_tests] for method [m] raising [e]. *)
Definition error_logged (m : TestMethod) (e : Exn) (s : State) : State :=
  let name := "Test Error - " +:+ method_name m in
  let text := "Unexpected error: " +:+ e in
  mkState _
    (results s ++ [mkResult (clock s (ticks s)) name "ERROR" "low" text])
    (stdout s ++ ["[ERROR] " +:+ name +:+ ": " +:+ text])
    (target s) (exchanges s) (clock s) (S (ticks s)) (files s).

(** Running a list of methods in isolation from one another: each is
    called once, in order; one that raises leaves one ERROR/low result
    carrying its name, and the next one is called all the same. *)
Inductive isolated_run : list TestMethod -> State -> State -> Prop :=
| isolated_done s :
    isolated_run [] s s
| isolated_returned m rest s s1 s2 :
    call m s = (Ok tt, s1) ->
    isolated_run rest s1 s2 ->
    isolated_run (m :: rest) s s2
| isolated_raised m rest s e s1 s2 :
    call m s = (Raise e, s1) ->
    isolated_run rest (error_logged m e s1) s2 ->
    isolated_run (m :: rest) s s2.

(** The state in which [run_all_tests] enters its loop: the two header
    lines printed. *)
Definition started (s : State) : State :=
  (print (Str.repeat "=" 60)
     (print ("Starting penetration testing against: " +:+ base_url) s).2).2.

(** The banners of the eight modules, in the order of [test_methods]. *)
Definition module_banners : list string :=
  map (fun title => Str.newline +:+ "=== Testing " +:+ title +:+ " ===")
      [ "SQL Injection"; "XSS Vulnerabilities"; "Authentication Security";
        "Authorization Bypass"; "Input Validation"; "Session Management";
        "Information Disclosure"; "Security Headers" ].

(** A response that lets an injected login through (status 200 and the
    word token in the body), and a response that makes the SQL-injection
    probe stop. *)
Definition sql_bypassed (r : Response) : Prop :=
  status_code r = 200 /\ occurs "token" (text r).

Definition sql_hit (r : Response) : Prop :=
  reveals_sql_error r \/ sql_bypassed r.

(** The request of the XSS probe for a payload, sent with the token,
    and a response that reflects the payload: it holds the payload as it
    was sent and its status is 200 or 201. *)
Definition xss_request (create_task_url : string) (auth_token : PyVal)
    (payload : string) : Request :=
  mkRequest POST create_task_url (Some (xss_data payload)) (Some auth_token).

Definition reflects (payload : string) (r : Response) : Prop :=
  occurs payload (text r) /\ (status_code r = 200 \/ status_code r = 201).

(** The request of the input-validation probe for an entry of
    [endpoints_to_test] and its URL, sent with the token, and the verdict
    the probe owes the entry. *)
Definition input_validation_request (auth_token : PyVal)
    (entry : string * list (string * string)) (u : string) : Request :=
  mkRequest POST u (Some entry.2) (Some auth_token).

Definition input_validation_verdict (entry : string * list (string * string))
    (a : Attempt) (rs : list ProbeResult) : Prop :=
  match a with
  | Asked _ (Responded r) =>
      if decide (status_code r = 500) then
        exists x, rs = [x] /\ status x = "VULNERABLE"
                  /\ severity x = "medium" /\ occurs entry.1 (details x)
      else if decide (status_code r = 400) then
        exists x, rs = [x] /\ status x = "SECURE"
                  /\ severity x = "info" /\ occurs entry.1 (details x)
      else rs = []
  | Asked _ (Failed e) | Unjoined e =>
      exists x, rs = [x] /\ status x = "ERROR" /\ severity x = "low"
                /\ occurs entry.1 (details x) /\ occurs e (details x)
  end.

(** The request of the information-disclosure probe for the URL of a
    path, a body that shows one of the sensitive words, whatever the case
    of its ASCII letters, and the verdict the probe owes the path.  On a
    body that is not ASCII the verdict is one of the two, and which one
    is left open (Python lowers letters that are not ASCII, too). *)
Definition information_request (u : string) : Request :=
  mkRequest GET u None None.

Definition exposes_sensitive (r : Response) : Prop :=
  exists pattern, pattern ∈ sensitive_patterns /\ occurs_ci pattern (text r).

Definition information_verdict (endpoint : string) (a : Attempt)
    (rs : list ProbeResult) : Prop :=
  match a with
  | Asked _ (Responded r) =>
      if decide (status_code r = 200) then
        exists x, rs = [x] /\ occurs endpoint (details x)
                  /\ ((status x = "VULNERABLE" /\ severity x = "medium")
                      \/ (status x = "INFO" /\ severity x = "low"))
                  /\ (Str.is_ascii (text r) = true ->
                      (exposes_sensitive r <-> status x = "VULNERABLE"))
      else rs = []
  | Asked _ (Failed e) | Unjoined e =>
      exists x, rs = [x] /\ status x = "ERROR" /\ severity x = "low"
                /\ occurs endpoint (details x) /\ occurs e (details x)
  end.

(** The request of the session probe: the profile, asked for with a
    tampered token. *)
Definition profile_request (profile_url tampered_token : string) : Request :=
  mkRequest GET profile_url None (Some (PStr tampered_token)).

(** A target that cannot be reached: every request raises. *)
Definition unreachable : Prop :=
  forall t q, exists e t', respond t q = (Failed e, t').

(** The replies that are failures (the request raised). *)
Definition failures (outs : list Outcome) : list Outcome :=
  filter (fun o => reply_status o = None) outs.

(** No reply of [outs] is a response that satisfies [P]. *)
Definition none_responded (P : Response -> Prop) (outs : list Outcome) : Prop :=
  Forall (fun o => forall r, o = Responded r -> ~ P r) outs.

(** The console line of a result. *)
Definition line_of (r : ProbeResult) : string :=
  log_line (test_name r) (status r) (details r).

(** The pairs of status and severity the script logs. *)
Definition classified (r : ProbeResult) : bool :=
  bool_decide ((status r, severity r) ∈
    [ ("VULNERABLE", "critical"); ("VULNERABLE", "high");
      ("VULNERABLE", "medium"); ("SECURE", "info"); ("ERROR", "low");
      ("SKIPPED", "low"); ("INFO", "low") ]).

(** A computation that only logs: what it appends to the results, each
    satisfying [P], it prints line by line, and nothing else. *)
Definition logs (P : ProbeResult -> Prop) {A} (m : M A) : Prop :=
  forall s, exists rs,
    results (m s).2 = results s ++ rs
    /\ stdout (m s).2 = stdout s ++ map line_of rs
    /\ Forall P rs.

(** A module: its banner, then one line per result it logs. *)
Definition reports (P : ProbeResult -> Prop) (banner : string) (m : M unit)
    : Prop :=
  forall s, exists rs,
    results (m s).2 = results s ++ rs
    /\ stdout (m s).2 = stdout s ++ banner :: map line_of rs
    /\ Forall P rs.

(** The console lines that are no banners. *)
Definition log_lines (out : list string) : list string :=
  filter (fun line => is_banner line = false) out.

(** The results that are no verdict on the target: errors, skipped
    probes and notes. *)
Definition count_not_verdicts (rs : list ProbeResult) : nat :=
  length (filter (fun r => status r = "ERROR" \/ status r = "SKIPPED"
                           \/ status r = "INFO") rs).

(** The paths the script joins to the base URL, and a call of the
    session that stays on the target: its URL is the base URL, or what
    [urljoin] made of the base URL and one of these paths. *)
Definition probed_paths : list string :=
  ["/api/auth/login"; "/api/tasks"] ++ admin_endpoints
    ++ endpoints_to_test.*1 ++ ["/api/users/profile"]
    ++ sensitive_endpoints.

Definition in_scope (q : Request) : Prop :=
  url q = base_url
  \/ exists path, path ∈ probed_paths /\ urljoin base_url path = inr (url q).

(** A computation that calls the session at most [n] times, each time
    in scope. *)
Definition asks (n : nat) {A} (m : M A) : Prop :=
  forall s, exists ex,
    exchanges (m s).2 = exchanges s ++ ex
    /\ Forall (fun x => in_scope x.1) ex
    /\ (length ex <= n)%nat.

(** A computation that writes no file. *)
Definition dry {A} (m : M A) : Prop :=
  forall s, files (m s).2 = files s.

(** [str(e)] of the [KeyError] that [generate_report] raises. *)
Definition report_error : Exn := Str.repr " font-family".

End Observations.

(** ** Stub targets

    Small concrete targets on which the properties are exercised. *)

Module Stub.

(** [urljoin] for a base without a path. *)
Definition join_path (b p : string) : Exn + string := inr (b +:+ p).

(** A response with a body that is not JSON and no headers. *)
Definition plain (code : Z) (body : string) : Response :=
  mkResponse code body ∅ (inl "Expecting value: line 1 column 1 (char 0)").

Definition clock (n : nat) : string := "T" +:+ Str.of_nat n.

Definition report : string := "penetration-test-report.html".

(** Answers 401 to everything. *)
Definition rejecting : Setting :=
  {| T := unit;
     respond := fun t _ => (Responded (plain 401 "Unauthorized"), t);
     urljoin := join_path;
     base := "http://localhost:3000/";
     output_file := report |}.

(** Refuses every connection. *)
Definition down : Setting :=
  {| T := unit;
     respond := fun t _ => (Failed "Connection refused", t);
     urljoin := join_path;
     base := "http://localhost:3000/";
     output_file := report |}.

(** A base URL that [urljoin] cannot parse and that no call of the
    session accepts. *)
Definition malformed : Setting :=
  {| T := unit;
     respond := fun t _ => (Failed "Failed to parse: http://[bad", t);
     urljoin := fun _ _ => inl "Invalid IPv6 URL";
     base := "http://[bad";
     output_file := report |}.

(** Answers 401 to the first nine requests and 429 from then on. *)
Definition limiting : Setting :=
  {| T := nat;
     respond := fun n _ =>
       (Responded (plain (if (n <? 9)%nat then 401 else 429) ""), S n);
     urljoin := join_path;
     base := "http://localhost:3000/";
     output_file := report |}.

(** Logs everybody in: 200 and a token, whatever the request. *)
Definition welcome : Response :=
  mkResponse 200 "token: abc.def.ghi" ∅ (inr (PDict {[ "token" := PStr "abc.def.ghi" ]})).

Definition welcoming : Setting :=
  {| T := unit;
     respond := fun t _ => (Responded welcome, t);
     urljoin := join_path;
     base := "http://localhost:3000/";
     output_file := report |}.

(** Shows its database error when the e-mail holds a UNION. *)
Definition leak : Response :=
  plain 500 "You have an error in your SQL Syntax near 'UNION SELECT'".

Definition leaky : Setting :=
  {| T := unit;
     respond := fun t req =>
       match json_data req with
       | Some ((_, email) :: _) =>
           if Str.contains "UNION" email then (Responded leak, t)
           else (Responded (plain 401 "Unauthorized"), t)
       | _ => (Responded (plain 401 "Unauthorized"), t)
       end;
     urljoin := join_path;
     base := "http://localhost:3000/";
     output_file := report |}.

(** Sends the five headers of the specification's table, all in order,
    and no [X-XSS-Protection]. *)
Definition five_headers : Response :=
  mkResponse 200 "ok"
    (list_to_map
       [ ("x-content-type-options", "nosniff");
         ("x-frame-options", "DENY");
         ("strict-transport-security", "max-age=31536000");
         ("content-security-policy", "default-src 'self'");
         ("referrer-policy", "no-referrer") ])
    (inl "Expecting value: line 1 column 1 (char 0)").

Definition five_header_site : Setting :=
  {| T := unit;
     respond := fun t _ => (Responded five_headers, t);
     urljoin := join_path;
     base := "http://localhost:3000/";
     output_file := report |}.

(** Logs everybody in, with the token under [accessToken] only. *)
Definition renamed : Response :=
  mkResponse 200 "ok" ∅ (inr (PDict {[ "accessToken" := PStr "abc.def.ghi" ]})).

Definition renaming : Setting :=
  {| T := unit;
     respond := fun t _ => (Responded renamed, t);
     urljoin := join_path;
     base := "http://localhost:3000/";
     output_file := report |}.

(** Logs everybody in, with a session identifier that is no JWT. *)
Definition opaque : Response :=
  mkResponse 200 "ok" ∅ (inr (PDict {[ "token" := PStr "opaque-session-id" ]})).

Definition opaque_site : Setting :=
  {| T := unit;
     respond := fun t _ => (Responded opaque, t);
     urljoin := join_path;
     base := "http://localhost:3000/";
     output_file := report |}.

(** The URLs of the targets at [localhost]. *)
Definition login_url : string := "http://localhost:3000/api/auth/login".

Definition tasks_url : string := "http://localhost:3000/api/tasks".

Definition profile_url : string := "http://localhost:3000/api/users/profile".

(** A fresh tester in front of each target. *)
Definition rejecting_start : State (H := rejecting) :=
  initial (H := rejecting) tt clock.

Definition down_start : State (H := down) :=
  initial (H := down) tt clock.

Definition malformed_start : State (H := malformed) :=
  initial (H := malformed) tt clock.

Definition limiting_start : State (H := limiting) :=
  initial (H := limiting) 0%nat clock.

Definition welcoming_start : State (H := welcoming) :=
  initial (H := welcoming) tt clock.

Definition leaky_start : State (H := leaky) :=
  initial (H := leaky) tt clock.

Definition five_header_start : State (H := five_header_site) :=
  initial (H := five_header_site) tt clock.

Definition renaming_start : State (H := renaming) :=
  initial (H := renaming) tt clock.

Definition opaque_start : State (H := opaque_site) :=
  initial (H := opaque_site) tt clock.

(** The payload that makes [leaky] leak. *)
Definition union_payload : string := "' UNION SELECT * FROM users --".

End Stub.
(** * Properties *)

(** ** Strings *)

Module StrFacts.
Import Str.

Lemma append_cons (c : ascii) (s1 s2 : string) :
  String c s1 +:+ s2 = String c (s1 +:+ s2).
Proof. reflexivity. Qed.

Lemma append_nil_r (s : string) : s +:+ "" = s.
Proof. induction s as [|c s IH]; [done|]. by rewrite append_cons, IH. Qed.

Lemma append_assoc (s1 s2 s3 : string) :
  (s1 +:+ s2) +:+ s3 = s1 +:+ (s2 +:+ s3).
Proof.
  induction s1 as [|c s1 IH]; [done|]. by rewrite !append_cons, IH.
Qed.

Lemma prefix_spec (p s : string) :
  String.prefix p s = true <-> exists post, s = p +:+ post.
Proof.
  revert s. induction p as [|c p IH]; intros s.
  - split; [intros _; by exists s | by destruct s].
  - destruct s as [|d s]; simpl;
      [split; [done | intros [post Hp]; discriminate]|].
    destruct (ascii_dec c d) as [->|Hne].
    + rewrite IH. split; intros [post Hp]; exists post.
      * by rewrite append_cons, <- Hp.
      * rewrite append_cons in Hp. congruence.
    + split; [done|]. intros [post Hp]. rewrite append_cons in Hp. congruence.
Qed.

Lemma contains_spec (needle hay : string) :
  contains needle hay = true <-> occurs needle hay.
Proof.
  induction hay as [|c hay IH]; cbn [contains].
  - rewrite orb_false_r, prefix_spec. split.
    + intros [post Hp]. by exists "", post.
    + intros ([|??] & post & Hp); [by exists post | discriminate].
  - rewrite orb_true_iff, prefix_spec, IH. split.
    + intros [[post Hp] | (pre & post & Hp)].
      * by exists "", post.
      * exists (String c pre), post. by rewrite append_cons, <- Hp.
    + intros ([|d pre] & post & Hp).
      * left. by exists post.
      * right. rewrite append_cons in Hp. injection Hp as -> ->.
        by exists pre, post.
Qed.

Lemma occurs_intro (pre needle post : string) :
  occurs needle (pre +:+ needle +:+ post).
Proof. by exists pre, post. Qed.

Lemma occurs_prepend_nil (pre needle : string) :
  occurs needle (pre +:+ needle).
Proof. exists pre, "". by rewrite append_nil_r. Qed.

Lemma occurs_prepend (pre needle hay : string) :
  occurs needle hay -> occurs needle (pre +:+ hay).
Proof.
  intros (a & b & ->). exists (pre +:+ a), b. by rewrite append_assoc.
Qed.

Lemma lower_app (s1 s2 : string) : lower (s1 +:+ s2) = lower s1 +:+ lower s2.
Proof.
  induction s1 as [|c s1 IH]; [done|].
  rewrite append_cons. simpl. by rewrite IH, append_cons.
Qed.

Lemma lower_split (s a b : string) :
  lower s = a +:+ b ->
  exists a' b', s = a' +:+ b' /\ lower a' = a /\ lower b' = b.
Proof.
  revert s. induction a as [|c a IH]; intros s Hs.
  - by exists "", s.
  - destruct s as [|d s]; [discriminate|].
    rewrite append_cons in Hs. simpl in Hs. injection Hs as Hc Hs.
    destruct (IH _ Hs) as (a' & b' & -> & Ha & Hb).
    exists (String d a'), b'. simpl. by rewrite Hc, Ha.
Qed.

(** The test the script makes, [needle in hay.lower()] with a needle
    written in lower case, is the search up to case. *)
Lemma contains_lower_spec (needle hay : string) :
  lower needle = needle ->
  contains needle (lower hay) = true <-> occurs_ci needle hay.
Proof.
  intros Hn. rewrite contains_spec. split.
  - intros (pre & post & Hh).
    apply lower_split in Hh as (pre' & rest & -> & _ & Hrest).
    apply lower_split in Hrest as (mid & post' & -> & Hmid & _).
    exists mid. split; [apply occurs_intro | congruence].
  - intros (mid & (pre & post & ->) & Hmid).
    rewrite !lower_app, Hmid, Hn. apply occurs_intro.
Qed.

Lemma split_cons (sep : ascii) (s : string) :
  exists h t, split sep s = h :: t.
Proof.
  destruct s as [|c s]; [by exists "", []|]. cbn [split].
  destruct (Ascii.eqb c sep); [by eexists _, _|].
  destruct (split sep s); by eexists _, _.
Qed.

Lemma concat_cons (sep : string) (c : ascii) (h : string) (t : list string) :
  String.concat sep (String c h :: t) = String c (String.concat sep (h :: t)).
Proof. by destruct t. Qed.

(** Joining the segments of a split gives the string back. *)
Lemma join_split (sep : ascii) (s : string) :
  join (String sep "") (split sep s) = s.
Proof.
  unfold join. induction s as [|c s IH]; [done|]. cbn [split].
  destruct (Ascii.eqb_spec c sep) as [->|Hne].
  - destruct (split_cons sep s) as (h & t & Hs). rewrite Hs in *.
    change (String sep (String.concat (String sep "") (h :: t))
            = String sep s).
    by rewrite IH.
  - destruct (split sep s) as [|h t] eqn:Hs.
    + destruct (split_cons sep s) as (h & t & Hc). congruence.
    + by rewrite concat_cons, IH.
Qed.

Lemma append_not_nil (s : string) (c : ascii) : s +:+ String c "" <> "".
Proof. by destruct s. Qed.

(** [rstrip] removes a run of the character at the end, and nothing
    else. *)
Lemma rstrip_decompose (c : ascii) (s : string) :
  exists k, s = rstrip c s +:+ repeat c k.
Proof.
  induction s as [|a s [k IH]]; [by exists 0%nat|]. cbn [rstrip].
  destruct (rstrip c s) as [|b rest] eqn:Hr.
  - destruct (Ascii.eqb_spec a c) as [->|Hne].
    + exists (S k). cbn. by rewrite IH at 1.
    + exists k. rewrite append_cons. by rewrite IH at 1.
  - exists k. rewrite append_cons. by rewrite IH at 1.
Qed.

Lemma rstrip_no_suffix (c : ascii) (s t : string) :
  rstrip c s <> t +:+ String c "".
Proof.
  revert t. induction s as [|a s IH]; intros t; cbn [rstrip].
  { intros Heq. symmetry in Heq. by apply append_not_nil in Heq. }
  destruct (rstrip c s) as [|b rest] eqn:Hr.
  - destruct (Ascii.eqb_spec a c) as [->|Hne].
    + intros Heq. symmetry in Heq. by apply append_not_nil in Heq.
    + destruct t as [|a' t]; rewrite ?append_cons; intros Heq.
      * change ("" +:+ String c "") with (String c "") in Heq. congruence.
      * injection Heq as _ Ht. symmetry in Ht. by apply append_not_nil in Ht.
  - destruct t as [|a' t]; rewrite ?append_cons; intros Heq.
    + change ("" +:+ String c "") with (String c "") in Heq. congruence.
    + injection Heq as _ Ht. by apply (IH t).
Qed.

End StrFacts.

(** ** Running the monad *)

Section Properties.
Context `{Setting}.
Import StrFacts.
Local Open Scope pen_scope.

Lemma emitted_intro {A} (m : M A) (s : State) (rs : list ProbeResult) :
  results (snd (m s)) = results s ++ rs -> emitted m s = rs.
Proof. unfold emitted. intros ->. by rewrite drop_app_length. Qed.

Lemma sent_intro {A} (m : M A) (s : State) (ex : list (Request * Outcome)) :
  exchanges (snd (m s)) = exchanges s ++ ex -> sent m s = ex.
Proof. unfold sent. intros ->. by rewrite drop_app_length. Qed.

Lemma emitted_nil {A} (m : M A) (s : State) :
  results (snd (m s)) = results s -> emitted m s = [].
Proof. intros Hr. apply emitted_intro. by rewrite app_nil_r. Qed.

Lemma sent_nil {A} (m : M A) (s : State) :
  exchanges (snd (m s)) = exchanges s -> sent m s = [].
Proof. intros Hr. apply sent_intro. by rewrite app_nil_r. Qed.

Lemma print_bind {A} (line : string) (body : M A) (s : State) :
  (print line ;; body) s = body (print line s).2.
Proof. reflexivity. Qed.

Lemma bind_ret_state {A} (m : M A) (s : State) :
  ((m ;; ret tt) s).2 = (m s).2.
Proof. unfold bind. by destruct (m s) as [[a|e] s1]. Qed.

(** [urljoin] inside the monad. *)
Lemma urljoin_bind_joined {A} (path u : string) (k : string -> M A)
    (s : State) :
  urljoin base_url path = inr u ->
  (joined <- py_urljoin base_url path ;; k joined) s = k u s.
Proof. intros Hj. unfold bind, py_urljoin. by rewrite Hj. Qed.

Lemma urljoin_bind_raised {A} (path : string) (e : Exn) (k : string -> M A)
    (s : State) :
  urljoin base_url path = inl e ->
  (joined <- py_urljoin base_url path ;; k joined) s = (Raise e, s).
Proof. intros Hj. unfold bind, py_urljoin. by rewrite Hj. Qed.

Lemma replies_length (t : T) (reqs : list Request) :
  length (replies t reqs) = length reqs.
Proof.
  revert t. induction reqs as [|q qs IH]; intros t; [done|].
  simpl. destruct (respond t q). simpl. by rewrite IH.
Qed.

Lemma attempts_length {X} (path : X -> string)
    (request : X -> string -> Request) (t : T) (xs : list X) :
  length (attempts path request t xs) = length xs.
Proof.
  revert t. induction xs as [|x xs IH]; intros t; [done|]. cbn [attempts].
  destruct (urljoin base_url (path x)) as [e|u]; cbn; [by rewrite IH|].
  destruct (respond t (request x u)). cbn. by rewrite IH.
Qed.

(** When every path joins, the attempts are the requests and their
    replies. *)
Lemma attempts_joined {X} (path : X -> string)
    (request : X -> string -> Request) (t : T) (xs : list X)
    (us : list string) :
  Forall2 (fun x u => urljoin base_url (path x) = inr u) xs us ->
  let reqs := zip_with request xs us in
  asked (attempts path request t xs) = zip reqs (replies t reqs).
Proof.
  intros Hall. revert t. induction Hall as [|x u xs us Hj _ IH]; intros t;
    [done|].
  cbn [attempts zip_with replies]. rewrite Hj.
  destruct (respond t (request x u)) as [o t']. cbn. by rewrite IH.
Qed.

(** When no path joins, nothing is asked. *)
Lemma attempts_unjoined {X} (path : X -> string)
    (request : X -> string -> Request) (t : T) (xs : list X) :
  Forall (fun x => exists e, urljoin base_url (path x) = inl e) xs ->
  asked (attempts path request t xs) = [].
Proof.
  induction 1 as [|x xs [e Hj] _ IH]; [done|].
  cbn [attempts]. by rewrite Hj.
Qed.

Lemma for_each_next {A} (x : A) (xs : list A) (body : A -> M Flow)
    (s s1 : State) :
  body x s = (Ok Next, s1) ->
  for_each (x :: xs) body s = for_each xs body s1.
Proof. intros Hb. cbn [for_each]. unfold bind. by rewrite Hb. Qed.

Lemma for_each_return {A} (x : A) (xs : list A) (body : A -> M Flow)
    (s s1 : State) :
  body x s = (Ok Return, s1) ->
  for_each (x :: xs) body s = (Ok Return, s1).
Proof. intros Hb. cbn [for_each]. unfold bind. by rewrite Hb. Qed.

(** ** Loops that visit every entry *)

Section Sweep.
(** A loop whose iteration joins a path to the base URL, sends one
    request if that gives a URL, and always goes on. *)
Context {X : Type}.
Variable path : X -> string.
Variable request : X -> string -> Request.
Variable body : X -> M Flow.
Variable owed : X -> Attempt -> list ProbeResult -> Prop.

Hypothesis body_step : forall x s,
  match urljoin base_url (path x) with
  | inl e =>
      (body x s).1 = Ok Next
      /\ exchanges (body x s).2 = exchanges s
      /\ target (body x s).2 = target s
      /\ exists rs, results (body x s).2 = results s ++ rs
                    /\ owed x (Unjoined e) rs
  | inr u =>
      forall o t',
        respond (target s) (request x u) = (o, t') ->
        (body x s).1 = Ok Next
        /\ exchanges (body x s).2 = exchanges s ++ [(request x u, o)]
        /\ target (body x s).2 = t'
        /\ exists rs, results (body x s).2 = results s ++ rs
                      /\ owed x (Asked (request x u) o) rs
  end.

Lemma sweep_loop (xs : list X) (s : State) :
  let tried := attempts path request (target s) xs in
  let run := for_each xs body s in
  exists per,
    run.1 = Ok Next
    /\ results run.2 = results s ++ concat per
    /\ exchanges run.2 = exchanges s ++ asked tried
    /\ Forall2 (fun xa rs => owed xa.1 xa.2 rs) (zip xs tried) per.
Proof.
  revert s. induction xs as [|x rest IH]; intros s; cbn zeta.
  - exists []. cbn. by rewrite !app_nil_r.
  - cbn [attempts]. pose proof (body_step x s) as Hstep.
    destruct (urljoin base_url (path x)) as [e|u].
    + destruct Hstep as (Hflow & Hex & Ht & rs & Hrs & Howed).
      destruct (body x s) as [f s1] eqn:Hbody. cbn [fst snd] in *. subst f.
      rewrite (for_each_next _ _ _ _ _ Hbody).
      destruct (IH s1) as (per & Hf & Hres & Hexs & Hall).
      rewrite Ht in Hexs, Hall.
      exists (rs :: per). rewrite Hf, Hres, Hexs, Hrs, Hex. cbn.
      rewrite <- !app_assoc. split_and!; try done. by constructor.
    + destruct (respond (target s) (request x u)) as [o t'] eqn:Hq.
      destruct (Hstep _ _ eq_refl) as (Hflow & Hex & Ht & rs & Hrs & Howed).
      destruct (body x s) as [f s1] eqn:Hbody. cbn [fst snd] in *. subst f t'.
      rewrite (for_each_next _ _ _ _ _ Hbody).
      destruct (IH s1) as (per & Hf & Hres & Hexs & Hall).
      exists (rs :: per). rewrite Hf, Hres, Hexs, Hrs, Hex. cbn.
      rewrite <- !app_assoc. split_and!; try done. by constructor.
Qed.

End Sweep.

(** ** The authorization-bypass probe *)

Lemma occurs_after (pre mid needle : string) :
  occurs needle (pre +:+ mid +:+ needle).
Proof. apply occurs_prepend, occurs_prepend_nil. Qed.

Lemma occurs_error_details (pre endpoint sep e : string) :
  occurs endpoint (pre +:+ endpoint +:+ sep +:+ e)
  /\ occurs e (pre +:+ endpoint +:+ sep +:+ e).
Proof.
  split; [apply occurs_intro|]. do 2 apply occurs_prepend.
  apply occurs_prepend_nil.
Qed.

Lemma authorization_step (endpoint : string) (s : State) :
  match urljoin base_url endpoint with
  | inl e =>
      (authorization_iteration endpoint s).1 = Ok Next
      /\ exchanges (authorization_iteration endpoint s).2 = exchanges s
      /\ target (authorization_iteration endpoint s).2 = target s
      /\ exists rs,
           results (authorization_iteration endpoint s).2 = results s ++ rs
           /\ authorization_verdict endpoint (Unjoined e) rs
  | inr u =>
      forall o t',
        respond (target s) (authorization_request u) = (o, t') ->
        (authorization_iteration endpoint s).1 = Ok Next
        /\ exchanges (authorization_iteration endpoint s).2
           = exchanges s ++ [(authorization_request u, o)]
        /\ target (authorization_iteration endpoint s).2 = t'
        /\ exists rs,
             results (authorization_iteration endpoint s).2 = results s ++ rs
             /\ authorization_verdict endpoint (Asked (authorization_request u) o)
                                      rs
  end.
Proof.
  unfold authorization_iteration, try_except, bind, py_urljoin.
  destruct (urljoin base_url endpoint) as [e|u]; cbn -[authorization_request].
  { split_and!; [done..|]. eexists. split; [reflexivity|].
    eexists. split_and!; [done..| |]; apply occurs_error_details. }
  intros o t' Hq. unfold session_get, send.
  fold (authorization_request u). rewrite Hq.
  unfold authorization_verdict.
  destruct o as [r|e]; cbn -[authorization_request].
  - destruct (Z.eqb_spec (status_code r) 200) as [H200|H200];
      [|destruct (Z.eqb_spec (status_code r) 401) as [H401|H401];
        [|destruct (Z.eqb_spec (status_code r) 403) as [H403|H403]]];
      cbn -[authorization_request]; repeat case_decide; try tauto; try lia;
      (split_and!; [done..|]);
      eexists; (split; [reflexivity || (symmetry; apply app_nil_r)|]);
      try done; eexists; split_and!; try done; cbn; apply occurs_prepend_nil.
  - split_and!; [done..|]. eexists. split; [reflexivity|].
    eexists. split_and!; [done..| |]; apply occurs_error_details.
Qed.

Lemma zip_with_request_map {X} (request : string -> Request) (xs : list X)
    (us : list string) (P : X -> string -> Prop) :
  Forall2 P xs us ->
  zip_with (fun _ => request) xs us = map request us.
Proof. induction 1 as [|x u xs us _ _ IH]; [done|]. cbn. by rewrite IH. Qed.

(** C6, as the script has it.  The probe takes the four privileged
    endpoints in order, whatever it found before.  For each it joins the
    path to the base URL and, unless [urljoin] raises, sends one request;
    what it logs is, endpoint by endpoint: one VULNERABLE/critical result
    on status 200, one SECURE/info result on 401 or 403, nothing on any
    other status, and one ERROR/low result when the request or [urljoin]
    raised.  When the four URLs can be built, the four requests are sent,
    once each and in order. *)
Theorem authorization_bypass_checks_every_endpoint (s : State) :
  let endpoints :=
    [ "/api/admin/users"; "/api/admin/system/health";
      "/api/admin/analytics"; "/api/admin/settings" ] in
  let tried :=
    attempts id (fun _ => authorization_request) (target s) endpoints in
  (test_authorization_bypass s).1 = Ok tt
  /\ sent test_authorization_bypass s = asked tried
  /\ (exists per,
        emitted test_authorization_bypass s = concat per
        /\ Forall2 (fun ea rs => authorization_verdict ea.1 ea.2 rs)
                   (zip endpoints tried) per)
  /\ forall us,
       Forall2 (fun endpoint u => urljoin base_url endpoint = inr u)
               endpoints us ->
       let reqs := map authorization_request us in
       map fst (sent test_authorization_bypass s) = reqs
       /\ map snd (sent test_authorization_bypass s)
          = replies (target s) reqs.
Proof.
  intros endpoints tried.
  pose (s0 := (print (Str.newline +:+ "=== Testing Authorization Bypass ===")
                     s).2).
  destruct (sweep_loop id (fun _ => authorization_request)
              authorization_iteration authorization_verdict
              authorization_step admin_endpoints s0)
    as (per & Hflow & Hres & Hex & Hall).
  assert (test_authorization_bypass s
          = (Ok tt, (for_each admin_endpoints authorization_iteration s0).2))
    as Hrun.
  { unfold test_authorization_bypass. rewrite print_bind. fold s0.
    unfold bind.
    destruct (for_each admin_endpoints authorization_iteration s0)
      as [[f|e] s1]; [done|]. cbn in Hflow. done. }
  assert (sent test_authorization_bypass s = asked tried) as Hsent.
  { apply sent_intro. by rewrite Hrun. }
  split_and!.
  - by rewrite Hrun.
  - done.
  - exists per. split; [|done]. apply emitted_intro. by rewrite Hrun.
  - intros us Hus reqs. rewrite Hsent. subst tried.
    rewrite (attempts_joined id _ _ _ us Hus). cbn zeta.
    rewrite (zip_with_request_map authorization_request _ _ _ Hus).
    fold reqs. split.
    + apply fst_zip. by rewrite replies_length.
    + apply snd_zip. by rewrite replies_length.
Qed.

(** ** The brute-force probe *)

Section BruteForce.
(** The loop, once the login URL has been built. *)
Variable login_url : string.

Lemma brute_force_step (i n : nat) (s : State) (o : Outcome) (t' : T) :
  respond (target s) (brute_force_request login_url i) = (o, t') ->
  let s1 := answered s (brute_force_request login_url i) o t' in
  brute_force_attempt login_url i n s =
    match o with
    | Responded r =>
        if status_code r =? 401 then (Ok (Next, S n), s1)
        else if status_code r =? 429 then
          (Ok (Break, n),
           (log_result "Brute Force Protection" "SECURE"
              ("Rate limiting activated after " +:+ Str.of_nat n
                 +:+ " attempts") "info" s1).2)
        else (Ok (Next, n), s1)
    | Failed e =>
        (Ok (Break, n),
         (log_result "Authentication Test Error" "ERROR"
            ("Error during brute force test: " +:+ e) "low" s1).2)
    end.
Proof.
  intros Hq s1. unfold brute_force_attempt, try_except, bind, session_post, send.
  fold (brute_force_request login_url i). rewrite Hq. destruct o as [r|e]; [|done].
  cbn. by repeat case_match.
Qed.

Lemma brute_force_loop_cons (i : nat) (rest : list nat) (n : nat)
    (s : State) :
  brute_force_loop login_url (i :: rest) n s =
    match brute_force_attempt login_url i n s with
    | (Ok (Next, n'), s1) => brute_force_loop login_url rest n' s1
    | other => other
    end.
Proof.
  cbn [brute_force_loop]. unfold bind.
  by destruct (brute_force_attempt login_url i n s) as [[[[] n']|e] s1].
Qed.

(** No 429 and no failure: the loop runs to its end. *)
Lemma brute_force_loop_exhausted (attempts : list nat) (codes : list Z)
    (n : nat) (s : State) :
  let reqs := map (brute_force_request login_url) attempts in
  let outs := replies (target s) reqs in
  map reply_status outs = map Some codes ->
  429 ∉ codes ->
  exists s',
    brute_force_loop login_url attempts n s = (Ok (Next, (n + count_401 codes)%nat), s')
    /\ results s' = results s
    /\ ticks s' = ticks s
    /\ clock s' = clock s
    /\ exchanges s' = exchanges s ++ zip reqs outs.
Proof.
  revert codes n s.
  induction attempts as [|i rest IH]; intros codes n s; cbn zeta.
  - intros Hc _. destruct codes; [|done]. exists s. cbn.
    unfold count_401. cbn. by rewrite Nat.add_0_r, app_nil_r.
  - cbn [map replies].
    destruct (respond (target s) (brute_force_request login_url i)) as [o t'] eqn:Hq.
    destruct codes as [|c codes]; [done|]. cbn [map].
    intros Hc Hno. injection Hc as Ho Hc.
    destruct o as [r|e]; [|done]. cbn in Ho. injection Ho as <-.
    apply not_elem_of_cons in Hno as [Hne Hno].
    rewrite brute_force_loop_cons, (brute_force_step _ _ _ _ _ Hq).
    destruct (Z.eqb_spec (status_code r) 429) as [|_]; [done|].
    set (s1 := answered s (brute_force_request login_url i) (Responded r) t').
    destruct (Z.eqb_spec (status_code r) 401) as [H401|H401].
    + destruct (IH codes (S n) s1 Hc Hno) as (s' & -> & ? & ? & ? & Hex).
      exists s'. unfold count_401. rewrite filter_cons_True by done.
      cbn [length]. rewrite Nat.add_succ_r. split_and!; try done.
      rewrite Hex. cbn. by rewrite <- app_assoc.
    + destruct (IH codes n s1 Hc Hno) as (s' & -> & ? & ? & ? & Hex).
      exists s'. unfold count_401. rewrite filter_cons_False by done.
      split_and!; try done. rewrite Hex. cbn. by rewrite <- app_assoc.
Qed.

(** A 429 after replies that are neither 429 nor failures: the loop
    stops there with the SECURE verdict. *)
Lemma brute_force_loop_limited (attempts : list nat) (codes : list Z)
    (later : list (option Z)) (n : nat) (s : State) :
  let reqs := map (brute_force_request login_url) attempts in
  let outs := replies (target s) reqs in
  map reply_status outs = map Some codes ++ Some 429 :: later ->
  429 ∉ codes ->
  exists s',
    brute_force_loop login_url attempts n s = (Ok (Break, (n + count_401 codes)%nat), s')
    /\ results s' =
         results s ++
         [mkResult (clock s (ticks s)) "Brute Force Protection" "SECURE"
            "info"
            ("Rate limiting activated after "
               +:+ Str.of_nat (n + count_401 codes) +:+ " attempts")]
    /\ exchanges s' = exchanges s ++ take (S (length codes)) (zip reqs outs).
Proof.
  revert codes n s.
  induction attempts as [|i rest IH]; intros codes n s; cbn zeta.
  - intros Hc _. by destruct codes.
  - cbn [map replies].
    destruct (respond (target s) (brute_force_request login_url i)) as [o t'] eqn:Hq.
    rewrite brute_force_loop_cons, (brute_force_step _ _ _ _ _ Hq).
    set (s1 := answered s (brute_force_request login_url i) o t').
    destruct codes as [|c codes]; cbn [map app length]; intros Hc Hno;
      injection Hc as Ho Hc; (destruct o as [r|e]; [|done]);
      cbn in Ho; injection Ho as Ho.
    + change (count_401 []) with 0%nat. rewrite Nat.add_0_r, Ho. cbn.
      eexists. by split.
    + subst c. apply not_elem_of_cons in Hno as [Hne Hno].
      destruct (Z.eqb_spec (status_code r) 429) as [|_]; [done|].
      destruct (Z.eqb_spec (status_code r) 401) as [H401|H401].
      * destruct (IH codes (S n) s1 Hc Hno) as (s' & -> & Hres & Hex).
        exists s'. unfold count_401. rewrite filter_cons_True by done.
        cbn [length]. rewrite Nat.add_succ_r. split_and!; try done.
        rewrite Hex. cbn. by rewrite <- app_assoc.
      * destruct (IH codes n s1 Hc Hno) as (s' & -> & Hres & Hex).
        exists s'. unfold count_401. rewrite filter_cons_False by done.
        split_and!; try done. rewrite Hex. cbn. by rewrite <- app_assoc.
Qed.

(** A request of the loop that raised is the last one, and the loop
    leaves one ERROR/low result behind. *)
Lemma brute_force_loop_failure (attempts : list nat) (n : nat) (s : State) :
  let s' := (brute_force_loop login_url attempts n s).2 in
  exists ex,
    exchanges s' = exchanges s ++ ex
    /\ forall q e,
         (q, Failed e) ∈ ex ->
         (exists before, ex = before ++ [(q, Failed e)])
         /\ (exists n', (brute_force_loop login_url attempts n s).1 = Ok (Break, n'))
         /\ results s' =
              results s ++
              [mkResult (clock s (ticks s)) "Authentication Test Error"
                 "ERROR" "low" ("Error during brute force test: " +:+ e)].
Proof.
  revert n s. induction attempts as [|i rest IH]; intros n s; cbn zeta.
  - exists []. split; [by rewrite app_nil_r|]. by intros q e ?%elem_of_nil.
  - destruct (respond (target s) (brute_force_request login_url i)) as [o t'] eqn:Hq.
    rewrite brute_force_loop_cons, (brute_force_step _ _ _ _ _ Hq).
    set (s1 := answered s (brute_force_request login_url i) o t').
    destruct o as [r|e0].
    + assert (forall n1,
        exists ex,
          exchanges (brute_force_loop login_url rest n1 s1).2 = exchanges s ++ ex
          /\ forall q e, (q, Failed e) ∈ ex ->
             (exists before, ex = before ++ [(q, Failed e)])
             /\ (exists n', (brute_force_loop login_url rest n1 s1).1 = Ok (Break, n'))
             /\ results (brute_force_loop login_url rest n1 s1).2 =
                  results s ++
                  [mkResult (clock s (ticks s)) "Authentication Test Error"
                     "ERROR" "low"
                     ("Error during brute force test: " +:+ e)]) as Hgo.
      { intros n1. destruct (IH n1 s1) as (ex & Hex & Hfail).
        exists ((brute_force_request login_url i, Responded r) :: ex). split.
        - rewrite Hex. cbn. by rewrite <- app_assoc.
        - intros q e [Hhead|Hin]%elem_of_cons; [done|].
          destruct (Hfail q e Hin) as ((before & ->) & Hflow & Hres).
          split_and!; try done.
          by exists ((brute_force_request login_url i, Responded r) :: before). }
      destruct (status_code r =? 401); [apply Hgo|].
      destruct (status_code r =? 429); [|apply Hgo].
      exists [(brute_force_request login_url i, Responded r)]. split; [done|].
      intros q e Hin%list_elem_of_singleton. done.
    + exists [(brute_force_request login_url i, Failed e0)]. split; [done|].
      intros q e Hin%list_elem_of_singleton. injection Hin as -> ->.
      split_and!; [by exists [] | by eexists | done].
Qed.

Hypothesis Hjoin : urljoin base_url "/api/auth/login" = inr login_url.

Lemma authentication_security_unfold (s : State) :
  let s0 := (print (Str.newline +:+ "=== Testing Authentication Security ===")
                   s).2 in
  test_authentication_security s =
    match brute_force_loop login_url (seq 0 10) 0 s0 with
    | (Ok (Next, n), s1) =>
        log_result "Brute Force Protection" "VULNERABLE"
          ("No rate limiting detected after " +:+ Str.of_nat n
             +:+ " failed attempts") "medium" s1
    | (Ok (_, _), s1) => (Ok tt, s1)
    | (Raise e, s1) => (Raise e, s1)
    end.
Proof.
  intros s0. unfold test_authentication_security.
  rewrite print_bind. fold s0. rewrite (urljoin_bind_joined _ _ _ _ Hjoin).
  unfold bind.
  by destruct (brute_force_loop login_url (seq 0 10) 0 s0) as [[[[] n]|e] s1].
Qed.

Lemma authentication_security_exchanges (s : State) :
  let s0 := (print (Str.newline +:+ "=== Testing Authentication Security ===")
                   s).2 in
  exchanges (test_authentication_security s).2
  = exchanges (brute_force_loop login_url (seq 0 10) 0 s0).2.
Proof.
  intros s0. rewrite authentication_security_unfold. fold s0.
  by destruct (brute_force_loop login_url (seq 0 10) 0 s0) as [[[[] n]|e] s1].
Qed.

Lemma brute_force_exchanges_length (t : T) :
  length (zip (brute_force_requests login_url)
              (replies t (brute_force_requests login_url)))
  = 10%nat.
Proof. by rewrite length_zip, replies_length. Qed.

(** Ten replies, none a 429 and none a failure: the VULNERABLE verdict,
    reporting the number of 401s. *)
Lemma authentication_security_exhausted (s : State) (codes : list Z) :
  map reply_status (replies (target s) (brute_force_requests login_url))
  = map Some codes ->
  429 ∉ codes ->
  emitted test_authentication_security s =
    [mkResult (clock s (ticks s)) "Brute Force Protection" "VULNERABLE"
       "medium"
       ("No rate limiting detected after " +:+ Str.of_nat (count_401 codes)
          +:+ " failed attempts")]
  /\ length (sent test_authentication_security s) = 10%nat.
Proof.
  intros Hc Hno.
  set (s0 := (print (Str.newline +:+ "=== Testing Authentication Security ===")
                    s).2).
  destruct (brute_force_loop_exhausted (seq 0 10) codes 0 s0 Hc Hno)
    as (s1 & Hloop & Hres & Hticks & Hclock & Hex).
  split.
  - apply emitted_intro. rewrite authentication_security_unfold.
    fold s0. rewrite Hloop. cbn. by rewrite Hres, Hticks, Hclock.
  - erewrite sent_intro; [apply (brute_force_exchanges_length (target s))|].
    rewrite authentication_security_exchanges. fold s0.
    by rewrite Hloop.
Qed.

(** 401 nine times and then 429. *)
Lemma authentication_security_limited (s : State) :
  map reply_status (replies (target s) (brute_force_requests login_url))
  = replicate 9 (Some 401) ++ [Some 429] ->
  exists x, emitted test_authentication_security s = [x]
            /\ status x = "SECURE" /\ severity x = "info"
            /\ length (sent test_authentication_security s) = 10%nat.
Proof.
  intros Hc.
  set (s0 := (print (Str.newline +:+ "=== Testing Authentication Security ===")
                    s).2).
  destruct (brute_force_loop_limited (seq 0 10) (replicate 9 401) [] 0 s0 Hc)
    as (s1 & Hloop & Hres & Hex).
  { by intros [? _]%elem_of_replicate. }
  eexists. split_and!; [apply emitted_intro| | |].
  - rewrite authentication_security_unfold. fold s0. rewrite Hloop.
    cbn [snd]. exact Hres.
  - done.
  - done.
  - erewrite sent_intro.
    2:{ rewrite authentication_security_exchanges. fold s0.
        rewrite Hloop. exact Hex. }
    pose proof (brute_force_exchanges_length (target s0)) as Hlen.
    unfold brute_force_requests in Hlen.
    rewrite take_ge; [exact Hlen | by rewrite Hlen].
Qed.

(** A request that raised. *)
Lemma authentication_security_failed (s : State) (q : Request) (e : Exn) :
  (q, Failed e) ∈ sent test_authentication_security s ->
  exists x before,
    emitted test_authentication_security s = [x]
    /\ status x = "ERROR" /\ severity x = "low"
    /\ sent test_authentication_security s = before ++ [(q, Failed e)].
Proof.
  intros Hin.
  set (s0 := (print (Str.newline +:+ "=== Testing Authentication Security ===")
                    s).2).
  destruct (brute_force_loop_failure (seq 0 10) 0 s0) as (ex & Hex & Hfail).
  assert (sent test_authentication_security s = ex) as Hsent.
  { apply sent_intro. by rewrite authentication_security_exchanges. }
  rewrite Hsent in Hin |- *.
  destruct (Hfail q e Hin) as ((before & ->) & (n' & Hflow) & Hres).
  eexists _, before. split_and!; [apply emitted_intro| | |done].
  - rewrite authentication_security_unfold. fold s0.
    destruct (brute_force_loop login_url (seq 0 10) 0 s0) as [[[f n]|e'] s1].
    + cbn in Hflow. injection Hflow as -> ->. exact Hres.
    + done.
  - done.
  - done.
Qed.

End BruteForce.

(** When the login URL cannot be built the method raises at once. *)
Lemma authentication_security_unjoined (s : State) (e : Exn) :
  urljoin base_url "/api/auth/login" = inl e ->
  test_authentication_security s
  = (Raise e,
     (print (Str.newline +:+ "=== Testing Authentication Security ===") s).2).
Proof.
  intros Hj. unfold test_authentication_security. rewrite print_bind.
  by rewrite (urljoin_bind_raised _ _ _ _ Hj).
Qed.

(** C3. The brute-force probe, the login URL built: 401 nine times and
    then 429 gives exactly one result, SECURE/info, after ten requests;
    401 ten times gives exactly one result, VULNERABLE/medium.  And in
    any run, a request that raises is the last one sent and leaves
    exactly one result, ERROR/low, hence no SECURE or VULNERABLE
    verdict. *)
Theorem brute_force_verdicts (s : State) :
  let probe := test_authentication_security in
  (forall login_url,
     urljoin base_url "/api/auth/login" = inr login_url ->
     let statuses :=
       map reply_status
           (replies (target s) (brute_force_requests login_url)) in
     (statuses = replicate 9 (Some 401) ++ [Some 429] ->
        exists x, emitted probe s = [x] /\ status x = "SECURE"
                  /\ severity x = "info" /\ length (sent probe s) = 10%nat)
     /\ (statuses = replicate 10 (Some 401) ->
        exists x, emitted probe s = [x] /\ status x = "VULNERABLE"
                  /\ severity x = "medium"))
  /\ (forall q e,
        (q, Failed e) ∈ sent probe s ->
        exists x before,
          emitted probe s = [x] /\ status x = "ERROR" /\ severity x = "low"
          /\ sent probe s = before ++ [(q, Failed e)]).
Proof.
  intros probe. subst probe. split.
  - intros login_url Hjoin statuses. subst statuses. split.
    + apply (authentication_security_limited login_url Hjoin).
    + intros Hc.
      destruct (authentication_security_exhausted login_url Hjoin s
                  (replicate 10 401) Hc) as [Hres _].
      { by intros [? _]%elem_of_replicate. }
      eexists. split_and!; [exact Hres | done..].
  - intros q e Hin.
    destruct (urljoin base_url "/api/auth/login") as [msg|login_url] eqn:Hjoin.
    + rewrite (sent_nil test_authentication_security s) in Hin
        by (by rewrite (authentication_security_unjoined _ _ Hjoin)).
      by apply elem_of_nil in Hin.
    + by apply (authentication_security_failed login_url Hjoin).
Qed.

(** C10. The login URL built, whatever ten status codes the target
    answers, as long as none is 429 (and no request raises), the probe
    sends all ten requests and logs exactly one result,
    VULNERABLE/medium, whose details report the number of 401s among the
    ten: statuses other than 401 are not counted, yet do not stop the
    loop. *)
Theorem brute_force_counts_only_401 (s : State) (login_url : string)
    (codes : list Z) :
  urljoin base_url "/api/auth/login" = inr login_url ->
  map reply_status (replies (target s) (brute_force_requests login_url))
  = map Some codes ->
  429 ∉ codes ->
  exists x,
    emitted test_authentication_security s = [x]
    /\ status x = "VULNERABLE" /\ severity x = "medium"
    /\ details x = "No rate limiting detected after "
                     +:+ Str.of_nat (count_401 codes) +:+ " failed attempts"
    /\ length (sent test_authentication_security s) = 10%nat
    /\ length codes = 10%nat.
Proof.
  intros Hjoin Hc Hno.
  destruct (authentication_security_exhausted login_url Hjoin s codes Hc Hno)
    as [Hres Hlen].
  eexists. split_and!; [exact Hres | done.. |].
  apply (f_equal length) in Hc.
  by rewrite !length_map, replies_length in Hc.
Qed.

(** ** The SQL-injection probe *)

Lemma reveals_sql_error_spec (r : Response) :
  existsb (fun indicator => Str.contains indicator (Str.lower (text r)))
          error_indicators = true
  <-> reveals_sql_error r.
Proof.
  unfold reveals_sql_error. rewrite existsb_exists.
  split; intros (sig & Hin & Hsig); exists sig.
  - apply list_elem_of_In in Hin. split; [done|].
    apply contains_lower_spec; [|done].
    unfold error_indicators in Hin.
    repeat (apply elem_of_cons in Hin as [->|Hin]; [done|]).
    by apply elem_of_nil in Hin.
  - split; [by apply list_elem_of_In|].
    apply contains_lower_spec; [|done].
    unfold error_indicators in Hin.
    repeat (apply elem_of_cons in Hin as [->|Hin]; [done|]).
    by apply elem_of_nil in Hin.
Qed.

Lemma sql_request_inj (u1 u2 p1 p2 : string) :
  sql_request u1 p1 = sql_request u2 p2 -> u1 = u2 /\ p1 = p2.
Proof.
  unfold sql_request, sql_data. intros Heq. injection Heq as Hu Hp.
  split; [exact Hu | exact Hp].
Qed.

(** ** Loops that stop at the first hit *)

Section FirstMatch.
(** A loop over payloads whose iteration sends one request, stops the
    method on a hit with one result, goes on silently on a miss, and goes
    on with one result when the request raised. *)
Variable request : string -> Request.
Variable body : string -> M Flow.
Variable hit : string -> Response -> Prop.
Variable verdict : string -> Response -> ProbeResult -> Prop.
Variable failure : string -> Exn -> ProbeResult -> Prop.

Hypothesis body_step : forall p s o t',
  respond (target s) (request p) = (o, t') ->
  exchanges (body p s).2 = exchanges s ++ [(request p, o)]
  /\ target (body p s).2 = t'
  /\ match o with
     | Responded r =>
         (hit p r /\ (body p s).1 = Ok Return
          /\ exists x, results (body p s).2 = results s ++ [x]
                       /\ verdict p r x)
         \/ (~ hit p r /\ (body p s).1 = Ok Next
             /\ results (body p s).2 = results s)
     | Failed e =>
         (body p s).1 = Ok Next
         /\ exists x, results (body p s).2 = results s ++ [x] /\ failure p e x
     end.

Lemma first_match_loop (ps : list string) (s : State) :
  let run := for_each ps body s in
  exists outs errors,
    outs = take (length outs) (replies (target s) (map request ps))
    /\ exchanges run.2 = exchanges s ++ zip (map request ps) outs
    /\ Forall (fun y => exists p e, failure p e y) errors
    /\ length errors = length (filter (fun o => reply_status o = None) outs)
    /\ ((run.1 = Ok Next
         /\ results run.2 = results s ++ errors
         /\ length outs = length ps
         /\ Forall2 (fun p o => forall r, o = Responded r -> ~ hit p r) ps outs)
        \/ (run.1 = Ok Return
            /\ exists before r p x,
                 outs = before ++ [Responded r]
                 /\ ps !! length before = Some p
                 /\ hit p r /\ verdict p r x
                 /\ results run.2 = results s ++ errors ++ [x]
                 /\ Forall2 (fun p o => forall r, o = Responded r -> ~ hit p r)
                            (take (length before) ps) before)).
Proof.
  revert s. induction ps as [|p0 rest IH]; intros s; cbn zeta.
  { exists [], []. cbn. rewrite !app_nil_r. split_and!; try done.
    left. by split_and!. }
  cbn [map replies].
  destruct (respond (target s) (request p0)) as [o t'] eqn:Hq.
  destruct (body_step _ _ _ _ Hq) as (Hex0 & Ht0 & Hstep).
  destruct (body p0 s) as [f s1] eqn:Hbody. cbn [fst snd] in *.
  assert (forall errs0,
    f = Ok Next -> results s1 = results s ++ errs0 ->
    Forall (fun y => exists p e, failure p e y) errs0 ->
    length errs0 = length (filter (fun o => reply_status o = None) [o]) ->
    (forall r, o = Responded r -> ~ hit p0 r) ->
    exists outs errors,
      outs = take (length outs) (o :: replies t' (map request rest))
      /\ exchanges (for_each (p0 :: rest) body s).2
         = exchanges s ++ zip (request p0 :: map request rest) outs
      /\ Forall (fun y => exists p e, failure p e y) errors
      /\ length errors = length (filter (fun o => reply_status o = None) outs)
      /\ (((for_each (p0 :: rest) body s).1 = Ok Next
           /\ results (for_each (p0 :: rest) body s).2 = results s ++ errors
           /\ length outs = length (p0 :: rest)
           /\ Forall2 (fun p o => forall r, o = Responded r -> ~ hit p r)
                      (p0 :: rest) outs)
          \/ ((for_each (p0 :: rest) body s).1 = Ok Return
              /\ exists before r p x,
                   outs = before ++ [Responded r]
                   /\ (p0 :: rest) !! length before = Some p
                   /\ hit p r /\ verdict p r x
                   /\ results (for_each (p0 :: rest) body s).2
                      = results s ++ errors ++ [x]
                   /\ Forall2 (fun p o => forall r, o = Responded r -> ~ hit p r)
                              (take (length before) (p0 :: rest)) before)))
    as Hgo.
  { intros errs0 -> Hres0 Herrs0 Hlen0 Hmiss0.
    rewrite (for_each_next _ _ _ _ _ Hbody).
    destruct (IH s1) as (outs & errors & Houts & Hex & Herr & Hlen & Hshape).
    rewrite Ht0 in Houts.
    exists (o :: outs), (errs0 ++ errors). split_and!.
    - cbn. by rewrite <- Houts.
    - rewrite Hex, Hex0. cbn. by rewrite <- app_assoc.
    - by apply Forall_app.
    - rewrite length_app, Hlen0, Hlen.
      change (o :: outs) with ([o] ++ outs). by rewrite filter_app, length_app.
    - destruct Hshape as [(Hflow & Hres & Hl & Hall)
                         |(Hflow & before & r & p & y & -> & Hp & Hh & Hv
                           & Hres & Hall)].
      + left. split_and!; [done | | by cbn; rewrite Hl | by constructor].
        by rewrite Hres, Hres0, <- app_assoc.
      + right. split; [done|].
        exists (o :: before), r, p, y. cbn. split_and!; try done.
        * by rewrite Hres, Hres0, <- !app_assoc.
        * by constructor. }
  destruct o as [r0|e0].
  - destruct Hstep as [(Hhit & -> & x & Hres & Hx)|(Hmiss & Hflow & Hres)].
    + exists [Responded r0], [].
      rewrite (for_each_return _ _ _ _ _ Hbody).
      cbn. rewrite Hex0. split_and!; try done; [by rewrite zip_with_nil_r|].
      right. split; [done|].
      exists [], r0, p0, x. cbn. by split_and!.
    + apply (Hgo []); try done.
      * by rewrite app_nil_r.
      * by intros r [= <-].
  - destruct Hstep as (Hflow & x & Hres & Hx).
    apply (Hgo [x]); try done.
    constructor; [by exists p0, e0 | done].
Qed.

End FirstMatch.

Section SqlLoop.
(** The loop, once the login URL has been built. *)
Variable login_url : string.

Lemma sql_exchange_inj (p1 p2 : string) (r : Response) (o : Outcome) :
  (sql_request login_url p1, Responded r) = (sql_request login_url p2, o) ->
  p1 = p2 /\ o = Responded r.
Proof.
  intros Heq. split.
  - exact (proj2 (sql_request_inj _ _ _ _ (f_equal fst Heq))).
  - symmetry. exact (f_equal snd Heq).
Qed.

Lemma sql_step (payload : string) (s : State) (o : Outcome) (t' : T) :
  respond (target s) (sql_request login_url payload) = (o, t') ->
  let s1 := answered s (sql_request login_url payload) o t' in
  sql_iteration login_url payload s =
    match o with
    | Responded r =>
        if existsb (fun indicator =>
                      Str.contains indicator (Str.lower (text r)))
                   error_indicators
        then
          (Ok Return,
           (log_result "SQL Injection - Login" "VULNERABLE"
              ("SQL error detected with payload: " +:+ payload)
              "critical" s1).2)
        else if (status_code r =? 200) && Str.contains "token" (text r)
        then
          (Ok Return,
           (log_result "SQL Injection - Authentication Bypass" "VULNERABLE"
              ("Authentication bypassed with payload: " +:+ payload)
              "critical" s1).2)
        else (Ok Next, s1)
    | Failed e =>
        (Ok Next,
         (log_result "SQL Injection Test Error" "ERROR"
            ("Error testing payload " +:+ payload +:+ ": " +:+ e)
            "low" s1).2)
    end.
Proof.
  intros Hq s1. unfold sql_iteration, try_except, bind, session_post, send.
  fold (sql_request login_url payload). rewrite Hq. destruct o as [r|e]; [|done].
  cbn beta iota zeta. destruct (existsb _ _); [done|].
  by destruct (_ && _).
Qed.

Lemma sql_loop (payloads : list string) (s : State) :
  let run := for_each payloads (sql_iteration login_url) s in
  exists ex rs,
    exchanges run.2 = exchanges s ++ ex
    /\ results run.2 = results s ++ rs
    /\ map fst ex = map (sql_request login_url) (take (length ex) payloads)
    /\ sql_match_found login_url ex rs run.1.
Proof.
  revert s. induction payloads as [|p0 rest IH]; intros s; cbn zeta.
  { exists [], []. rewrite !app_nil_r. split_and!; try done.
    by intros p r ?%elem_of_nil. }
  destruct (respond (target s) (sql_request login_url p0)) as [o t'] eqn:Hq.
  pose proof (sql_step _ _ _ _ Hq) as Hstep. cbn zeta in Hstep.
  set (s1 := answered s (sql_request login_url p0) o t') in Hstep.
  destruct o as [r0|e0].
  - destruct (existsb _ error_indicators) eqn:Hsig.
    + rewrite (for_each_return _ _ _ _ _ Hstep).
      eexists [_], [_]. split_and!; [done..|].
      intros p r [-> [= ->]]%list_elem_of_singleton%sql_exchange_inj _.
      split_and!; [done | by exists [] |].
      eexists [], _. split_and!; [done | constructor | done..|].
      cbn. apply occurs_prepend_nil.
    + destruct ((status_code r0 =? 200) && Str.contains "token" (text r0)).
      * rewrite (for_each_return _ _ _ _ _ Hstep).
        eexists [_], [_]. split_and!; [done..|].
        intros p r [_ [= <-]]%list_elem_of_singleton%sql_exchange_inj Hrev.
        apply reveals_sql_error_spec in Hrev. congruence.
      * rewrite (for_each_next _ _ _ _ _ Hstep).
        destruct (IH s1) as (ex & rs & Hex & Hres & Hreqs & Hfound).
        exists ((sql_request login_url p0, Responded r0) :: ex), rs.
        split_and!.
        -- rewrite Hex. cbn. by rewrite <- app_assoc.
        -- done.
        -- cbn. by rewrite Hreqs.
        -- intros p r [Hhead|Hin]%elem_of_cons Hrev.
           { apply sql_exchange_inj in Hhead as [_ [= <-]].
             apply reveals_sql_error_spec in Hrev. congruence. }
           destruct (Hfound p r Hin Hrev)
             as (Hflow & (before & ->) & Hrs).
           split_and!; [done| |done].
           by exists ((sql_request login_url p0, Responded r0) :: before).
  - rewrite (for_each_next _ _ _ _ _ Hstep).
    set (s2 := (log_result _ _ _ _ s1).2).
    destruct (IH s2) as (ex & rs & Hex & Hres & Hreqs & Hfound).
    eexists ((sql_request login_url p0, Failed e0) :: ex), (_ :: rs).
    split_and!.
    + rewrite Hex. cbn. by rewrite <- app_assoc.
    + rewrite Hres. cbn. by rewrite <- app_assoc.
    + cbn. by rewrite Hreqs.
    + intros p r [Hhead|Hin]%elem_of_cons Hrev; [done|].
      destruct (Hfound p r Hin Hrev)
        as (Hflow & (before & ->) & errors & x & -> & Herrors & Hx).
      split_and!; [done| |].
      * by exists ((sql_request login_url p0, Failed e0) :: before).
      * eexists (_ :: errors), x. split_and!; [done| |apply Hx..].
        by constructor.
Qed.

Hypothesis Hjoin : urljoin base_url "/api/auth/login" = inr login_url.

Lemma sql_injection_unfold (s : State) :
  let s0 := (print (Str.newline +:+ "=== Testing SQL Injection ===") s).2 in
  test_sql_injection s =
    match for_each sql_payloads (sql_iteration login_url) s0 with
    | (Ok Return, s1) => (Ok tt, s1)
    | (Ok _, s1) =>
        log_result "SQL Injection - Login" "SECURE"
          "No SQL injection vulnerabilities detected in login endpoint"
          "info" s1
    | (Raise e, s1) => (Raise e, s1)
    end.
Proof.
  intros s0. unfold test_sql_injection. rewrite print_bind. fold s0.
  rewrite (urljoin_bind_joined _ _ _ _ Hjoin). unfold bind.
  by destruct (for_each sql_payloads (sql_iteration login_url) s0)
    as [[[]|e] s1].
Qed.

(** A response that shows a signature ends the probe. *)
Lemma sql_injection_matched (s : State) (payload sig : string)
    (r : Response) :
  (sql_request login_url payload, Responded r) ∈ sent test_sql_injection s ->
  sig ∈ error_indicators ->
  occurs_ci sig (text r) ->
  exists errors x before,
    emitted test_sql_injection s = errors ++ [x]
    /\ Forall (fun y => status y = "ERROR" /\ severity y = "low") errors
    /\ status x = "VULNERABLE" /\ severity x = "critical"
    /\ occurs payload (details x)
    /\ sent test_sql_injection s
       = before ++ [(sql_request login_url payload, Responded r)]
    /\ map fst (sent test_sql_injection s)
       = map (sql_request login_url)
             (take (length (sent test_sql_injection s)) sql_payloads).
Proof.
  intros Hin Hsig Hocc.
  set (s0 := (print (Str.newline +:+ "=== Testing SQL Injection ===") s).2).
  destruct (sql_loop sql_payloads s0) as (ex & rs & Hex & Hres & Hreqs & Hfound).
  assert (sent test_sql_injection s = ex) as Hsent.
  { apply sent_intro. rewrite sql_injection_unfold. fold s0.
    by destruct (for_each sql_payloads (sql_iteration login_url) s0)
      as [[[]|e] s1]. }
  rewrite Hsent in Hin |- *.
  destruct (Hfound payload r Hin) as (Hflow & (before & ->) & Hrs).
  { by exists sig. }
  destruct Hrs as (errors & x & -> & Herrors & Hx).
  exists errors, x, before. split_and!; try done; try apply Hx.
  apply emitted_intro. rewrite sql_injection_unfold. fold s0.
  destruct (for_each sql_payloads (sql_iteration login_url) s0)
    as [[f|e] s1]; cbn in Hflow; [|done]. by injection Hflow as ->.
Qed.

(** What the probe sends is made with the login URL. *)
Lemma sql_injection_sent (s : State) :
  Forall (fun x => exists payload, x.1 = sql_request login_url payload)
         (sent test_sql_injection s).
Proof.
  set (s0 := (print (Str.newline +:+ "=== Testing SQL Injection ===") s).2).
  destruct (sql_loop sql_payloads s0) as (ex & rs & Hex & _ & Hreqs & _).
  assert (sent test_sql_injection s = ex) as ->.
  { apply sent_intro. rewrite sql_injection_unfold. fold s0.
    by destruct (for_each sql_payloads (sql_iteration login_url) s0)
      as [[[]|e] s1]. }
  apply Forall_forall. intros x Hx.
  assert (x.1 ∈ map fst ex) as Hfst by by apply list_elem_of_fmap_2.
  rewrite Hreqs in Hfst. apply list_elem_of_fmap in Hfst as (p & Hp & _).
  by exists p.
Qed.

Lemma sql_body_step (p : string) (s : State) (o : Outcome) (t' : T) :
  respond (target s) (sql_request login_url p) = (o, t') ->
  let run := sql_iteration login_url p s in
  exchanges run.2 = exchanges s ++ [(sql_request login_url p, o)]
  /\ target run.2 = t'
  /\ match o with
     | Responded r =>
         (sql_hit r /\ run.1 = Ok Return
          /\ exists x, results run.2 = results s ++ [x]
               /\ status x = "VULNERABLE" /\ severity x = "critical"
               /\ occurs p (details x)
               /\ (reveals_sql_error r -> test_name x = "SQL Injection - Login")
               /\ (~ reveals_sql_error r ->
                   test_name x = "SQL Injection - Authentication Bypass"))
         \/ (~ sql_hit r /\ run.1 = Ok Next /\ results run.2 = results s)
     | Failed e =>
         run.1 = Ok Next
         /\ exists x, results run.2 = results s ++ [x]
              /\ status x = "ERROR" /\ severity x = "low"
              /\ test_name x = "SQL Injection Test Error"
     end.
Proof.
  intros Hq. cbn zeta. rewrite (sql_step _ _ _ _ Hq). destruct o as [r|e].
  - destruct (existsb _ error_indicators) eqn:Hsig.
    + apply reveals_sql_error_spec in Hsig. cbn. split_and!; [done..|].
      left. split_and!; [by left | done |]. eexists. split_and!; try done.
      cbn. apply occurs_prepend_nil.
    + assert (~ reveals_sql_error r) as Hno.
      { intros Hr%reveals_sql_error_spec. congruence. }
      destruct (Z.eqb_spec (status_code r) 200) as [H200|H200]; cbn [andb];
        [destruct (Str.contains "token" (text r)) eqn:Htok|].
      * apply contains_spec in Htok. cbn. split_and!; [done..|].
        left. split_and!; [by right | done |]. eexists. split_and!; try done.
        cbn. apply occurs_prepend_nil.
      * cbn. split_and!; [done..|]. right. split_and!; [|done..].
        intros [?|[_ Htok'%contains_spec]]; [done | congruence].
      * cbn. split_and!; [done..|]. right. split_and!; [|done..].
        intros [?|[? _]]; done.
  - cbn. split_and!; [done..|]. eexists. by split_and!.
Qed.

Lemma sql_injection_verdict_joined (s : State) :
  exists outs errors x,
    outs = take (length outs)
                (replies (target s)
                         (map (sql_request login_url) sql_payloads))
    /\ sent test_sql_injection s
       = zip (map (sql_request login_url) sql_payloads) outs
    /\ emitted test_sql_injection s = errors ++ [x]
    /\ Forall (fun y => status y = "ERROR" /\ severity y = "low") errors
    /\ length errors = length (failures outs)
    /\ ((status x = "SECURE" /\ severity x = "info"
         /\ length outs = 5%nat
         /\ none_responded sql_hit outs)
        \/ (status x = "VULNERABLE" /\ severity x = "critical"
            /\ exists before r p,
                 outs = before ++ [Responded r]
                 /\ sql_payloads !! length before = Some p
                 /\ sql_hit r
                 /\ occurs p (details x)
                 /\ none_responded sql_hit before)).
Proof.
  pose proof (sql_injection_unfold s) as Hun. cbn zeta in Hun.
  set (s0 := (print (Str.newline +:+ "=== Testing SQL Injection ===") s).2)
    in Hun.
  destruct (first_match_loop (sql_request login_url)
              (sql_iteration login_url) (fun _ => sql_hit)
              (fun p r x =>
                 status x = "VULNERABLE" /\ severity x = "critical"
                 /\ occurs p (details x)
                 /\ (reveals_sql_error r -> test_name x = "SQL Injection - Login")
                 /\ (~ reveals_sql_error r ->
                     test_name x = "SQL Injection - Authentication Bypass"))
              (fun p e x =>
                 status x = "ERROR" /\ severity x = "low"
                 /\ test_name x = "SQL Injection Test Error")
              sql_body_step sql_payloads s0)
    as (outs & errors & Houts & Hex & Herr & Hlen & Hshape).
  assert (Forall (fun y => status y = "ERROR" /\ severity y = "low") errors)
    as Herrors.
  { eapply Forall_impl; [exact Herr|]. by intros y (p & e & Hs & Hv & _). }
  destruct (for_each sql_payloads (sql_iteration login_url) s0) as [rf s1].
  cbn [fst snd] in Hex, Hshape.
  change (exchanges s0) with (exchanges s) in Hex.
  change (results s0) with (results s) in Hshape.
  change (target s0) with (target s) in Houts.
  destruct Hshape as [(-> & Hres & Hl & Hall)
                     |(-> & before & r & p & x & -> & Hp & Hh & Hx
                       & Hres & Hall)].
  - eexists outs, errors, _. split_and!; [done | | | done | done |].
    + apply sent_intro. by rewrite Hun.
    + apply emitted_intro. rewrite Hun. cbn. by rewrite Hres, <- app_assoc.
    + left. split_and!; [done..|].
      clear -Hall. induction Hall; constructor; done.
  - destruct Hx as (Hs & Hv & Hocc & _).
    exists (before ++ [Responded r]), errors, x.
    split_and!; [done | | | done | done |].
    + apply sent_intro. by rewrite Hun.
    + apply emitted_intro. by rewrite Hun.
    + right. split_and!; [done..|]. exists before, r, p.
      split_and!; [done..|].
      clear -Hall. unfold none_responded.
      remember (take (length before) sql_payloads) as ps eqn:Hps. clear Hps.
      induction Hall; constructor; done.
Qed.

End SqlLoop.

(** When the login URL cannot be built the method raises at once. *)
Lemma sql_injection_unjoined (s : State) (e : Exn) :
  urljoin base_url "/api/auth/login" = inl e ->
  test_sql_injection s
  = (Raise e, (print (Str.newline +:+ "=== Testing SQL Injection ===") s).2).
Proof.
  intros Hj. unfold test_sql_injection. rewrite print_bind.
  by rewrite (urljoin_bind_raised _ _ _ _ Hj).
Qed.

(** C2. When, in a run of the SQL-injection probe, the response to some
    payload shows one of the database-error signatures, in whatever
    case, then the probe logs exactly one VULNERABLE result (preceded
    only by ERROR/low results of earlier requests that raised); that
    result is critical and its details contain the payload; and the
    request of that payload is the last one sent, the requests sent being
    those of the payloads up to it, in order. *)
Theorem sql_injection_first_match_wins (s : State)
    (login_url payload sig : string) (r : Response) :
  (sql_request login_url payload, Responded r) ∈ sent test_sql_injection s ->
  sig ∈ error_indicators ->
  occurs_ci sig (text r) ->
  exists errors x before,
    emitted test_sql_injection s = errors ++ [x]
    /\ Forall (fun y => status y = "ERROR" /\ severity y = "low") errors
    /\ status x = "VULNERABLE" /\ severity x = "critical"
    /\ occurs payload (details x)
    /\ sent test_sql_injection s
       = before ++ [(sql_request login_url payload, Responded r)]
    /\ map fst (sent test_sql_injection s)
       = map (sql_request login_url)
             (take (length (sent test_sql_injection s)) sql_payloads).
Proof.
  intros Hin Hsig Hocc.
  destruct (urljoin base_url "/api/auth/login") as [msg|u] eqn:Hjoin.
  { rewrite (sent_nil test_sql_injection s) in Hin
      by (by rewrite (sql_injection_unjoined _ _ Hjoin)).
    by apply elem_of_nil in Hin. }
  pose proof (sql_injection_sent u Hjoin s) as Hsent.
  rewrite Forall_forall in Hsent.
  destruct (Hsent _ Hin) as (p & Hp). cbn [fst] in Hp.
  apply sql_request_inj in Hp as [-> _].
  by apply (sql_injection_matched u Hjoin s payload sig r).
Qed.

(** X5. The SQL-injection probe first builds the login URL; if
    [urljoin] raises, the method raises the same error at once, having
    sent and logged nothing.  Otherwise it always ends on exactly one
    verdict, its last result; before it come only ERROR/low results, one
    for each request that raised.  The verdict is VULNERABLE/critical
    exactly when the last response received shows a database-error
    signature or lets the login through (status 200 and "token" in the
    body), and its details then name the payload of that request;
    otherwise it is SECURE/info, all five payloads have been sent, and no
    response received was such a hit.  The requests sent are those of the
    payloads, in order, up to the first hit. *)
Theorem sql_injection_verdict (s : State) :
  match urljoin base_url "/api/auth/login" with
  | inl e =>
      (test_sql_injection s).1 = Raise e
      /\ sent test_sql_injection s = []
      /\ emitted test_sql_injection s = []
  | inr login_url =>
      exists outs errors x,
        outs = take (length outs)
                    (replies (target s)
                             (map (sql_request login_url) sql_payloads))
        /\ sent test_sql_injection s
           = zip (map (sql_request login_url) sql_payloads) outs
        /\ emitted test_sql_injection s = errors ++ [x]
        /\ Forall (fun y => status y = "ERROR" /\ severity y = "low") errors
        /\ length errors = length (failures outs)
        /\ ((status x = "SECURE" /\ severity x = "info"
             /\ length outs = 5%nat
             /\ none_responded sql_hit outs)
            \/ (status x = "VULNERABLE" /\ severity x = "critical"
                /\ exists before r p,
                     outs = before ++ [Responded r]
                     /\ sql_payloads !! length before = Some p
                     /\ sql_hit r
                     /\ occurs p (details x)
                     /\ none_responded sql_hit before))
  end.
Proof.
  destruct (urljoin base_url "/api/auth/login") as [e|login_url] eqn:Hjoin.
  - rewrite (sql_injection_unjoined _ _ Hjoin). split_and!; [done | |].
    + apply sent_nil. by rewrite (sql_injection_unjoined _ _ Hjoin).
    + apply emitted_nil. by rewrite (sql_injection_unjoined _ _ Hjoin).
  - by apply sql_injection_verdict_joined.
Qed.

(** ** Two properties, combinator by combinator *)

Lemma banners_app (l1 l2 : list string) :
  banners (l1 ++ l2) = banners l1 ++ banners l2.
Proof. apply filter_app. Qed.

Lemma tidy_ret {A} (a : A) : tidy (ret a).
Proof. by intros s. Qed.

Lemma tidy_raise {A} (e : Exn) : tidy (raise (A:=A) e).
Proof. by intros s. Qed.

Lemma tidy_bind {A B} (m : M A) (k : A -> M B) :
  tidy m -> (forall a, tidy (k a)) -> tidy (bind m k).
Proof.
  intros Hm Hk s. unfold bind. specialize (Hm s).
  destruct (m s) as [[a|e] s1]; [|done]. by rewrite Hk.
Qed.

Lemma tidy_try {A} (m : M A) (h : Exn -> M A) :
  tidy m -> (forall e, tidy (h e)) -> tidy (try_except m h).
Proof.
  intros Hm Hh s. unfold try_except. specialize (Hm s).
  destruct (m s) as [[a|e] s1]; [done|]. by rewrite Hh.
Qed.

Lemma tidy_log (name st text sev : string) : tidy (log_result name st text sev).
Proof. intros s. cbn. rewrite banners_app. cbn. apply app_nil_r. Qed.

Lemma tidy_send (req : Request) : tidy (send req).
Proof.
  intros s. unfold send. by destruct (respond (target s) req) as [[r|e] t'].
Qed.

Lemma tidy_for_each {A} (xs : list A) (body : A -> M Flow) :
  (forall x, tidy (body x)) -> tidy (for_each xs body).
Proof.
  intros Hb. induction xs as [|x xs IH]; [apply tidy_ret|].
  cbn [for_each]. apply tidy_bind; [done|].
  intros []; [done | apply tidy_ret..].
Qed.

Lemma stable_ret {A} (a : A) : stable (ret a).
Proof. by intros s. Qed.

Lemma stable_raise {A} (e : Exn) : stable (raise (A:=A) e).
Proof. by intros s. Qed.

Lemma stable_bind {A B} (m : M A) (k : A -> M B) :
  stable m -> (forall a, stable (k a)) -> stable (bind m k).
Proof.
  intros Hm Hk s. unfold bind. rewrite Hm.
  destruct (m s) as [[a|e] s1]; [apply Hk | done].
Qed.

Lemma stable_try {A} (m : M A) (h : Exn -> M A) :
  stable m -> (forall e, stable (h e)) -> stable (try_except m h).
Proof.
  intros Hm Hh s. unfold try_except. rewrite Hm.
  destruct (m s) as [[a|e] s1]; [done | apply Hh].
Qed.

Lemma stable_log (name st text sev : string) :
  stable (log_result name st text sev).
Proof. intros s. unfold log_result, erase. cbn. by rewrite map_app. Qed.

Lemma stable_print (line : string) : stable (print line).
Proof. by intros s. Qed.

Lemma stable_send (req : Request) : stable (send req).
Proof.
  intros s. unfold send. cbn.
  by destruct (respond (target s) req) as [[r|e] t'].
Qed.

Lemma stable_for_each {A} (xs : list A) (body : A -> M Flow) :
  (forall x, stable (body x)) -> stable (for_each xs body).
Proof.
  intros Hb. induction xs as [|x xs IH]; [apply stable_ret|].
  cbn [for_each]. apply stable_bind; [done|].
  intros []; [done | apply stable_ret..].
Qed.

(** *** The two properties of the probe modules *)

Ltac unfold_modules :=
  unfold test_sql_injection, sql_iteration, test_xss_vulnerabilities,
    xss_iteration, test_authentication_security, brute_force_attempt,
    test_authorization_bypass, authorization_iteration,
    test_input_validation, input_validation_iteration,
    test_session_management, test_information_disclosure,
    information_iteration, test_security_headers, authenticate,
    session_post, session_get, response_json, py_get, py_split.

Ltac unfold_script := unfold_modules; unfold py_urljoin.

Ltac case_split :=
  match goal with
  | |- _ (if ?c then _ else _) => destruct c
  | |- _ (match ?x with _ => _ end) => destruct x
  end.

Ltac walk step :=
  unfold_script;
  repeat (intros; cbn beta iota zeta; first [step | case_split]).

(** The same, with the calls of [urljoin] left to [step]. *)
Ltac walk_urls step :=
  unfold_modules;
  repeat (intros; cbn beta iota zeta; first [step | case_split]).

Ltac tidy_step :=
  first [ apply tidy_ret | apply tidy_raise | apply tidy_log
        | apply tidy_send | apply tidy_bind | apply tidy_try
        | apply tidy_for_each ].

Ltac stable_step :=
  first [ apply stable_ret | apply stable_raise | apply stable_log
        | apply stable_print | apply stable_send | apply stable_bind
        | apply stable_try | apply stable_for_each ].

Lemma tidy_brute_force_loop (login_url : string) (attempts : list nat)
    (n : nat) :
  tidy (brute_force_loop login_url attempts n).
Proof.
  revert n. induction attempts as [|i rest IH]; intros n; [apply tidy_ret|].
  cbn [brute_force_loop]. apply tidy_bind; [walk tidy_step|].
  intros [[] n']; cbn; [apply IH | apply tidy_ret..].
Qed.

Lemma stable_brute_force_loop (login_url : string) (attempts : list nat)
    (n : nat) :
  stable (brute_force_loop login_url attempts n).
Proof.
  revert n. induction attempts as [|i rest IH]; intros n; [apply stable_ret|].
  cbn [brute_force_loop]. apply stable_bind; [walk stable_step|].
  intros [[] n']; cbn; [apply IH | apply stable_ret..].
Qed.

Lemma announces_intro (banner : string) (body : M unit) :
  is_banner banner = true -> tidy body ->
  announces banner (print banner ;; body).
Proof.
  intros Hb Hbody s. unfold bind, print. rewrite Hbody. cbn.
  rewrite banners_app. unfold banners at 2. cbn.
  by rewrite decide_True.
Qed.

Lemma sql_announces :
  announces (Str.newline +:+ "=== Testing SQL Injection ===")
            test_sql_injection.
Proof. apply announces_intro; [done | walk tidy_step]. Qed.

Lemma xss_announces :
  announces (Str.newline +:+ "=== Testing XSS Vulnerabilities ===")
            test_xss_vulnerabilities.
Proof. apply announces_intro; [done | walk tidy_step]. Qed.

Lemma authentication_announces :
  announces (Str.newline +:+ "=== Testing Authentication Security ===")
            test_authentication_security.
Proof.
  apply announces_intro; [done|].
  apply tidy_bind; [walk tidy_step | intros login_url].
  apply tidy_bind; [apply tidy_brute_force_loop | walk tidy_step].
Qed.

Lemma authorization_announces :
  announces (Str.newline +:+ "=== Testing Authorization Bypass ===")
            test_authorization_bypass.
Proof. apply announces_intro; [done | walk tidy_step]. Qed.

Lemma input_validation_announces :
  announces (Str.newline +:+ "=== Testing Input Validation ===")
            test_input_validation.
Proof. apply announces_intro; [done | walk tidy_step]. Qed.

Lemma session_announces :
  announces (Str.newline +:+ "=== Testing Session Management ===")
            test_session_management.
Proof. apply announces_intro; [done | walk tidy_step]. Qed.

Lemma information_announces :
  announces (Str.newline +:+ "=== Testing Information Disclosure ===")
            test_information_disclosure.
Proof. apply announces_intro; [done | walk tidy_step]. Qed.

Lemma headers_announces :
  announces (Str.newline +:+ "=== Testing Security Headers ===")
            test_security_headers.
Proof. apply announces_intro; [done | walk tidy_step]. Qed.

Lemma modules_announce :
  Forall2 (fun m banner => announces banner (call m))
          test_methods module_banners.
Proof.
  repeat constructor.
  - apply sql_announces.
  - apply xss_announces.
  - apply authentication_announces.
  - apply authorization_announces.
  - apply input_validation_announces.
  - apply session_announces.
  - apply information_announces.
  - apply headers_announces.
Qed.

Lemma modules_stable : Forall (fun m => stable (call m)) test_methods.
Proof.
  repeat constructor; cbn [call]; walk stable_step.
Qed.


(** ** generate_report *)

(** The first replacement field of the template is the body of the CSS
    rule [body { font-family: ... }]: whatever the values of the eight
    keyword arguments, [format] raises [KeyError] on its name. *)
Lemma format_template_raises
    (target timestamp total critical high medium low html : string) :
  Format.format html_template
    [ ("target", target); ("timestamp", timestamp); ("total_tests", total);
      ("critical_count", critical); ("high_count", high);
      ("medium_count", medium); ("low_count", low); ("results_html", html) ]
  = inl report_error.
Proof. vm_compute. reflexivity. Qed.

Lemma generate_report_raises (s : State) :
  generate_report s = (Raise report_error, ticked s).
Proof.
  unfold generate_report, bind, get_results, now, py_format.
  by rewrite format_template_raises.
Qed.

(** ** The loop of run_all_tests *)

Lemma run_methods_nil (s : State) : run_methods [] s = (Ok tt, s).
Proof. reflexivity. Qed.

Lemma run_methods_returned (m : TestMethod) (rest : list TestMethod)
    (s s1 : State) :
  call m s = (Ok tt, s1) -> run_methods (m :: rest) s = run_methods rest s1.
Proof.
  intros Hm. unfold run_methods, bind. cbn [for_each].
  unfold bind, run_method, bind, try_except. by rewrite Hm.
Qed.

Lemma run_methods_raised (m : TestMethod) (rest : list TestMethod)
    (s s1 : State) (e : Exn) :
  call m s = (Raise e, s1) ->
  run_methods (m :: rest) s = run_methods rest (error_logged m e s1).
Proof.
  intros Hm. unfold run_methods, bind. cbn [for_each].
  unfold bind, run_method, bind, try_except. by rewrite Hm.
Qed.

Lemma run_methods_isolated (methods : list TestMethod) (s : State) :
  (run_methods methods s).1 = Ok tt
  /\ isolated_run methods s (run_methods methods s).2.
Proof.
  revert s. induction methods as [|m rest IH]; intros s.
  - split; [done | constructor].
  - destruct (call m s) as [[[]|e] s1] eqn:Hm.
    + rewrite (run_methods_returned _ _ _ _ Hm).
      split; [apply IH|]. eapply isolated_returned; [done | apply IH].
    + rewrite (run_methods_raised _ _ _ _ _ Hm).
      split; [apply IH|]. eapply isolated_raised; [done | apply IH].
Qed.

Lemma run_methods_banners (methods : list TestMethod) (bs : list string)
    (s : State) :
  Forall2 (fun m banner => announces banner (call m)) methods bs ->
  banners (stdout (run_methods methods s).2) = banners (stdout s) ++ bs.
Proof.
  intros Hall. revert s.
  induction Hall as [|m b rest bs' Hm _ IH]; intros s.
  - by rewrite run_methods_nil, app_nil_r.
  - specialize (Hm s). destruct (call m s) as [[[]|e] s1] eqn:Hcall.
    + rewrite (run_methods_returned _ _ _ _ Hcall), IH. cbn in Hm.
      by rewrite Hm, <- app_assoc.
    + rewrite (run_methods_raised _ _ _ _ _ Hcall), IH. cbn in Hm.
      cbn [error_logged stdout]. rewrite banners_app, Hm. cbn.
      by rewrite app_nil_r, <- app_assoc.
Qed.

Lemma run_methods_stable (methods : list TestMethod) :
  Forall (fun m => stable (call m)) methods -> stable (run_methods methods).
Proof.
  intros Hall. unfold run_methods.
  apply stable_bind; [|intros; apply stable_ret].
  induction Hall as [|m rest Hm _ IH]; [apply stable_ret|].
  cbn [for_each]. apply stable_bind.
  - unfold run_method. walk stable_step. apply Hm.
  - intros []; [done | apply stable_ret..].
Qed.

(** ** The orchestrator *)

(** A run is its loop, and then the exception of [generate_report]:
    the console summary is never reached. *)
Lemma run_all_tests_unfold (s : State) :
  run_all_tests s
  = (Raise report_error, ticked (run_methods test_methods (started s)).2).
Proof.
  unfold run_all_tests. rewrite !print_bind. fold (started s).
  unfold bind at 1.
  destruct (run_methods_isolated test_methods (started s)) as [Hok _].
  destruct (run_methods test_methods (started s)) as [[[]|e] s1];
    [|discriminate Hok].
  unfold bind. by rewrite generate_report_raises.
Qed.

Lemma run_all_tests_stable : stable run_all_tests.
Proof.
  intros s. rewrite !run_all_tests_unfold.
  pose proof (run_methods_stable test_methods modules_stable (started s))
    as Hloop.
  change (started (erase s)) with (erase (started s)). by rewrite Hloop.
Qed.

Lemma map_untimed_same (rs1 rs2 : list ProbeResult) :
  map untimed rs1 = map untimed rs2 -> Forall2 same_but_timestamp rs1 rs2.
Proof.
  revert rs2. induction rs1 as [|r1 rs1 IH]; intros [|r2 rs2] Hm;
    try discriminate; [constructor|].
  cbn in Hm. injection Hm as Hn Hs Hv Hd Hrs.
  constructor; [by repeat split | by apply IH].
Qed.

Lemma run_all_tests_banners (s : State) :
  banners (stdout (run_all_tests s).2) = banners (stdout s) ++ module_banners.
Proof.
  rewrite run_all_tests_unfold. cbn [snd ticked stdout].
  rewrite (run_methods_banners _ _ _ modules_announce).
  unfold started. cbn [print snd stdout].
  by rewrite !banners_app, !app_nil_r.
Qed.

(** C1. Whatever the methods do, the loop of [run_all_tests] returns
    normally, calls each method once in the declared order, and turns an
    exception of a method into one ERROR/low result tagged with the
    method's name before calling the next one.  A run of [run_all_tests]
    is, after its two header lines, that loop over the script's eight
    methods, in their declared order: the console shows the banner of
    every module, in order.  Only once the loop is over does the run
    stop, on the [KeyError] that [generate_report] raises, which adds no
    result, request or line. *)
Theorem run_all_tests_completes_every_module :
  (forall (methods : list TestMethod) (s : State),
      (run_methods methods s).1 = Ok tt
      /\ isolated_run methods s (run_methods methods s).2)
  /\ test_methods =
       [ mkMethod "test_sql_injection" test_sql_injection;
         mkMethod "test_xss_vulnerabilities" test_xss_vulnerabilities;
         mkMethod "test_authentication_security" test_authentication_security;
         mkMethod "test_authorization_bypass" test_authorization_bypass;
         mkMethod "test_input_validation" test_input_validation;
         mkMethod "test_session_management" test_session_management;
         mkMethod "test_information_disclosure" test_information_disclosure;
         mkMethod "test_security_headers" test_security_headers ]
  /\ forall s : State,
       exists finished,
         isolated_run test_methods (started s) finished
         /\ banners (stdout finished) = banners (stdout s) ++ module_banners
         /\ run_all_tests s = (Raise report_error, ticked finished).
Proof.
  split_and!.
  - apply run_methods_isolated.
  - reflexivity.
  - intros s. exists (run_methods test_methods (started s)).2. split_and!.
    + apply run_methods_isolated.
    + pose proof (run_all_tests_banners s) as Hb.
      by rewrite run_all_tests_unfold in Hb.
    + apply run_all_tests_unfold.
Qed.

(** C9. Two runs of the whole orchestration against the same target,
    started in the same target state and read against two arbitrary
    clocks, log results that agree element by element on every field but
    the timestamp (and send the same requests and print the same lines). *)
Theorem run_all_tests_deterministic (t : T) (clock1 clock2 : nat -> string) :
  let run1 := (run_all_tests (initial t clock1)).2 in
  let run2 := (run_all_tests (initial t clock2)).2 in
  Forall2 same_but_timestamp (results run1) (results run2)
  /\ exchanges run1 = exchanges run2
  /\ stdout run1 = stdout run2.
Proof.
  intros run1 run2.
  assert (erase run1 = erase run2) as Heq.
  { pose proof (run_all_tests_stable (initial t clock1)) as H1.
    pose proof (run_all_tests_stable (initial t clock2)) as H2.
    change (erase (initial t clock2)) with (erase (initial t clock1)) in H2.
    rewrite H1 in H2. exact (f_equal snd H2). }
  split_and!.
  - apply map_untimed_same. exact (f_equal results Heq).
  - exact (f_equal exchanges Heq).
  - exact (f_equal stdout Heq).
Qed.

(** ** authenticate *)

Section Login.
(** [authenticate], once the login URL has been built. *)
Variable login_url : string.
Hypothesis Hjoin : urljoin base_url "/api/auth/login" = inr login_url.

Lemma authenticate_sends (s : State) :
  authenticate s =
    try_except
      (response <- send (login_request login_url) ;;
       if status_code response =? 200 then
         result <- response_json response ;;
         token <- py_get result "token" ;;
         if truthy token then ret token else py_get result "accessToken"
       else ret PNone)
      (fun e =>
         log_result "Authentication Error" "ERROR"
                    ("Could not authenticate: " +:+ e) "low" ;;
         ret PNone) s.
Proof.
  unfold authenticate, try_except.
  by rewrite (urljoin_bind_joined _ _ _ _ Hjoin).
Qed.

Lemma authenticate_rejected (s : State) (r : Response) (t' : T) :
  respond (target s) (login_request login_url) = (Responded r, t') ->
  status_code r <> 200 ->
  authenticate s
  = (Ok PNone, answered s (login_request login_url) (Responded r) t').
Proof.
  intros Hq Hne. rewrite authenticate_sends.
  unfold try_except, bind, send. rewrite Hq.
  by destruct (Z.eqb_spec (status_code r) 200).
Qed.

Lemma authenticate_decoded (s : State) (r : Response) (t' : T)
    (d : gmap string PyVal) :
  respond (target s) (login_request login_url) = (Responded r, t') ->
  status_code r = 200 ->
  json r = inr (PDict d) ->
  authenticate s
  = (Ok (login_token d),
     answered s (login_request login_url) (Responded r) t').
Proof.
  intros Hq H200 Hjson. rewrite authenticate_sends.
  unfold try_except, bind, send. rewrite Hq.
  destruct (Z.eqb_spec (status_code r) 200); [|done].
  unfold response_json, login_token. rewrite Hjson. cbn.
  by destruct (truthy (default PNone (d !! "token"))).
Qed.


End Login.



(** X4. When the login is answered 200 with a JSON object,
    [authenticate] returns the [token] field if it holds a true value,
    whatever [accessToken] holds; it falls back on the [accessToken] field
    only when [token] is missing or holds a false value, and returns [None]
    when [accessToken] is missing too.  It logs nothing. *)
Theorem authenticate_prefers_token (s : State) (login_url : string)
    (r : Response) (t' : T) (d : gmap string PyVal) :
  urljoin base_url "/api/auth/login" = inr login_url ->
  respond (target s) (login_request login_url) = (Responded r, t') ->
  status_code r = 200 ->
  json r = inr (PDict d) ->
  (forall v, d !! "token" = Some v -> truthy v = true ->
             (authenticate s).1 = Ok v)
  /\ (d !! "token" = None
      \/ (exists w, d !! "token" = Some w /\ truthy w = false) ->
      (authenticate s).1 = Ok (default PNone (d !! "accessToken")))
  /\ emitted authenticate s = [].
Proof.
  intros Hjoin Hq H200 Hjson.
  rewrite (authenticate_decoded _ Hjoin _ _ _ _ Hq H200 Hjson).
  unfold login_token. split_and!.
  - intros v Hd Hv. rewrite Hd. cbn. by rewrite Hv.
  - intros [Hd|(w & Hd & Hw)]; rewrite Hd; cbn; [done|]. by rewrite Hw.
  - unfold emitted. rewrite (authenticate_decoded _ Hjoin _ _ _ _ Hq H200 Hjson).
    apply drop_all.
Qed.

(** ** The probes that need a token *)

(** C4, where the script departs from it.  When the login is answered
    with a status other than 200, the XSS probe and the input-validation
    probe each log exactly one result, SKIPPED/low, and return; the
    session probe returns as well, but logs nothing at all. *)
Theorem session_probe_silent_without_token (s : State) (login_url : string)
    (r : Response) (t' : T) :
  urljoin base_url "/api/auth/login" = inr login_url ->
  respond (target s) (login_request login_url) = (Responded r, t') ->
  status_code r <> 200 ->
  (exists x, (test_xss_vulnerabilities s).1 = Ok tt
             /\ emitted test_xss_vulnerabilities s = [x]
             /\ status x = "SKIPPED" /\ severity x = "low")
  /\ (exists x, (test_input_validation s).1 = Ok tt
                /\ emitted test_input_validation s = [x]
                /\ status x = "SKIPPED" /\ severity x = "low")
  /\ (test_session_management s).1 = Ok tt
  /\ emitted test_session_management s = [].
Proof.
  intros Hjoin Hq Hne.
  assert (forall banner,
            authenticate (print banner s).2
            = (Ok PNone,
               answered (print banner s).2 (login_request login_url)
                        (Responded r) t')) as Hauth.
  { intros banner. by apply authenticate_rejected. }
  assert (test_xss_vulnerabilities s =
          log_result "XSS Testing" "SKIPPED"
            "Could not authenticate - skipping XSS tests" "low"
            (answered (print (Str.newline
                                +:+ "=== Testing XSS Vulnerabilities ===")
                             s).2 (login_request login_url) (Responded r) t'))
    as Hxss.
  { unfold test_xss_vulnerabilities. rewrite print_bind. unfold bind at 1.
    by rewrite Hauth. }
  assert (test_input_validation s =
          log_result "Input Validation Testing" "SKIPPED"
            "Could not authenticate - skipping input validation tests" "low"
            (answered (print (Str.newline
                                +:+ "=== Testing Input Validation ===")
                             s).2 (login_request login_url) (Responded r) t'))
    as Hinput.
  { unfold test_input_validation. rewrite print_bind. unfold bind at 1.
    by rewrite Hauth. }
  assert (test_session_management s =
          (Ok tt,
           answered (print (Str.newline
                              +:+ "=== Testing Session Management ===")
                           s).2 (login_request login_url) (Responded r) t'))
    as Hsession.
  { unfold test_session_management. rewrite print_bind. unfold bind at 1.
    by rewrite Hauth. }
  unfold emitted. rewrite Hxss, Hinput, Hsession. cbn.
  rewrite !drop_app_length, drop_all. split_and!; try done; by eexists.
Qed.

(** ** The severity tally *)

Lemma tally_fold (rs : list ProbeResult) (counts : gmap string nat)
    (sev : string) :
  foldl (fun counts result =>
           match counts !! severity result with
           | Some n => <[severity result := S n]> counts
           | None => counts
           end) counts rs !! sev
  = (fun n => (n + count_severity sev rs)%nat) <$> counts !! sev.
Proof.
  revert counts. induction rs as [|r rs IH]; intros counts.
  - cbn. destruct (counts !! sev); cbn; [|done].
    by rewrite Nat.add_0_r.
  - cbn [foldl]. rewrite IH. unfold count_severity.
    destruct (decide (severity r = sev)) as [Heq|Hne].
    + rewrite filter_cons_True by done. cbn [length]. subst sev.
      destruct (counts !! severity r) as [n|] eqn:Hc.
      * rewrite lookup_insert_eq. cbn. by rewrite Nat.add_succ_r.
      * by rewrite Hc.
    + rewrite filter_cons_False by done.
      destruct (counts !! severity r) as [n|]; [|done].
      by rewrite lookup_insert_ne.
Qed.

(** C7, as the script has it.  The tally is a function of the result
    list alone; it has a counter for critical, high, medium and low, and
    none for info or any other severity; each counter is the number of
    results of that severity, whatever their status. *)
Theorem severity_counts_by_severity (rs : list ProbeResult) (sev : string) :
  severity_counts rs !! sev =
    if bool_decide (sev ∈ tallied_severities)
    then Some (count_severity sev rs)
    else None.
Proof.
  unfold severity_counts. rewrite tally_fold.
  case_bool_decide as Hin.
  - unfold tallied_severities in Hin.
    repeat (apply elem_of_cons in Hin as [->|Hin]; [done|]).
    by apply elem_of_nil in Hin.
  - unfold tallied_severities in Hin.
    rewrite !not_elem_of_cons in Hin. destruct Hin as (? & ? & ? & ? & _).
    by rewrite !lookup_insert_ne, lookup_singleton_ne.
Qed.

(** ** The security-headers probe *)

Lemma occurs_join (sep m : string) (l : list string) :
  m ∈ l -> occurs m (Str.join sep l).
Proof.
  unfold Str.join. induction l as [|x l IH]; [by intros ?%elem_of_nil|].
  intros [->|Hin]%elem_of_cons.
  - destruct l as [|y l]; cbn [String.concat].
    + exists "", "". by rewrite append_nil_r.
    + by exists "", (sep +:+ String.concat sep (y :: l)).
  - destruct l as [|y l]; [by apply elem_of_nil in Hin|].
    cbn [String.concat]. do 2 apply occurs_prepend. by apply IH.
Qed.

Lemma occurs_trans (a b c : string) : occurs a b -> occurs b c -> occurs a c.
Proof.
  intros (p1 & q1 & ->) (p2 & q2 & ->).
  exists (p2 +:+ p1), (q1 +:+ q2). by rewrite !append_assoc.
Qed.

Lemma missing_headers_fold (hs : gmap string string)
    (table : list (string * Expected)) (acc : list string) :
  foldl (fun missing entry => missing ++ check_header hs entry.1 entry.2)
        acc table
  = acc ++ concat (map (fun entry => check_header hs entry.1 entry.2) table).
Proof.
  revert acc. induction table as [|entry table IH]; intros acc; cbn.
  - by rewrite app_nil_r.
  - by rewrite IH, app_assoc.
Qed.

Lemma row_exact (hs : gmap string string) (h v : string) :
  v <> "" -> row_agrees hs (h, ExpStr v) (h, String.eqb v).
Proof.
  intros Hv. split; [done|]. unfold in_order, check_header. cbn [fst snd].
  destruct (header_value hs h) as [a|].
  - destruct (String.eqb_spec v ""); [done|]. cbn [negb andb].
    rewrite (String.eqb_sym a v).
    destruct (String.eqb v a); cbn [negb]; [done|].
    eexists. split; [done|]. by exists "", " (incorrect value)".
  - eexists. split; [done|]. exists "", "". by rewrite append_nil_r.
Qed.

Lemma row_one_of (hs : gmap string string) (h v1 v2 : string) :
  row_agrees hs (h, ExpList [v1; v2])
             (h, fun v => String.eqb v v1 || String.eqb v v2).
Proof.
  split; [done|]. unfold in_order, check_header. cbn [fst snd].
  destruct (header_value hs h) as [a|].
  - destruct (String.eqb_spec a v1) as [->|Hne1]; cbn [orb].
    { rewrite bool_decide_eq_true_2; [done | apply elem_of_cons; by left]. }
    destruct (String.eqb_spec a v2) as [->|Hne2].
    { rewrite bool_decide_eq_true_2; [done|].
      apply elem_of_cons. right. apply elem_of_cons. by left. }
    rewrite bool_decide_eq_false_2.
    + eexists. split; [done|]. by exists "", " (incorrect value)".
    + rewrite !elem_of_cons, elem_of_nil. tauto.
  - eexists. split; [done|]. exists "", "". by rewrite append_nil_r.
Qed.

Lemma row_present (hs : gmap string string) (h : string) :
  row_agrees hs (h, ExpNone) (h, fun _ => true).
Proof.
  split; [done|]. unfold in_order, check_header. cbn [fst snd].
  destruct (header_value hs h) as [a|]; [done|].
  eexists. split; [done|]. exists "", "". by rewrite append_nil_r.
Qed.

Lemma rows_agree (hs : gmap string string) :
  Forall2 (row_agrees hs) security_headers required_headers.
Proof.
  unfold security_headers, required_headers.
  repeat match goal with |- Forall2 _ _ _ => constructor end.
  - by apply row_exact.
  - apply row_one_of.
  - by apply row_exact.
  - apply row_present.
  - apply row_present.
  - apply row_present.
Qed.

(** What the table reports is one entry for each offending header, in
    the order of the table, each showing the header's name. *)
Lemma checks_report_offending (hs : gmap string string)
    (table : list (string * Expected))
    (rules : list (string * (string -> bool))) :
  Forall2 (row_agrees hs) table rules ->
  Forall2 (fun h m => occurs h m) (offending hs rules)
          (concat (map (fun entry => check_header hs entry.1 entry.2) table)).
Proof.
  unfold offending.
  induction 1 as [|entry rule table rules [_ Hrow] _ IH]; [constructor|].
  cbn [map concat]. destruct (in_order hs rule) eqn:Hok.
  - rewrite Hrow, filter_cons_False by (by rewrite Hok). done.
  - destruct Hrow as (m & -> & Hm). rewrite filter_cons_True by done.
    cbn. by constructor.
Qed.

Lemma missing_headers_offending (hs : gmap string string) :
  Forall2 (fun h m => occurs h m) (offending hs required_headers)
          (missing_headers hs).
Proof.
  unfold missing_headers. rewrite missing_headers_fold.
  apply checks_report_offending, rows_agree.
Qed.

Lemma security_headers_unfold (s : State) (r : Response) (t' : T) :
  respond (target s) headers_request = (Responded r, t') ->
  emitted test_security_headers s =
    match missing_headers (headers r) with
    | _ :: _ =>
        [mkResult (clock s (ticks s)) "Security Headers" "VULNERABLE"
           "medium"
           ("Missing or incorrect security headers: "
              +:+ Str.join ", " (missing_headers (headers r)))]
    | [] =>
        [mkResult (clock s (ticks s)) "Security Headers" "SECURE" "info"
           "All important security headers present and configured correctly"]
    end.
Proof.
  intros Hq. apply emitted_intro. unfold test_security_headers.
  rewrite print_bind. unfold try_except, bind, session_get, send.
  fold headers_request. cbn [print snd target]. rewrite Hq.
  by destruct (missing_headers (headers r)).
Qed.

(** C5, as the script has it.  The table has six rows: the five of the
    specification and [X-XSS-Protection], which must equal
    [1; mode=block].  For a response whose six headers are all in order
    the probe logs exactly one result, SECURE/info; otherwise it logs
    exactly one result, VULNERABLE/medium, whose details show the name
    of every offending header. *)
Theorem security_headers_verdict (s : State) (r : Response) (t' : T) :
  respond (target s) headers_request = (Responded r, t') ->
  exists x,
    emitted test_security_headers s = [x]
    /\ match offending (headers r) required_headers with
       | [] => status x = "SECURE" /\ severity x = "info"
       | names =>
           status x = "VULNERABLE" /\ severity x = "medium"
           /\ Forall (fun h => occurs h (details x)) names
       end.
Proof.
  intros Hq. rewrite (security_headers_unfold _ _ _ Hq).
  pose proof (missing_headers_offending (headers r)) as Hall.
  destruct Hall as [|h m names missing Hm Hall].
  - eexists. by split.
  - eexists. split; [done|]. split_and!; [done..|].
    assert (Forall2 (fun h m => occurs h m) (h :: names) (m :: missing))
      as Hall' by by constructor.
    apply Forall_forall. intros h' Hin.
    apply list_elem_of_lookup in Hin as [i Hi].
    destruct (Forall2_lookup_l _ _ _ _ _ Hall' Hi) as (m' & Hm' & Hocc).
    cbn [details]. apply occurs_prepend.
    eapply occurs_trans; [exact Hocc|].
    apply occurs_join. by eapply list_elem_of_lookup_2.
Qed.

(** ** What is logged, and what is printed *)

Section Logging.
Variable P : ProbeResult -> Prop.

Lemma logs_ret {A} (a : A) : logs P (ret a).
Proof. intros s. exists []. cbn. by rewrite !app_nil_r. Qed.

Lemma logs_raise {A} (e : Exn) : logs P (raise (A:=A) e).
Proof. intros s. exists []. cbn. by rewrite !app_nil_r. Qed.

Lemma logs_send (req : Request) : logs P (send req).
Proof.
  intros s. exists []. unfold send.
  destruct (respond (target s) req) as [[r|e] t']; cbn;
    by rewrite !app_nil_r.
Qed.

Lemma logs_log (name st text sev : string) :
  (forall ts, P (mkResult ts name st sev text)) ->
  logs P (log_result name st text sev).
Proof. intros HP s. eexists [_]. cbn. split_and!; [done..|]. by constructor. Qed.

Lemma logs_bind {A B} (m : M A) (k : A -> M B) :
  logs P m -> (forall a, logs P (k a)) -> logs P (bind m k).
Proof.
  intros Hm Hk s. unfold bind. destruct (Hm s) as (rs1 & Hr1 & Ho1 & HP1).
  destruct (m s) as [[a|e] s1]; cbn in *.
  - destruct (Hk a s1) as (rs2 & Hr2 & Ho2 & HP2). exists (rs1 ++ rs2).
    rewrite Hr2, Ho2, Hr1, Ho1, map_app, <- !app_assoc.
    split_and!; [done..|]. by apply Forall_app.
  - by exists rs1.
Qed.

Lemma logs_try {A} (m : M A) (h : Exn -> M A) :
  logs P m -> (forall e, logs P (h e)) -> logs P (try_except m h).
Proof.
  intros Hm Hh s. unfold try_except. destruct (Hm s) as (rs1 & Hr1 & Ho1 & HP1).
  destruct (m s) as [[a|e] s1]; cbn in *.
  - by exists rs1.
  - destruct (Hh e s1) as (rs2 & Hr2 & Ho2 & HP2). exists (rs1 ++ rs2).
    rewrite Hr2, Ho2, Hr1, Ho1, map_app, <- !app_assoc.
    split_and!; [done..|]. by apply Forall_app.
Qed.

Lemma logs_for_each {A} (xs : list A) (body : A -> M Flow) :
  (forall x, logs P (body x)) -> logs P (for_each xs body).
Proof.
  intros Hb. induction xs as [|x xs IH]; [apply logs_ret|].
  cbn [for_each]. apply logs_bind; [done|].
  intros []; [done | apply logs_ret..].
Qed.

Lemma logs_reports (banner : string) (body : M unit) :
  logs P body -> reports P banner (print banner ;; body).
Proof.
  intros Hbody s. rewrite print_bind.
  destruct (Hbody (print banner s).2) as (rs & Hr & Ho & HP).
  exists rs. rewrite Hr, Ho. cbn. by rewrite <- app_assoc.
Qed.

End Logging.

Ltac logs_step :=
  first [ apply logs_ret | apply logs_raise | apply logs_send
        | apply logs_log; intros; reflexivity
        | apply logs_bind | apply logs_try | apply logs_for_each ].

Lemma modules_report :
  Forall2 (fun m banner =>
             reports (fun r => classified r = true) banner (call m))
          test_methods module_banners.
Proof.
  unfold test_methods, module_banners. cbn [map].
  repeat match goal with |- Forall2 _ _ _ => constructor end;
    cbn [call]; apply logs_reports; walk logs_step.
Qed.

Lemma banners_lines (rs : list ProbeResult) : banners (map line_of rs) = [].
Proof.
  induction rs as [|r rs IH]; [done|]. cbn [map]. unfold banners in *.
  by rewrite filter_cons_False.
Qed.

Lemma log_lines_lines (rs : list ProbeResult) :
  log_lines (map line_of rs) = map line_of rs.
Proof.
  induction rs as [|r rs IH]; [done|]. cbn [map]. unfold log_lines in *.
  rewrite filter_cons_True by done. by rewrite IH.
Qed.

Lemma log_lines_app (l1 l2 : list string) :
  log_lines (l1 ++ l2) = log_lines l1 ++ log_lines l2.
Proof. apply filter_app. Qed.

Lemma run_methods_report (P : ProbeResult -> Prop)
    (methods : list TestMethod) (bs : list string) (s : State) :
  (forall m e ts,
     P (mkResult ts ("Test Error - " +:+ method_name m) "ERROR" "low"
                 ("Unexpected error: " +:+ e))) ->
  Forall (fun b => is_banner b = true) bs ->
  Forall2 (fun m banner => reports P banner (call m)) methods bs ->
  exists rs out,
    results (run_methods methods s).2 = results s ++ rs
    /\ stdout (run_methods methods s).2 = stdout s ++ out
    /\ banners out = bs
    /\ log_lines out = map line_of rs
    /\ Forall P rs.
Proof.
  intros Herr Hbs Hall. revert s.
  induction Hall as [|m b rest bs' Hm _ IH]; intros s.
  - exists [], []. rewrite run_methods_nil, !app_nil_r. by split_and!.
  - apply Forall_cons in Hbs as [Hb Hbs].
    destruct (Hm s) as (rs1 & Hr1 & Ho1 & HP1).
    destruct (call m s) as [[[]|e] s1] eqn:Hcall; cbn in Hr1, Ho1.
    + rewrite (run_methods_returned _ _ _ _ Hcall).
      destruct (IH Hbs s1) as (rs2 & out2 & Hr2 & Ho2 & Hb2 & Hl2 & HP2).
      exists (rs1 ++ rs2), (b :: map line_of rs1 ++ out2).
      rewrite Hr2, Ho2, Hr1, Ho1, <- !app_assoc. split_and!; [done..| | |].
      * unfold banners. rewrite filter_cons_True by done.
        fold (banners (map line_of rs1 ++ out2)).
        by rewrite banners_app, banners_lines, Hb2.
      * unfold log_lines. rewrite filter_cons_False by (by rewrite Hb).
        fold (log_lines (map line_of rs1 ++ out2)).
        by rewrite log_lines_app, log_lines_lines, Hl2, map_app.
      * by apply Forall_app.
    + rewrite (run_methods_raised _ _ _ _ _ Hcall).
      destruct (IH Hbs (error_logged m e s1))
        as (rs2 & out2 & Hr2 & Ho2 & Hb2 & Hl2 & HP2).
      cbn [error_logged results stdout] in Hr2, Ho2.
      set (x := mkResult (clock s1 (ticks s1))
                         ("Test Error - " +:+ method_name m) "ERROR" "low"
                         ("Unexpected error: " +:+ e)) in *.
      exists (rs1 ++ x :: rs2), (b :: map line_of (rs1 ++ [x]) ++ out2).
      rewrite Hr2, Ho2, Hr1, Ho1, map_app, <- !app_assoc.
      split_and!; [done..| | |].
      * unfold banners. rewrite filter_cons_True by done.
        fold (banners (map line_of rs1 ++ map line_of [x] ++ out2)).
        by rewrite !banners_app, !banners_lines, Hb2.
      * unfold log_lines. rewrite filter_cons_False by (by rewrite Hb).
        fold (log_lines (map line_of rs1 ++ map line_of [x] ++ out2)).
        rewrite !log_lines_app, !log_lines_lines, Hl2.
        by rewrite map_app.
      * apply Forall_app. split; [done|]. constructor; [apply Herr | done].
Qed.

Lemma module_banners_are_banners :
  Forall (fun b => is_banner b = true) module_banners.
Proof. by repeat constructor. Qed.

(** What a whole run logs and prints. *)
Lemma run_all_tests_report (s : State) :
  exists rs out,
    results (run_all_tests s).2 = results s ++ rs
    /\ stdout (run_all_tests s).2
       = stdout s
         ++ [ "Starting penetration testing against: " +:+ base_url;
              Str.repeat "=" 60 ] ++ out
    /\ banners out = module_banners
    /\ log_lines out = map line_of rs
    /\ Forall (fun r => classified r = true) rs.
Proof.
  rewrite run_all_tests_unfold. cbn [snd ticked results stdout].
  edestruct (run_methods_report (fun r => classified r = true) test_methods
               module_banners (started s))
    as (rs & out & Hr & Ho & Hb & Hl & HP);
    [done | apply module_banners_are_banners | apply modules_report |].
  exists rs, out. rewrite Hr, Ho. unfold started. cbn.
  rewrite <- !app_assoc. by split_and!.
Qed.

(** X1. Each of the eight modules keeps the results it found, appends
    its own, and prints its banner followed by exactly one line per result
    it logged, in the order of the results.  A whole run does the same:
    after the two header lines, the console shows the eight banners in
    order and, between them, one line per result logged, in order. *)
Theorem console_follows_results :
  Forall2 (fun m banner =>
             forall s,
               results (call m s).2 = results s ++ emitted (call m) s
               /\ stdout (call m s).2
                  = stdout s ++ banner :: map line_of (emitted (call m) s))
          test_methods module_banners
  /\ forall s,
       results (run_all_tests s).2 = results s ++ emitted run_all_tests s
       /\ exists out,
            stdout (run_all_tests s).2
            = stdout s
              ++ [ "Starting penetration testing against: " +:+ base_url;
                   Str.repeat "=" 60 ] ++ out
            /\ banners out = module_banners
            /\ log_lines out = map line_of (emitted run_all_tests s).
Proof.
  split.
  - eapply Forall2_impl; [apply modules_report|].
    intros m banner Hm s. destruct (Hm s) as (rs & Hr & Ho & _).
    by rewrite (emitted_intro _ _ _ Hr).
  - intros s. destruct (run_all_tests_report s) as (rs & out & Hr & Ho & Hb & Hl & _).
    rewrite (emitted_intro _ _ _ Hr). split; [done|]. by exists out.
Qed.

(** X2. Every result a module or a whole run logs carries one of seven
    pairs of status and severity: VULNERABLE with critical, high or medium;
    SECURE with info; ERROR, SKIPPED or INFO with low.  In particular no
    result of severity critical, high or medium is anything but a
    finding. *)
Theorem results_are_classified :
  Forall (fun m => forall s,
            Forall (fun r => classified r = true) (emitted (call m) s))
         test_methods
  /\ forall s, Forall (fun r => classified r = true) (emitted run_all_tests s).
Proof.
  split.
  - assert (forall ms bs,
              Forall2 (fun m banner =>
                         reports (fun r => classified r = true) banner (call m))
                      ms bs ->
              Forall (fun m => forall s,
                        Forall (fun r => classified r = true)
                               (emitted (call m) s)) ms) as Hgen.
    { induction 1 as [|m b ms bs Hm _ IH]; constructor; [|done].
      intros s. destruct (Hm s) as (rs & Hr & _ & HP).
      by rewrite (emitted_intro _ _ _ Hr). }
    exact (Hgen _ _ modules_report).
  - intros s. destruct (run_all_tests_report s) as (rs & out & Hr & _ & _ & _ & HP).
    by rewrite (emitted_intro _ _ _ Hr).
Qed.

(** ** The counters of the report *)

Lemma classified_counts (rs : list ProbeResult) :
  Forall (fun r => classified r = true) rs ->
  count_severity "critical" rs = count_vulnerable "critical" rs
  /\ count_severity "high" rs = count_vulnerable "high" rs
  /\ count_severity "medium" rs = count_vulnerable "medium" rs
  /\ count_severity "low" rs = count_not_verdicts rs.
Proof.
  unfold count_severity, count_vulnerable, count_not_verdicts.
  induction 1 as [|r rs Hr _ IH]; [done|].
  destruct IH as (IH1 & IH2 & IH3 & IH4).
  apply bool_decide_eq_true_1 in Hr.
  rewrite !filter_cons.
  repeat (apply elem_of_cons in Hr as [[= Hs Hv]|Hr];
          [rewrite Hs, Hv;
           repeat (case_decide; try (exfalso; by intuition discriminate));
           cbn [length]; by rewrite ?IH1, ?IH2, ?IH3, ?IH4 |]).
  by apply elem_of_nil in Hr.
Qed.

Lemma tally_lookup (rs : list ProbeResult) (sev : string) :
  sev ∈ tallied_severities ->
  severity_counts rs !! sev = Some (count_severity sev rs).
Proof.
  intros Hin. unfold severity_counts. rewrite tally_fold.
  unfold tallied_severities in Hin.
  repeat (apply elem_of_cons in Hin as [->|Hin]; [done|]).
  by apply elem_of_nil in Hin.
Qed.

(** X3. On the results of a whole run of a fresh tester, the counters
    [generate_report] computes count findings under critical, high and
    medium, and nothing but findings: each is the number of VULNERABLE
    results of its severity.  The counter of low counts no finding at
    all, only the ERROR, SKIPPED and INFO results. *)
Theorem report_counters_count_findings (t : T) (clk : nat -> string) :
  let rs := results (run_all_tests (initial t clk)).2 in
  severity_counts rs !! "critical" = Some (count_vulnerable "critical" rs)
  /\ severity_counts rs !! "high" = Some (count_vulnerable "high" rs)
  /\ severity_counts rs !! "medium" = Some (count_vulnerable "medium" rs)
  /\ severity_counts rs !! "low" = Some (count_not_verdicts rs).
Proof.
  intros rs.
  destruct (run_all_tests_report (initial t clk))
    as (rs' & out & Hr & _ & _ & _ & HP).
  cbn [initial results app] in Hr. subst rs. rewrite Hr.
  destruct (classified_counts rs' HP) as (H1 & H2 & H3 & H4).
  rewrite !tally_lookup by (unfold tallied_severities; set_solver).
  by rewrite H1, H2, H3, H4.
Qed.

(** ** The probes that run with a token *)

Section WithToken.
(** The login URL built, and the login answered 200 with a JSON object
    that holds a usable token. *)
Variable login_url : string.
Variable s : State.
Variable r : Response.
Variable t' : T.
Variable d : gmap string PyVal.
Hypothesis Hjoin : urljoin base_url "/api/auth/login" = inr login_url.
Hypothesis Hq :
  respond (target s) (login_request login_url) = (Responded r, t').
Hypothesis H200 : status_code r = 200.
Hypothesis Hjson : json r = inr (PDict d).
Hypothesis Htoken : truthy (login_token d) = true.

Lemma authenticate_accepted (banner : string) :
  authenticate (print banner s).2
  = (Ok (login_token d), logged_in login_url s r t' banner).
Proof. by apply authenticate_decoded. Qed.

(** *** The XSS probe *)

Lemma xss_body_step (create_task_url : string) (v : PyVal) (p : string)
    (s0 : State) (o : Outcome) (t0 : T) :
  respond (target s0) (xss_request create_task_url v p) = (o, t0) ->
  let run := xss_iteration create_task_url v p s0 in
  exchanges run.2 = exchanges s0 ++ [(xss_request create_task_url v p, o)]
  /\ target run.2 = t0
  /\ match o with
     | Responded r0 =>
         (reflects p r0 /\ run.1 = Ok Return
          /\ exists x, results run.2 = results s0 ++ [x]
               /\ status x = "VULNERABLE" /\ severity x = "high"
               /\ occurs p (details x))
         \/ (~ reflects p r0 /\ run.1 = Ok Next
             /\ results run.2 = results s0)
     | Failed e =>
         run.1 = Ok Next
         /\ exists x, results run.2 = results s0 ++ [x]
              /\ status x = "ERROR" /\ severity x = "low"
     end.
Proof.
  intros Hr. unfold xss_iteration, try_except, bind, session_post, send.
  fold (xss_request create_task_url v p). rewrite Hr. destruct o as [r0|e].
  - cbn zeta. cbn [fst snd].
    destruct (Str.contains p (text r0)) eqn:Hocc; cbn [andb].
    + apply contains_spec in Hocc.
      destruct (Z.eqb_spec (status_code r0) 200) as [Hc|Hc]; cbn [orb];
        [|destruct (Z.eqb_spec (status_code r0) 201) as [Hc'|Hc']].
      * cbn. split_and!; [done..|]. left. split_and!; [by split; auto | done |].
        eexists. split_and!; try done. cbn. apply occurs_prepend_nil.
      * cbn. split_and!; [done..|]. left. split_and!; [by split; auto | done |].
        eexists. split_and!; try done. cbn. apply occurs_prepend_nil.
      * cbn. split_and!; [done..|]. right. split_and!; [|done..].
        intros [_ [?|?]]; done.
    + cbn. split_and!; [done..|]. right. split_and!; [|done..].
      intros [Hocc'%contains_spec _]. congruence.
  - cbn. split_and!; [done..|]. eexists. by split_and!.
Qed.

Lemma xss_verdict_joined (create_task_url : string) :
  urljoin base_url "/api/tasks" = inr create_task_url ->
  let request := xss_request create_task_url (login_token d) in
  exists outs errors x,
    outs = take (length outs) (replies t' (map request xss_payloads))
    /\ sent test_xss_vulnerabilities s
       = (login_request login_url, Responded r)
           :: zip (map request xss_payloads) outs
    /\ emitted test_xss_vulnerabilities s = errors ++ [x]
    /\ Forall (fun y => status y = "ERROR" /\ severity y = "low") errors
    /\ length errors = length (failures outs)
    /\ ((status x = "SECURE" /\ severity x = "info"
         /\ length outs = 5%nat
         /\ Forall2 (fun p o => forall r', o = Responded r' -> ~ reflects p r')
                    xss_payloads outs)
        \/ (status x = "VULNERABLE" /\ severity x = "high"
            /\ exists before r' p,
                 outs = before ++ [Responded r']
                 /\ xss_payloads !! length before = Some p
                 /\ reflects p r'
                 /\ occurs p (details x)
                 /\ Forall2 (fun p o =>
                               forall r', o = Responded r' -> ~ reflects p r')
                            (take (length before) xss_payloads) before)).
Proof.
  intros Htasks request. subst request.
  set (v := login_token d) in *.
  set (s1 := logged_in login_url s r t'
                     (Str.newline +:+ "=== Testing XSS Vulnerabilities ===")).
  assert (test_xss_vulnerabilities s =
          match for_each xss_payloads (xss_iteration create_task_url v) s1 with
          | (Ok Return, s2) => (Ok tt, s2)
          | (Ok _, s2) =>
              log_result "XSS - Task Creation" "SECURE"
                "No XSS vulnerabilities detected in task creation" "info" s2
          | (Raise e, s2) => (Raise e, s2)
          end) as Hun.
  { unfold test_xss_vulnerabilities. rewrite print_bind.
    unfold bind at 1. rewrite authenticate_accepted. fold s1 v.
    rewrite Htoken. cbn [negb].
    rewrite (urljoin_bind_joined _ _ _ _ Htasks). unfold bind.
    by destruct (for_each xss_payloads _ s1) as [[[]|e] s2]. }
  destruct (first_match_loop (xss_request create_task_url v)
              (xss_iteration create_task_url v) reflects
              (fun p r x =>
                 status x = "VULNERABLE" /\ severity x = "high"
                 /\ occurs p (details x))
              (fun p e x => status x = "ERROR" /\ severity x = "low")
              (xss_body_step create_task_url v) xss_payloads s1)
    as (outs & errors & Houts & Hex & Herr & Hlen & Hshape).
  assert (Forall (fun y => status y = "ERROR" /\ severity y = "low") errors)
    as Herrors.
  { eapply Forall_impl; [exact Herr|]. by intros y (p & e & Hs).  }
  destruct (for_each xss_payloads _ s1) as [rf s2].
  cbn [fst snd] in Hex, Hshape.
  change (exchanges s1)
    with (exchanges s ++ [(login_request login_url, Responded r)]) in Hex.
  change (results s1) with (results s) in Hshape.
  change (target s1) with t' in Houts.
  rewrite <- app_assoc in Hex. cbn [app] in Hex.
  destruct Hshape as [(-> & Hres & Hl & Hall)
                     |(-> & before & r' & p & x & -> & Hp & Hh & Hx
                       & Hres & Hall)].
  - eexists outs, errors, _. split_and!; [done | | | done | done |].
    + apply sent_intro. by rewrite Hun.
    + apply emitted_intro. rewrite Hun. cbn. by rewrite Hres, <- app_assoc.
    + left. by split_and!.
  - destruct Hx as (Hs & Hsev & Hocc).
    exists (before ++ [Responded r']), errors, x.
    split_and!; [done | | | done | done |].
    + apply sent_intro. by rewrite Hun.
    + apply emitted_intro. by rewrite Hun.
    + right. split_and!; [done..|]. by exists before, r', p.
Qed.

Lemma xss_unjoined (e : Exn) :
  urljoin base_url "/api/tasks" = inl e ->
  test_xss_vulnerabilities s
  = (Raise e,
     logged_in login_url s r t'
       (Str.newline +:+ "=== Testing XSS Vulnerabilities ===")).
Proof.
  intros Htasks. unfold test_xss_vulnerabilities. rewrite print_bind.
  unfold bind at 1. rewrite authenticate_accepted, Htoken. cbn [negb].
  by rewrite (urljoin_bind_raised _ _ _ _ Htasks).
Qed.

(** *** The input-validation probe *)

Lemma input_validation_step (v : PyVal)
    (entry : string * list (string * string)) (s0 : State) :
  let run := input_validation_iteration v entry s0 in
  match urljoin base_url entry.1 with
  | inl e =>
      run.1 = Ok Next
      /\ exchanges run.2 = exchanges s0
      /\ target run.2 = target s0
      /\ exists rs, results run.2 = results s0 ++ rs
                    /\ input_validation_verdict entry (Unjoined e) rs
  | inr u =>
      forall o t0,
        respond (target s0) (input_validation_request v entry u) = (o, t0) ->
        run.1 = Ok Next
        /\ exchanges run.2
           = exchanges s0 ++ [(input_validation_request v entry u, o)]
        /\ target run.2 = t0
        /\ exists rs,
             results run.2 = results s0 ++ rs
             /\ input_validation_verdict
                  entry (Asked (input_validation_request v entry u) o) rs
  end.
Proof.
  destruct entry as [endpoint data]. cbn zeta. cbn [fst].
  unfold input_validation_iteration, try_except, bind, py_urljoin.
  destruct (urljoin base_url endpoint) as [e|u];
    cbn -[input_validation_request].
  { split_and!; [done..|]. eexists. split; [reflexivity|].
    eexists. split_and!; [done..| |]; apply occurs_error_details. }
  intros o t0 Hr. unfold session_post, send.
  change (mkRequest POST u (Some data) (Some v))
    with (input_validation_request v (endpoint, data) u).
  rewrite Hr. unfold input_validation_verdict.
  destruct o as [r0|e]; cbn -[input_validation_request].
  - destruct (Z.eqb_spec (status_code r0) 500) as [H500|H500];
      [|destruct (Z.eqb_spec (status_code r0) 400) as [H400|H400]];
      cbn -[input_validation_request]; repeat case_decide; try lia;
      (split_and!; [done..|]);
      eexists; (split; [reflexivity || (symmetry; apply app_nil_r)|]);
      try done; eexists; split_and!; try done; cbn; apply occurs_prepend_nil.
  - split_and!; [done..|]. eexists. split; [reflexivity|].
    eexists. split_and!; [done..| |]; apply occurs_error_details.
Qed.

(** *** The session probe *)

Lemma session_management_unfold :
  let s1 := logged_in login_url s r t'
              (Str.newline +:+ "=== Testing Session Management ===") in
  test_session_management s =
    match login_token d with
    | PStr tok =>
        match Str.split "." tok with
        | [part0; part1; _] =>
            let tampered := part0 +:+ "." +:+ part1 +:+ "." in
            match urljoin base_url "/api/users/profile" with
            | inl e =>
                log_result "Session Management Test Error" "ERROR"
                  ("Error testing JWT security: " +:+ e) "low" s1
            | inr profile_url =>
                match respond t' (profile_request profile_url tampered) with
                | (Responded r2, t'') =>
                    log_result "JWT Security"
                      (if status_code r2 =? 200 then "VULNERABLE"
                       else "SECURE")
                      (if status_code r2 =? 200
                       then "JWT token accepted without valid signature"
                       else "JWT signature validation working properly")
                      (if status_code r2 =? 200 then "critical" else "info")
                      (answered s1 (profile_request profile_url tampered)
                                (Responded r2) t'')
                | (Failed e, t'') =>
                    log_result "Session Management Test Error" "ERROR"
                      ("Error testing JWT security: " +:+ e) "low"
                      (answered s1 (profile_request profile_url tampered)
                                (Failed e) t'')
                end
            end
        | _ => (Ok tt, s1)
        end
    | v =>
        log_result "Session Management Test Error" "ERROR"
          ("Error testing JWT security: " +:+ no_attribute v "split") "low" s1
    end.
Proof.
  intros s1.
  unfold test_session_management. rewrite print_bind. unfold bind at 1.
  rewrite authenticate_accepted. fold s1. rewrite Htoken. cbn [negb].
  unfold try_except, bind, py_split.
  destruct (login_token d) as [| | | |tok| |]; try done.
  cbn beta iota. unfold ret at 1.
  destruct (Str.split "." tok) as [|part0 [|part1 [|part2 [|]]]]; try done.
  cbn zeta. unfold py_urljoin.
  destruct (urljoin base_url "/api/users/profile") as [e|profile_url];
    [done|]. cbn beta iota.  unfold ret at 1. unfold session_get, send.
  fold (profile_request profile_url (part0 +:+ "." +:+ part1 +:+ ".")).
  change (target s1) with t'.
  destruct (respond t' _) as [[r2|e] t'']; [|done].
  cbn beta iota zeta. by destruct (status_code r2 =? 200).
Qed.

End WithToken.

(** X6. With a token from the login, under either key, the XSS probe
    builds the URL of the task endpoint; if [urljoin] raises, the method
    raises the same error, with nothing sent but the login and nothing
    logged.  Otherwise it sends the payloads in order, each with the
    token, and always ends on exactly one verdict, preceded only by
    ERROR/low results, one for each request that raised.  The verdict is
    VULNERABLE/high exactly when the last response received reflects its
    payload (the payload occurs in the body and the status is 200 or 201),
    and its details then name that payload; otherwise it is SECURE/info,
    all five payloads have been sent, and no response received reflected
    the payload it answered. *)
Theorem xss_verdict (s : State) (login_url : string) (r : Response) (t' : T)
    (d : gmap string PyVal) :
  urljoin base_url "/api/auth/login" = inr login_url ->
  respond (target s) (login_request login_url) = (Responded r, t') ->
  status_code r = 200 ->
  json r = inr (PDict d) ->
  truthy (login_token d) = true ->
  match urljoin base_url "/api/tasks" with
  | inl e =>
      (test_xss_vulnerabilities s).1 = Raise e
      /\ sent test_xss_vulnerabilities s
         = [(login_request login_url, Responded r)]
      /\ emitted test_xss_vulnerabilities s = []
  | inr create_task_url =>
      let request := xss_request create_task_url (login_token d) in
      exists outs errors x,
        outs = take (length outs) (replies t' (map request xss_payloads))
        /\ sent test_xss_vulnerabilities s
           = (login_request login_url, Responded r)
               :: zip (map request xss_payloads) outs
        /\ emitted test_xss_vulnerabilities s = errors ++ [x]
        /\ Forall (fun y => status y = "ERROR" /\ severity y = "low") errors
        /\ length errors = length (failures outs)
        /\ ((status x = "SECURE" /\ severity x = "info"
             /\ length outs = 5%nat
             /\ Forall2 (fun p o =>
                           forall r', o = Responded r' -> ~ reflects p r')
                        xss_payloads outs)
            \/ (status x = "VULNERABLE" /\ severity x = "high"
                /\ exists before r' p,
                     outs = before ++ [Responded r']
                     /\ xss_payloads !! length before = Some p
                     /\ reflects p r'
                     /\ occurs p (details x)
                     /\ Forall2 (fun p o =>
                                   forall r', o = Responded r' ->
                                              ~ reflects p r')
                                (take (length before) xss_payloads) before))
  end.
Proof.
  intros Hjoin Hq H200 Hjson Htoken.
  destruct (urljoin base_url "/api/tasks") as [e|create_task_url] eqn:Htasks.
  - pose proof (xss_unjoined login_url s r t' d Hjoin Hq H200 Hjson Htoken
                  e Htasks) as Hun.
    rewrite Hun. split_and!; [done | |].
    + apply sent_intro. by rewrite Hun.
    + apply emitted_nil. by rewrite Hun.
  - by apply (xss_verdict_joined login_url s r t' d).
Qed.

(** X7. With a token from the login, under either key, the
    input-validation probe takes the three entries of its table in order,
    whatever it found before.  For each it joins the path to the base URL
    and, unless [urljoin] raises, sends one request with the token; what
    it logs is, entry by entry: one VULNERABLE/medium result on status
    500, one SECURE/info result on status 400, nothing on any other
    status, and one ERROR/low result when the request or [urljoin]
    raised.  When the three URLs can be built, four requests are sent in
    all. *)
Theorem input_validation_checks_every_entry (s : State) (login_url : string)
    (r : Response) (t' : T) (d : gmap string PyVal) :
  urljoin base_url "/api/auth/login" = inr login_url ->
  respond (target s) (login_request login_url) = (Responded r, t') ->
  status_code r = 200 ->
  json r = inr (PDict d) ->
  truthy (login_token d) = true ->
  let tried :=
    attempts fst (input_validation_request (login_token d)) t'
             endpoints_to_test in
  endpoints_to_test.*1 = ["/api/tasks"; "/api/projects"; "/api/users/profile"]
  /\ (test_input_validation s).1 = Ok tt
  /\ sent test_input_validation s
     = (login_request login_url, Responded r) :: asked tried
  /\ (exists per,
        emitted test_input_validation s = concat per
        /\ Forall2 (fun xa rs => input_validation_verdict xa.1 xa.2 rs)
                   (zip endpoints_to_test tried) per)
  /\ forall us,
       Forall2 (fun entry u => urljoin base_url entry.1 = inr u)
               endpoints_to_test us ->
       let reqs :=
         zip_with (input_validation_request (login_token d))
                  endpoints_to_test us in
       sent test_input_validation s
       = (login_request login_url, Responded r)
           :: zip reqs (replies t' reqs)
       /\ length (sent test_input_validation s) = 4%nat.
Proof.
  intros Hjoin Hq H200 Hjson Htoken tried.
  set (v := login_token d) in *.
  set (s1 := logged_in login_url s r t'
               (Str.newline +:+ "=== Testing Input Validation ===")).
  destruct (sweep_loop fst (input_validation_request v)
              (input_validation_iteration v) input_validation_verdict
              (input_validation_step v) endpoints_to_test s1)
    as (per & Hflow & Hres & Hex & Hall).
  assert (test_input_validation s
          = (Ok tt,
             (for_each endpoints_to_test (input_validation_iteration v)
                       s1).2)) as Hun.
  { unfold test_input_validation. rewrite print_bind.
    unfold bind at 1.
    rewrite (authenticate_accepted login_url s r t' d Hjoin Hq H200 Hjson).
    fold s1 v. rewrite Htoken. cbn [negb]. unfold bind.
    destruct (for_each endpoints_to_test _ s1) as [[f|e] s2]; [done|].
    cbn in Hflow. done. }
  change (exchanges s1)
    with (exchanges s ++ [(login_request login_url, Responded r)]) in Hex.
  change (results s1) with (results s) in Hres.
  change (target s1) with t' in Hex, Hall.
  rewrite <- app_assoc in Hex. cbn [app] in Hex.
  assert (sent test_input_validation s
          = (login_request login_url, Responded r) :: asked tried) as Hsent.
  { apply sent_intro. by rewrite Hun. }
  split_and!.
  - reflexivity.
  - by rewrite Hun.
  - done.
  - exists per. split; [|done]. apply emitted_intro. by rewrite Hun.
  - intros us Hus reqs. rewrite Hsent. subst tried.
    rewrite (attempts_joined fst _ _ _ us Hus). cbn zeta. fold reqs.
    split; [done|]. cbn [length].
    rewrite length_zip, replies_length, Nat.min_id. subst reqs.
    rewrite length_zip_with_l_eq; [done|].
    by apply Forall2_length in Hus.
Qed.

(** ** The information-disclosure probe *)

Lemma exposes_sensitive_spec (r : Response) :
  existsb (fun pattern => Str.contains pattern (Str.lower (text r)))
          sensitive_patterns = true
  <-> exposes_sensitive r.
Proof.
  unfold exposes_sensitive. rewrite existsb_exists.
  split; intros (pat & Hin & Hpat); exists pat.
  - apply list_elem_of_In in Hin. split; [done|].
    apply contains_lower_spec; [|done].
    unfold sensitive_patterns in Hin.
    repeat (apply elem_of_cons in Hin as [->|Hin]; [done|]).
    by apply elem_of_nil in Hin.
  - split; [by apply list_elem_of_In|].
    apply contains_lower_spec; [|done].
    unfold sensitive_patterns in Hin.
    repeat (apply elem_of_cons in Hin as [->|Hin]; [done|]).
    by apply elem_of_nil in Hin.
Qed.

Lemma information_step (endpoint : string) (s : State) :
  let run := information_iteration endpoint s in
  match urljoin base_url endpoint with
  | inl e =>
      run.1 = Ok Next
      /\ exchanges run.2 = exchanges s
      /\ target run.2 = target s
      /\ exists rs, results run.2 = results s ++ rs
                    /\ information_verdict endpoint (Unjoined e) rs
  | inr u =>
      forall o t',
        respond (target s) (information_request u) = (o, t') ->
        run.1 = Ok Next
        /\ exchanges run.2 = exchanges s ++ [(information_request u, o)]
        /\ target run.2 = t'
        /\ exists rs,
             results run.2 = results s ++ rs
             /\ information_verdict endpoint
                                    (Asked (information_request u) o) rs
  end.
Proof.
  cbn zeta. unfold information_iteration, try_except.
  destruct (urljoin base_url endpoint) as [e|u] eqn:Hj.
  { rewrite (urljoin_bind_raised _ _ _ _ Hj). cbn.
    split_and!; [done..|]. eexists. split; [reflexivity|].
    eexists. split_and!; [done..| |]; apply occurs_error_details. }
  intros o t' Hq. rewrite (urljoin_bind_joined _ _ _ _ Hj).
  unfold bind, session_get, send.
  fold (information_request u). rewrite Hq.
  unfold information_verdict.
  destruct o as [r|e]; [cbn beta iota zeta | cbn -[information_request]].
  - destruct (Z.eqb_spec (status_code r) 200) as [H200|H200];
      case_decide; try done; [|cbn -[information_request]].
    + destruct (existsb (fun pattern =>
                           Str.contains pattern (Str.lower (text r)))
                        sensitive_patterns) eqn:Hpat;
        cbn -[information_request existsb]; (split_and!; [done..|]);
        eexists; (split; [reflexivity|]); eexists;
        (split_and!; [done | cbn; apply occurs_prepend_nil | |]).
      * by left.
      * intros _. split; [done|]. intros _.
        by apply exposes_sensitive_spec.
      * by right.
      * intros _. split; [|done].
        intros Hexp%exposes_sensitive_spec. congruence.
    + split_and!; [done..|]. exists []. by rewrite app_nil_r.
  - split_and!; [done..|]. eexists. split; [reflexivity|].
    eexists. split_and!; [done..| |]; apply occurs_error_details.
Qed.

(** X8. The information-disclosure probe takes its seven paths in
    order, whatever it found before.  For each it joins the path to the
    base URL and, unless [urljoin] raises, sends one request; what it
    logs is, path by path: on status 200, one result naming the path,
    VULNERABLE/medium or INFO/low, and for a body in ASCII the first
    exactly when the body shows one of the sensitive words in whatever
    case; nothing on any other status; and one ERROR/low result when the
    request or [urljoin] raised.  When the seven URLs can be built, the
    seven requests are sent, once each and in order. *)
Theorem information_disclosure_checks_every_path (s : State) :
  let paths :=
    [ "/.env"; "/config.json"; "/package.json"; "/api/debug"; "/api/health";
      "/swagger.json"; "/api-docs" ] in
  let tried :=
    attempts id (fun _ => information_request) (target s) paths in
  (test_information_disclosure s).1 = Ok tt
  /\ sent test_information_disclosure s = asked tried
  /\ (exists per,
        emitted test_information_disclosure s = concat per
        /\ Forall2 (fun xa rs => information_verdict xa.1 xa.2 rs)
                   (zip paths tried) per)
  /\ forall us,
       Forall2 (fun path u => urljoin base_url path = inr u) paths us ->
       let reqs := map information_request us in
       sent test_information_disclosure s = zip reqs (replies (target s) reqs)
       /\ length (sent test_information_disclosure s) = 7%nat.
Proof.
  intros paths tried.
  set (s0 := (print (Str.newline +:+ "=== Testing Information Disclosure ===")
                    s).2).
  destruct (sweep_loop id (fun _ => information_request)
              information_iteration information_verdict information_step
              sensitive_endpoints s0)
    as (per & Hflow & Hres & Hex & Hall).
  assert (test_information_disclosure s
          = (Ok tt, (for_each sensitive_endpoints information_iteration s0).2))
    as Hun.
  { unfold test_information_disclosure. rewrite print_bind. fold s0.
    unfold bind.
    destruct (for_each sensitive_endpoints information_iteration s0)
      as [[f|e] s1]; [done|]. cbn in Hflow. done. }
  assert (sent test_information_disclosure s = asked tried) as Hsent.
  { apply sent_intro. by rewrite Hun. }
  split_and!.
  - by rewrite Hun.
  - done.
  - exists per. split; [|done]. apply emitted_intro. by rewrite Hun.
  - intros us Hus reqs. rewrite Hsent. subst tried.
    rewrite (attempts_joined id _ _ _ us Hus). cbn zeta.
    rewrite (zip_with_request_map information_request _ _ _ Hus).
    fold reqs. split; [done|].
    rewrite length_zip, replies_length, Nat.min_id. subst reqs.
    rewrite length_map. apply Forall2_length in Hus. by rewrite <- Hus.
Qed.

(** ** The session probe *)

(** X9. When the login hands out, under either key, a token of three
    dot-separated segments, the session probe cuts the token off after
    its second dot, that is, erases the signature and keeps the first two
    segments as they were, and builds the URL of the profile.  Unless
    [urljoin] raises it sends exactly one more request, the profile asked
    for with the cut token.  It then logs exactly one result:
    VULNERABLE/critical when the answer has status 200, SECURE/info on any
    other status whatever it is, ERROR/low when the request or [urljoin]
    raised. *)
Theorem session_probe_erases_signature (s : State) (login_url : string)
    (r : Response) (t' : T) (d : gmap string PyVal)
    (tok part0 part1 part2 : string) :
  urljoin base_url "/api/auth/login" = inr login_url ->
  respond (target s) (login_request login_url) = (Responded r, t') ->
  status_code r = 200 ->
  json r = inr (PDict d) ->
  login_token d = PStr tok ->
  Str.split "." tok = [part0; part1; part2] ->
  let tampered := part0 +:+ "." +:+ part1 +:+ "." in
  tok = tampered +:+ part2
  /\ match urljoin base_url "/api/users/profile" with
     | inl e =>
         sent test_session_management s
         = [(login_request login_url, Responded r)]
         /\ exists x,
              emitted test_session_management s = [x]
              /\ status x = "ERROR" /\ severity x = "low"
              /\ occurs e (details x)
     | inr profile_url =>
         let o := (respond t' (profile_request profile_url tampered)).1 in
         sent test_session_management s
         = [ (login_request login_url, Responded r);
             (profile_request profile_url tampered, o) ]
         /\ exists x,
              emitted test_session_management s = [x]
              /\ match o with
                 | Responded r2 =>
                     if decide (status_code r2 = 200)
                     then status x = "VULNERABLE" /\ severity x = "critical"
                     else status x = "SECURE" /\ severity x = "info"
                 | Failed e => status x = "ERROR" /\ severity x = "low"
                 end
     end.
Proof.
  intros Hjoin Hq H200 Hjson Hd Hparts tampered.
  assert (tok = tampered +:+ part2) as Htok.
  { rewrite <- (join_split "." tok), Hparts. subst tampered.
    unfold Str.join. cbn [String.concat].
    by rewrite !append_assoc. }
  assert (truthy (login_token d) = true) as Hv.
  { rewrite Hd. destruct tok; [discriminate Hparts | done]. }
  pose proof (session_management_unfold login_url s r t' d Hjoin Hq H200
                Hjson Hv) as Hun.
  cbn beta iota zeta in Hun. rewrite Hd in Hun.
  cbn beta iota zeta in Hun. rewrite Hparts in Hun. fold tampered in Hun.
  split; [done|]. unfold sent, emitted. rewrite Hun.
  destruct (urljoin base_url "/api/users/profile") as [e|profile_url].
  { cbn. rewrite !drop_app_length. split; [done|].
    eexists. split_and!; [done..|]. cbn. apply occurs_prepend_nil. }
  cbn zeta.
  destruct (respond t' (profile_request profile_url tampered))
    as [[r2|e] t'']; cbn -[profile_request].
  - rewrite <- app_assoc, !drop_app_length. split; [done|].
    eexists. split; [done|].
    case_decide as H2; destruct (Z.eqb_spec (status_code r2) 200); done.
  - rewrite <- app_assoc, !drop_app_length. split; [done|].
    eexists. by split.
Qed.

(** X10. When the login hands out, under either key, a token that is a
    string of fewer or more than three dot-separated segments, the
    session probe sends nothing after the login request and logs nothing.
    When the token is a true value that is no string, it sends nothing
    more either and logs exactly one result, ERROR/low, whose details
    show the failed attribute lookup.  In both cases it returns
    normally. *)
Theorem session_probe_without_jwt (s : State) (login_url : string)
    (r : Response) (t' : T) (d : gmap string PyVal) :
  urljoin base_url "/api/auth/login" = inr login_url ->
  respond (target s) (login_request login_url) = (Responded r, t') ->
  status_code r = 200 ->
  json r = inr (PDict d) ->
  truthy (login_token d) = true ->
  (forall tok, login_token d = PStr tok ->
               length (Str.split "." tok) <> 3%nat) ->
  (test_session_management s).1 = Ok tt
  /\ sent test_session_management s
     = [(login_request login_url, Responded r)]
  /\ match login_token d with
     | PStr _ => emitted test_session_management s = []
     | v =>
         exists x,
           emitted test_session_management s = [x]
           /\ status x = "ERROR" /\ severity x = "low"
           /\ details x = "Error testing JWT security: "
                            +:+ no_attribute v "split"
     end.
Proof.
  intros Hjoin Hq H200 Hjson Hv Hshape.
  pose proof (session_management_unfold login_url s r t' d Hjoin Hq H200
                Hjson Hv) as Hun.
  cbn zeta in Hun. unfold sent, emitted. rewrite Hun.
  destruct (login_token d) as [| | | |tok| |]; cbn;
    rewrite ?drop_app_length, ?drop_all;
    try (split_and!; [done..|]; eexists; by split_and!).
  specialize (Hshape tok eq_refl).
  destruct (Str.split "." tok) as [|part0 [|part1 [|part2 [|]]]];
    cbn in *; rewrite ?drop_app_length, ?drop_all; done.
Qed.

(** ** The constructor *)

(** X11. The base URL the tester keeps is the argument of the
    constructor with the slashes at its end removed, all of them and
    nothing else: the argument is the kept URL followed by a run of
    slashes, and the kept URL does not end in a slash.  An argument made
    of slashes only is kept as the empty string. *)
Theorem base_url_has_no_trailing_slash :
  (exists k, base = base_url +:+ Str.repeat "/" k)
  /\ (forall prefix, base_url <> prefix +:+ "/")
  /\ ((exists k, base = Str.repeat "/" k) -> base_url = "").
Proof.
  unfold base_url. split_and!.
  - apply rstrip_decompose.
  - intros prefix. apply rstrip_no_suffix.
  - intros [k Hk]. rewrite Hk. clear Hk.
    induction k as [|k IH]; [done|]. cbn. by rewrite IH.
Qed.

(** ** How often the session is called, and where *)

Lemma asks_ret {A} (n : nat) (a : A) : asks n (ret a).
Proof. intros s. exists []. cbn. rewrite app_nil_r. split_and!; [done..|lia]. Qed.

Lemma asks_raise {A} (n : nat) (e : Exn) : asks n (raise (A:=A) e).
Proof. intros s. exists []. cbn. rewrite app_nil_r. split_and!; [done..|lia]. Qed.

Lemma asks_log (n : nat) (name st text sev : string) :
  asks n (log_result name st text sev).
Proof. intros s. exists []. cbn. rewrite app_nil_r. split_and!; [done..|lia]. Qed.

Lemma asks_print (n : nat) (line : string) : asks n (print line).
Proof. intros s. exists []. cbn. rewrite app_nil_r. split_and!; [done..|lia]. Qed.

Lemma asks_send (n : nat) (q : Request) :
  in_scope q -> asks (S n) (send q).
Proof.
  intros Hq s. exists [(q, (respond (target s) q).1)]. unfold send.
  destruct (respond (target s) q) as [[r|e] t']; cbn;
    (split_and!; [done | by constructor | lia]).
Qed.

Lemma asks_bind {A B} (a b n : nat) (m : M A) (k : A -> M B) :
  (a + b <= n)%nat ->
  asks a m -> (forall x, asks b (k x)) -> asks n (bind m k).
Proof.
  intros Hn Hm Hk s. unfold bind. destruct (Hm s) as (ex1 & He1 & Hs1 & Hl1).
  destruct (m s) as [[x|e] s1]; cbn in *.
  - destruct (Hk x s1) as (ex2 & He2 & Hs2 & Hl2). exists (ex1 ++ ex2).
    rewrite He2, He1, <- app_assoc, length_app.
    split_and!; [done | by apply Forall_app | lia].
  - exists ex1. split_and!; [done..|lia].
Qed.

Lemma asks_try {A} (a b n : nat) (m : M A) (h : Exn -> M A) :
  (a + b <= n)%nat ->
  asks a m -> (forall e, asks b (h e)) -> asks n (try_except m h).
Proof.
  intros Hn Hm Hh s. unfold try_except.
  destruct (Hm s) as (ex1 & He1 & Hs1 & Hl1).
  destruct (m s) as [[x|e] s1]; cbn in *.
  - exists ex1. split_and!; [done..|lia].
  - destruct (Hh e s1) as (ex2 & He2 & Hs2 & Hl2). exists (ex1 ++ ex2).
    rewrite He2, He1, <- app_assoc, length_app.
    split_and!; [done | by apply Forall_app | lia].
Qed.

Lemma asks_bind_send {B} (n : nat) (q : Request) (k : Response -> M B) :
  in_scope q -> (forall r, asks n (k r)) -> asks (S n) (bind (send q) k).
Proof.
  intros Hq Hk. apply (asks_bind 1 n); [lia | by apply asks_send | done].
Qed.

Lemma asks_bind_still {A B} (n : nat) (m : M A) (k : A -> M B) :
  asks 0 m -> (forall x, asks n (k x)) -> asks n (bind m k).
Proof. intros Hm Hk. by apply (asks_bind 0 n). Qed.

Lemma asks_try_still {A} (n : nat) (m : M A) (h : Exn -> M A) :
  asks n m -> (forall e, asks 0 (h e)) -> asks n (try_except m h).
Proof. intros Hm Hh. apply (asks_try n 0); [lia | done..]. Qed.

(** A URL made of a probed path is in scope, whatever is asked of it. *)
Lemma asks_bind_urljoin {B} (n : nat) (path : string) (k : string -> M B) :
  path ∈ probed_paths ->
  (forall u,
     (forall mt data token, in_scope (mkRequest mt u data token)) ->
     asks n (k u)) ->
  asks n (bind (py_urljoin base_url path) k).
Proof.
  intros Hp Hk s. unfold bind, py_urljoin.
  destruct (urljoin base_url path) as [e|u] eqn:Hj.
  - exists []. cbn. rewrite app_nil_r. split_and!; [done..|lia].
  - apply Hk. intros mt data token. right. by exists path.
Qed.

Lemma asks_for_each {A} (c n : nat) (xs : list A) (body : A -> M Flow) :
  (length xs * c <= n)%nat ->
  (forall x, x ∈ xs -> asks c (body x)) -> asks n (for_each xs body).
Proof.
  revert n. induction xs as [|x xs IH]; intros n Hn Hb; [apply asks_ret|].
  cbn [for_each]. cbn [length] in Hn.
  apply (asks_bind c (length xs * c)); [lia | apply Hb, list_elem_of_here|].
  intros []; [|apply asks_ret..].
  apply IH; [lia|]. intros y Hy. by apply Hb, list_elem_of_further.
Qed.

Lemma login_probed : "/api/auth/login" ∈ probed_paths.
Proof. apply list_elem_of_here. Qed.

Lemma tasks_probed : "/api/tasks" ∈ probed_paths.
Proof. apply list_elem_of_further, list_elem_of_here. Qed.

Lemma admin_probed (endpoint : string) :
  endpoint ∈ admin_endpoints -> endpoint ∈ probed_paths.
Proof. intros Hin. unfold probed_paths. rewrite !elem_of_app. tauto. Qed.

Lemma entry_probed (entry : string * list (string * string)) :
  entry ∈ endpoints_to_test -> entry.1 ∈ probed_paths.
Proof.
  intros Hin. unfold probed_paths. rewrite !elem_of_app.
  do 2 right. left. by apply list_elem_of_fmap_2.
Qed.

Lemma profile_probed : "/api/users/profile" ∈ probed_paths.
Proof.
  unfold probed_paths. rewrite !elem_of_app. do 3 right. left.
  apply list_elem_of_here.
Qed.

Lemma sensitive_probed (endpoint : string) :
  endpoint ∈ sensitive_endpoints -> endpoint ∈ probed_paths.
Proof. intros Hin. unfold probed_paths. rewrite !elem_of_app. tauto. Qed.

Ltac probed :=
  first [ assumption | apply login_probed | apply tasks_probed
        | apply profile_probed | by apply admin_probed
        | by apply sensitive_probed ].

Ltac scope :=
  first [ by left
        | match goal with
          | Hscope : forall mt data token, in_scope (mkRequest mt ?u data token)
            |- in_scope (mkRequest _ ?u _ _) => apply Hscope
          end ].

Ltac asks_step :=
  first [ apply asks_ret | apply asks_raise | apply asks_log
        | apply asks_print
        | apply asks_bind_urljoin; [probed|]
        | apply asks_bind_send; [scope|]
        | apply asks_send; scope
        | apply asks_try_still
        | apply asks_bind_still ].

Lemma authenticate_asks : asks 1 authenticate.
Proof. walk_urls asks_step. Qed.

Lemma sql_injection_asks : asks 5 test_sql_injection.
Proof.
  unfold test_sql_injection.
  apply asks_bind_still; [apply asks_print | intros _].
  apply asks_bind_urljoin; [probed | intros u Hscope].
  apply (asks_bind 5 0); [lia | | intros []; walk_urls asks_step].
  apply (asks_for_each 1); [cbn; lia|]. intros p _. walk_urls asks_step.
Qed.

Lemma xss_asks : asks 6 test_xss_vulnerabilities.
Proof.
  unfold test_xss_vulnerabilities.
  apply asks_bind_still; [apply asks_print | intros _].
  apply (asks_bind 1 5); [lia | apply authenticate_asks | intros token].
  destruct (negb (truthy token)); [apply asks_log|].
  apply asks_bind_urljoin; [probed | intros u Hscope].
  apply (asks_bind 5 0); [lia | | intros []; walk_urls asks_step].
  apply (asks_for_each 1); [cbn; lia|]. intros p _. walk_urls asks_step.
Qed.

Lemma brute_force_loop_asks (login_url : string) (attempts : list nat)
    (k : nat) :
  (forall mt data token, in_scope (mkRequest mt login_url data token)) ->
  asks (length attempts) (brute_force_loop login_url attempts k).
Proof.
  intros Hscope.
  revert k. induction attempts as [|i rest IH]; intros k; [apply asks_ret|].
  cbn [brute_force_loop length].
  apply (asks_bind 1 (length rest)); [lia | walk_urls asks_step|].
  intros [[] k']; cbn [fst snd]; [apply IH | apply asks_ret..].
Qed.

Lemma authentication_security_asks : asks 10 test_authentication_security.
Proof.
  unfold test_authentication_security.
  apply asks_bind_still; [apply asks_print | intros _].
  apply asks_bind_urljoin; [probed | intros u Hscope].
  apply (asks_bind 10 0);
    [lia | by apply (brute_force_loop_asks u (seq 0 10) 0)|].
  intros [[] k]; walk_urls asks_step.
Qed.

Lemma authorization_bypass_asks : asks 4 test_authorization_bypass.
Proof.
  unfold test_authorization_bypass.
  apply asks_bind_still; [apply asks_print | intros _].
  apply (asks_bind 4 0); [lia | | intros; apply asks_ret].
  apply (asks_for_each 1); [cbn; lia|]. intros p Hp. walk_urls asks_step.
Qed.

Lemma input_validation_asks : asks 4 test_input_validation.
Proof.
  unfold test_input_validation.
  apply asks_bind_still; [apply asks_print | intros _].
  apply (asks_bind 1 3); [lia | apply authenticate_asks | intros token].
  destruct (negb (truthy token)); [apply asks_log|].
  apply (asks_bind 3 0); [lia | | intros; apply asks_ret].
  apply (asks_for_each 1); [cbn; lia|]. intros [endpoint data] Hp.
  apply entry_probed in Hp. cbn [fst] in Hp. walk_urls asks_step.
Qed.

Lemma session_management_asks : asks 2 test_session_management.
Proof.
  unfold test_session_management.
  apply asks_bind_still; [apply asks_print | intros _].
  apply (asks_bind 1 1); [lia | apply authenticate_asks | intros token].
  destruct (negb (truthy token)); [apply asks_ret|].
  walk_urls asks_step.
Qed.

Lemma information_disclosure_asks : asks 7 test_information_disclosure.
Proof.
  unfold test_information_disclosure.
  apply asks_bind_still; [apply asks_print | intros _].
  apply (asks_bind 7 0); [lia | | intros; apply asks_ret].
  apply (asks_for_each 1); [cbn; lia|]. intros p Hp. walk_urls asks_step.
Qed.

Lemma security_headers_asks : asks 1 test_security_headers.
Proof.
  unfold test_security_headers.
  apply asks_bind_still; [apply asks_print | intros _].
  walk_urls asks_step.
Qed.

Lemma run_method_asks (n : nat) (m : TestMethod) :
  asks n (call m) -> asks n (run_method m).
Proof.
  intros Hm. unfold run_method.
  apply (asks_bind n 0); [lia | | intros; apply asks_ret].
  apply asks_try_still; [done | intros; apply asks_log].
Qed.

Lemma run_methods_asks : asks 39 (run_methods test_methods).
Proof.
  unfold run_methods, test_methods.
  apply (asks_bind 39 0); [lia | | intros; apply asks_ret].
  cbn [for_each].
  apply (asks_bind 5 34);
    [lia | apply run_method_asks, sql_injection_asks
     | intros []; [|apply asks_ret..]].
  apply (asks_bind 6 28);
    [lia | apply run_method_asks, xss_asks
     | intros []; [|apply asks_ret..]].
  apply (asks_bind 10 18);
    [lia | apply run_method_asks, authentication_security_asks
     | intros []; [|apply asks_ret..]].
  apply (asks_bind 4 14);
    [lia | apply run_method_asks, authorization_bypass_asks
     | intros []; [|apply asks_ret..]].
  apply (asks_bind 4 10);
    [lia | apply run_method_asks, input_validation_asks
     | intros []; [|apply asks_ret..]].
  apply (asks_bind 2 8);
    [lia | apply run_method_asks, session_management_asks
     | intros []; [|apply asks_ret..]].
  apply (asks_bind 7 1);
    [lia | apply run_method_asks, information_disclosure_asks
     | intros []; [|apply asks_ret..]].
  apply (asks_bind 1 0);
    [lia | apply run_method_asks, security_headers_asks
     | intros []; apply asks_ret].
Qed.

(** X13. A whole run calls the session ([session.get] or
    [session.post]) at most 39 times, whatever the target answers, and
    every call is made on the base URL or on a URL that [urljoin] made of
    the base URL and one of the script's paths. *)
Theorem run_all_tests_calls_in_scope (s : State) :
  (length (sent run_all_tests s) <= 39)%nat
  /\ Forall (fun x => in_scope x.1) (sent run_all_tests s).
Proof.
  destruct (run_methods_asks (started s)) as (ex & Hex & Hscope & Hlen).
  assert (sent run_all_tests s = ex) as ->; [|done].
  apply sent_intro. rewrite run_all_tests_unfold. cbn [snd ticked exchanges].
  by rewrite Hex.
Qed.

(** ** A run writes no report *)

Lemma dry_ret {A} (a : A) : dry (ret a).
Proof. by intros s. Qed.

Lemma dry_raise {A} (e : Exn) : dry (raise (A:=A) e).
Proof. by intros s. Qed.

Lemma dry_log (name st text sev : string) : dry (log_result name st text sev).
Proof. by intros s. Qed.

Lemma dry_print (line : string) : dry (print line).
Proof. by intros s. Qed.

Lemma dry_send (req : Request) : dry (send req).
Proof.
  intros s. unfold send. by destruct (respond (target s) req) as [[r|e] t'].
Qed.

Lemma dry_bind {A B} (m : M A) (k : A -> M B) :
  dry m -> (forall a, dry (k a)) -> dry (bind m k).
Proof.
  intros Hm Hk s. unfold bind. specialize (Hm s).
  destruct (m s) as [[a|e] s1]; [|done]. by rewrite Hk.
Qed.

Lemma dry_try {A} (m : M A) (h : Exn -> M A) :
  dry m -> (forall e, dry (h e)) -> dry (try_except m h).
Proof.
  intros Hm Hh s. unfold try_except. specialize (Hm s).
  destruct (m s) as [[a|e] s1]; [done|]. by rewrite Hh.
Qed.

Lemma dry_for_each {A} (xs : list A) (body : A -> M Flow) :
  (forall x, dry (body x)) -> dry (for_each xs body).
Proof.
  intros Hb. induction xs as [|x xs IH]; [apply dry_ret|].
  cbn [for_each]. apply dry_bind; [done|].
  intros []; [done | apply dry_ret..].
Qed.

Ltac dry_step :=
  first [ apply dry_ret | apply dry_raise | apply dry_log | apply dry_print
        | apply dry_send | apply dry_bind | apply dry_try
        | apply dry_for_each ].

Lemma modules_dry : Forall (fun m => dry (call m)) test_methods.
Proof.
  repeat constructor; cbn [call]; walk dry_step.
Qed.

Lemma run_methods_dry (methods : list TestMethod) :
  Forall (fun m => dry (call m)) methods -> dry (run_methods methods).
Proof.
  intros Hall. unfold run_methods.
  apply dry_bind; [|intros; apply dry_ret].
  induction Hall as [|m rest Hm _ IH]; [apply dry_ret|].
  cbn [for_each]. apply dry_bind.
  - unfold run_method. walk dry_step. apply Hm.
  - intros []; [done | apply dry_ret..].
Qed.

(** X14. [generate_report] raises on every call: the first replacement
    field [format] meets in the template is the body of a CSS rule, whose
    name is no keyword of the call, so that [format] raises
    [KeyError(' font-family')] before the file is opened and before
    anything is printed.  A whole run therefore ends on that exception
    once its loop over the modules is over: it prints nothing after the
    loop, neither the line on the report nor the summary, and it writes
    no file. *)
Theorem generate_report_always_raises (s : State) :
  generate_report s = (Raise "' font-family'", ticked s)
  /\ (run_all_tests s).1 = Raise "' font-family'"
  /\ stdout (run_all_tests s).2
     = stdout (run_methods test_methods (started s)).2
  /\ files (run_all_tests s).2 = files s.
Proof.
  rewrite run_all_tests_unfold. split_and!; [|done..|].
  - apply generate_report_raises.
  - cbn [snd ticked files].
    by rewrite (run_methods_dry test_methods modules_dry (started s)).
Qed.

(** ** A target that cannot be reached *)

Section Unreachable.
Hypothesis Hdown : unreachable.

Lemma logs_bind_send (P : ProbeResult -> Prop) {B} (q : Request)
    (k : Response -> M B) :
  logs P (bind (send q) k).
Proof.
  intros s. exists []. unfold bind, send.
  destruct (Hdown (target s) q) as (e & t' & ->). cbn.
  by rewrite !app_nil_r.
Qed.

Ltac quiet_step :=
  first [ apply logs_ret | apply logs_raise | apply logs_bind_send
        | apply logs_log; by intros
        | apply logs_bind | apply logs_try | apply logs_for_each ].

Lemma replies_all_failed (t : T) (reqs : list Request) :
  Forall (fun o => reply_status o = None) (replies t reqs).
Proof.
  revert t. induction reqs as [|q qs IH]; intros t; [done|]. cbn [replies].
  destruct (Hdown t q) as (e & t' & ->). by constructor.
Qed.

Lemma all_failed_filter (outs : list Outcome) :
  Forall (fun o => reply_status o = None) outs ->
  filter (fun o => reply_status o = None) outs = outs.
Proof.
  induction 1 as [|o outs Ho _ IH]; [done|].
  by rewrite filter_cons_True, IH.
Qed.

Lemma statuses_of_errors (errors : list ProbeResult) (n : nat) :
  Forall (fun y => status y = "ERROR") errors ->
  length errors = n ->
  map status errors = replicate n "ERROR".
Proof.
  intros Hall <-. induction Hall as [|y ys Hy _ IH]; [done|].
  cbn. by rewrite Hy, IH.
Qed.

Lemma authentication_security_unreachable (login_url : string) (s : State) :
  urljoin base_url "/api/auth/login" = inr login_url ->
  exists x,
    results (test_authentication_security s).2 = results s ++ [x]
    /\ stdout (test_authentication_security s).2
       = stdout s
           ++ [Str.newline +:+ "=== Testing Authentication Security ===";
               line_of x]
    /\ status x = "ERROR" /\ severity x = "low".
Proof.
  intros Hjoin.
  pose proof (authentication_security_unfold login_url Hjoin s) as Hun.
  cbn zeta in Hun. rewrite Hun. clear Hun.
  change (seq 0 10) with (0%nat :: seq 1 9).
  rewrite brute_force_loop_cons.
  set (s0 := (print _ s).2).
  destruct (Hdown (target s0) (brute_force_request login_url 0))
    as (e & t' & Hq).
  rewrite (brute_force_step _ _ _ _ _ _ Hq). cbn.
  exists (mkResult (clock s (ticks s)) "Authentication Test Error" "ERROR"
                   "low" ("Error during brute force test: " +:+ e)).
  split_and!; [done | | done..]. by rewrite <- app_assoc.
Qed.

Lemma authentication_security_reports_unreachable :
  reports (fun r => status r <> "VULNERABLE")
          (Str.newline +:+ "=== Testing Authentication Security ===")
          test_authentication_security.
Proof.
  intros s.
  destruct (urljoin base_url "/api/auth/login") as [e|login_url] eqn:Hjoin.
  - exists []. rewrite (authentication_security_unjoined _ _ Hjoin). cbn.
    by rewrite app_nil_r.
  - destruct (authentication_security_unreachable login_url s Hjoin)
      as (x & Hres & Hout & Hs & _).
    exists [x]. split_and!; [done..|]. constructor; [|done]. by rewrite Hs.
Qed.

Lemma modules_report_unreachable :
  Forall2 (fun m banner =>
             reports (fun r => status r <> "VULNERABLE") banner (call m))
          test_methods module_banners.
Proof.
  unfold test_methods, module_banners. cbn [map].
  repeat match goal with |- Forall2 _ _ _ => constructor end; cbn [call].
  3:{ apply authentication_security_reports_unreachable. }
  all: apply logs_reports; walk quiet_step.
Qed.

(** X12. Against a target that cannot be reached (every call of the
    session raises), a whole run logs no VULNERABLE result.  The login
    URL built, the SQL-injection probe logs five ERROR results and then
    its SECURE verdict, and the brute-force probe logs one ERROR result
    and no verdict. *)
Theorem unreachable_target_yields_no_finding (s : State) :
  Forall (fun r => status r <> "VULNERABLE") (emitted run_all_tests s)
  /\ forall login_url,
       urljoin base_url "/api/auth/login" = inr login_url ->
       map status (emitted test_sql_injection s)
       = ["ERROR"; "ERROR"; "ERROR"; "ERROR"; "ERROR"; "SECURE"]
       /\ map status (emitted test_authentication_security s) = ["ERROR"].
Proof.
  split.
  { rewrite (emitted_intro run_all_tests s
               (emitted (run_methods test_methods) (started s))).
    - edestruct (run_methods_report (fun r => status r <> "VULNERABLE")
                   test_methods module_banners (started s))
        as (rs & out & Hr & _ & _ & _ & HP);
        [done | apply module_banners_are_banners
         | apply modules_report_unreachable |].
      by rewrite (emitted_intro _ _ _ Hr).
    - rewrite run_all_tests_unfold. cbn [snd ticked results].
      edestruct (run_methods_report (fun r => True) test_methods
                   module_banners (started s))
        as (rs & out & Hr & _);
        [done | apply module_banners_are_banners | |].
      { eapply Forall2_impl; [apply modules_report_unreachable|].
        intros m b Hm s0. destruct (Hm s0) as (rs & ? & ? & ?).
        exists rs. split_and!; [done..|]. by apply Forall_true. }
      by rewrite (emitted_intro _ _ _ Hr), Hr. }
  intros login_url Hjoin. split.
  - pose proof (sql_injection_unfold login_url Hjoin s) as Hun.
    cbn zeta in Hun.
    set (s0 := (print (Str.newline +:+ "=== Testing SQL Injection ===") s).2)
      in Hun.
    destruct (first_match_loop (sql_request login_url)
                (sql_iteration login_url) (fun _ => sql_hit)
                (fun p r x =>
                   status x = "VULNERABLE" /\ severity x = "critical"
                   /\ occurs p (details x)
                   /\ (reveals_sql_error r ->
                       test_name x = "SQL Injection - Login")
                   /\ (~ reveals_sql_error r ->
                       test_name x = "SQL Injection - Authentication Bypass"))
                (fun p e x =>
                   status x = "ERROR" /\ severity x = "low"
                   /\ test_name x = "SQL Injection Test Error")
                (sql_body_step login_url) sql_payloads s0)
      as (outs & errors & Houts & _ & Herr & Hlen & Hshape).
    assert (filter (fun o => reply_status o = None) outs = outs) as Hfail.
    { apply all_failed_filter. rewrite Houts.
      apply Forall_take, replies_all_failed. }
    rewrite Hfail in Hlen.
    destruct (for_each sql_payloads (sql_iteration login_url) s0) as [rf s1].
    cbn [fst snd] in Hshape.
    change (results s0) with (results s) in Hshape.
    destruct Hshape as [(-> & Hres & Hl & _)
                       |(_ & before & r & _ & _ & -> & _)].
    + rewrite (emitted_intro test_sql_injection s
                 (errors ++ [mkResult (clock s1 (ticks s1))
                               "SQL Injection - Login" "SECURE" "info"
                               "No SQL injection vulnerabilities detected in login endpoint"])).
      2:{ rewrite Hun. cbn. by rewrite Hres, <- app_assoc. }
      rewrite Hl in Hlen. rewrite map_app.
      rewrite (statuses_of_errors errors 5); [done | | done].
      eapply Forall_impl; [exact Herr|]. by intros y (p & e & Hs & _).
    + exfalso.
      assert (Forall (fun o => reply_status o = None)
                     (before ++ [Responded r])) as Hall.
      { rewrite Houts. apply Forall_take, replies_all_failed. }
      apply Forall_app in Hall as [_ Hall]. by inversion Hall.
  - destruct (authentication_security_unreachable login_url s Hjoin)
      as (x & Hres & _ & Hs & _).
    rewrite (emitted_intro test_authentication_security s [x]) by done.
    cbn. by rewrite Hs.
Qed.

End Unreachable.

End Properties.

(** ** The properties on the stub targets *)

(** Witness of C2: the third payload makes the leaky target show its
    database error. *)
Lemma sql_injection_first_match_wins_witness :
  exists errors x before,
    emitted (test_sql_injection (H := Stub.leaky)) Stub.leaky_start
    = errors ++ [x]
    /\ Forall (fun y => status y = "ERROR" /\ severity y = "low") errors
    /\ status x = "VULNERABLE" /\ severity x = "critical"
    /\ occurs Stub.union_payload (details x)
    /\ sent (test_sql_injection (H := Stub.leaky)) Stub.leaky_start
       = before ++ [(sql_request Stub.login_url Stub.union_payload,
                     Responded Stub.leak)]
    /\ map fst (sent (test_sql_injection (H := Stub.leaky)) Stub.leaky_start)
       = map (sql_request Stub.login_url)
             (take (length (sent (test_sql_injection (H := Stub.leaky))
                                 Stub.leaky_start))
                   sql_payloads).
Proof.
  apply (sql_injection_first_match_wins (H := Stub.leaky) Stub.leaky_start
           Stub.login_url Stub.union_payload "sql syntax" Stub.leak).
  - vm_compute. do 2 apply list_elem_of_further. apply list_elem_of_here.
  - vm_compute. apply list_elem_of_here.
  - exists "SQL Syntax". split; [|reflexivity].
    by exists "You have an error in your ", " near 'UNION SELECT'".
Defined.

(** Witness of C3: the three cases on the limiting, the rejecting and the
    unreachable target. *)
Lemma brute_force_verdicts_witness :
  (exists x,
     emitted (test_authentication_security (H := Stub.limiting))
             Stub.limiting_start = [x]
     /\ status x = "SECURE" /\ severity x = "info"
     /\ length (sent (test_authentication_security (H := Stub.limiting))
                     Stub.limiting_start) = 10%nat)
  /\ (exists x,
        emitted (test_authentication_security (H := Stub.rejecting))
                Stub.rejecting_start = [x]
        /\ status x = "VULNERABLE" /\ severity x = "medium")
  /\ (exists x before,
        emitted (test_authentication_security (H := Stub.down))
                Stub.down_start = [x]
        /\ status x = "ERROR" /\ severity x = "low"
        /\ sent (test_authentication_security (H := Stub.down))
                Stub.down_start
           = before ++ [(brute_force_request Stub.login_url 0,
                         Failed "Connection refused")]).
Proof.
  split; [|split].
  - apply (proj1 (proj1 (brute_force_verdicts (H := Stub.limiting)
                                              Stub.limiting_start)
                        Stub.login_url eq_refl)).
    vm_compute. reflexivity.
  - apply (proj2 (proj1 (brute_force_verdicts (H := Stub.rejecting)
                                              Stub.rejecting_start)
                        Stub.login_url eq_refl)).
    vm_compute. reflexivity.
  - apply (proj2 (brute_force_verdicts (H := Stub.down) Stub.down_start)).
    vm_compute. apply list_elem_of_here.
Defined.

(** Witness of C10: ten successful logins still give the VULNERABLE
    verdict, with a count of zero. *)
Lemma brute_force_counts_only_401_witness :
  exists x,
    emitted (test_authentication_security (H := Stub.welcoming))
            Stub.welcoming_start = [x]
    /\ status x = "VULNERABLE" /\ severity x = "medium"
    /\ details x = "No rate limiting detected after 0 failed attempts"
    /\ length (sent (test_authentication_security (H := Stub.welcoming))
                    Stub.welcoming_start) = 10%nat
    /\ length (replicate 10 200) = 10%nat.
Proof.
  apply (brute_force_counts_only_401 (H := Stub.welcoming)
           Stub.welcoming_start Stub.login_url (replicate 10 200)).
  - reflexivity.
  - vm_compute. reflexivity.
  - intros [Heq _]%elem_of_replicate. discriminate Heq.
Defined.

(** Witness of C4: the rejecting target. *)
Lemma session_probe_silent_without_token_witness :
  (exists x,
     (test_xss_vulnerabilities (H := Stub.rejecting) Stub.rejecting_start).1
     = Ok tt
     /\ emitted (test_xss_vulnerabilities (H := Stub.rejecting))
                Stub.rejecting_start = [x]
     /\ status x = "SKIPPED" /\ severity x = "low")
  /\ (exists x,
        (test_input_validation (H := Stub.rejecting) Stub.rejecting_start).1
        = Ok tt
        /\ emitted (test_input_validation (H := Stub.rejecting))
                   Stub.rejecting_start = [x]
        /\ status x = "SKIPPED" /\ severity x = "low")
  /\ (test_session_management (H := Stub.rejecting) Stub.rejecting_start).1
     = Ok tt
  /\ emitted (test_session_management (H := Stub.rejecting))
             Stub.rejecting_start = [].
Proof.
  apply (session_probe_silent_without_token (H := Stub.rejecting)
           Stub.rejecting_start Stub.login_url
           (Stub.plain 401 "Unauthorized") tt).
  - reflexivity.
  - reflexivity.
  - vm_compute. discriminate.
Defined.

(** Witness of C5 as amended: a response with the five headers of the
    specification in order, and no [X-XSS-Protection]. *)
Lemma security_headers_verdict_witness :
  exists x,
    emitted (test_security_headers (H := Stub.five_header_site))
            Stub.five_header_start = [x]
    /\ status x = "VULNERABLE" /\ severity x = "medium"
    /\ Forall (fun h => occurs h (details x)) ["X-XSS-Protection"].
Proof.
  exact (security_headers_verdict (H := Stub.five_header_site)
           Stub.five_header_start Stub.five_headers tt eq_refl).
Defined.

(** The input on which C5 as stated fails: the five checks of the
    specification pass, and the verdict is VULNERABLE all the same. *)
Lemma security_headers_five_checks_not_enough :
  offending (headers Stub.five_headers) five_required_headers = []
  /\ emitted (test_security_headers (H := Stub.five_header_site))
             Stub.five_header_start
     = [mkResult "T0" "Security Headers" "VULNERABLE" "medium"
          "Missing or incorrect security headers: X-XSS-Protection"].
Proof. split; vm_compute; reflexivity. Qed.

(** Witness of C6 as amended: the rejecting target, whose four URLs can
    be built, is asked for the four endpoints, once each and in order. *)
Lemma authorization_bypass_checks_every_endpoint_witness :
  map fst (sent (test_authorization_bypass (H := Stub.rejecting))
                Stub.rejecting_start)
  = map authorization_request
        [ "http://localhost:3000/api/admin/users";
          "http://localhost:3000/api/admin/system/health";
          "http://localhost:3000/api/admin/analytics";
          "http://localhost:3000/api/admin/settings" ]
  /\ map snd (sent (test_authorization_bypass (H := Stub.rejecting))
                   Stub.rejecting_start)
     = replicate 4 (Responded (Stub.plain 401 "Unauthorized")).
Proof.
  apply (proj2 (proj2 (proj2
           (authorization_bypass_checks_every_endpoint (H := Stub.rejecting)
              Stub.rejecting_start)))
           [ "http://localhost:3000/api/admin/users";
             "http://localhost:3000/api/admin/system/health";
             "http://localhost:3000/api/admin/analytics";
             "http://localhost:3000/api/admin/settings" ]).
  repeat constructor.
Defined.

(** The input on which C6 as stated fails: a base URL that [urljoin]
    rejects.  No endpoint is requested, and the four results are
    errors. *)
Lemma authorization_bypass_requests_nothing :
  sent (test_authorization_bypass (H := Stub.malformed)) Stub.malformed_start
  = []
  /\ map (fun x => (status x, severity x, details x))
         (emitted (test_authorization_bypass (H := Stub.malformed))
                  Stub.malformed_start)
     = [ ("ERROR", "low",
          "Error testing endpoint /api/admin/users: Invalid IPv6 URL");
         ("ERROR", "low",
          "Error testing endpoint /api/admin/system/health: Invalid IPv6 URL");
         ("ERROR", "low",
          "Error testing endpoint /api/admin/analytics: Invalid IPv6 URL");
         ("ERROR", "low",
          "Error testing endpoint /api/admin/settings: Invalid IPv6 URL") ].
Proof. split; vm_compute; reflexivity. Qed.

(** The input on which C7 as stated fails: the results of a whole run
    against the rejecting target.  None of them is a VULNERABLE result
    of severity low, yet the tally counts two under low (the two SKIPPED
    results); and the tally has no counter for info, the severity of the
    five SECURE results. *)
Lemma severity_counts_not_only_vulnerable :
  severity_counts (results (run_all_tests Stub.rejecting_start).2) !! "low"
  = Some 2%nat
  /\ count_vulnerable "low" (results (run_all_tests Stub.rejecting_start).2)
     = 0%nat
  /\ count_severity "info" (results (run_all_tests Stub.rejecting_start).2)
     = 5%nat
  /\ severity_counts (results (run_all_tests Stub.rejecting_start).2) !! "info"
     = None.
Proof. split_and!; vm_compute; reflexivity. Qed.



(** ** The further properties on the stub targets *)

(** Witness of X4: the token of the welcoming target is returned as it
    is, and the target that only sends [accessToken] has that one
    returned. *)
Lemma authenticate_prefers_token_witness :
  (authenticate (H := Stub.welcoming) Stub.welcoming_start).1
  = Ok (PStr "abc.def.ghi")
  /\ (authenticate (H := Stub.renaming) Stub.renaming_start).1
     = Ok (PStr "abc.def.ghi")
  /\ emitted (authenticate (H := Stub.renaming)) Stub.renaming_start = [].
Proof.
  split; [|split].
  - apply (proj1 (authenticate_prefers_token (H := Stub.welcoming)
                    Stub.welcoming_start Stub.login_url Stub.welcome tt
                    {[ "token" := PStr "abc.def.ghi" ]}
                    eq_refl eq_refl eq_refl eq_refl)).
    + vm_compute. reflexivity.
    + reflexivity.
  - apply (proj1 (proj2 (authenticate_prefers_token (H := Stub.renaming)
                           Stub.renaming_start Stub.login_url Stub.renamed tt
                           {[ "accessToken" := PStr "abc.def.ghi" ]}
                           eq_refl eq_refl eq_refl eq_refl))).
    left. vm_compute. reflexivity.
  - apply (proj2 (proj2 (authenticate_prefers_token (H := Stub.renaming)
                           Stub.renaming_start Stub.login_url Stub.renamed tt
                           {[ "accessToken" := PStr "abc.def.ghi" ]}
                           eq_refl eq_refl eq_refl eq_refl))).
Defined.

(** Witness of X6: the target that hands out its token under
    [accessToken] and echoes no payload. *)
Lemma xss_verdict_witness :
  exists outs errors x,
    outs = take (length outs)
             (replies (H := Stub.renaming) tt
                (map (xss_request Stub.tasks_url (PStr "abc.def.ghi"))
                     xss_payloads))
    /\ sent (test_xss_vulnerabilities (H := Stub.renaming))
            Stub.renaming_start
       = (login_request Stub.login_url, Responded Stub.renamed)
           :: zip (map (xss_request Stub.tasks_url (PStr "abc.def.ghi"))
                       xss_payloads) outs
    /\ emitted (test_xss_vulnerabilities (H := Stub.renaming))
               Stub.renaming_start = errors ++ [x]
    /\ Forall (fun y => status y = "ERROR" /\ severity y = "low") errors
    /\ length errors = length (failures outs)
    /\ ((status x = "SECURE" /\ severity x = "info"
         /\ length outs = 5%nat
         /\ Forall2 (fun p o => forall r', o = Responded r' -> ~ reflects p r')
                    xss_payloads outs)
        \/ (status x = "VULNERABLE" /\ severity x = "high"
            /\ exists before r' p,
                 outs = before ++ [Responded r']
                 /\ xss_payloads !! length before = Some p
                 /\ reflects p r'
                 /\ occurs p (details x)
                 /\ Forall2 (fun p o =>
                               forall r', o = Responded r' -> ~ reflects p r')
                            (take (length before) xss_payloads) before)).
Proof.
  exact (xss_verdict (H := Stub.renaming) Stub.renaming_start
           Stub.login_url Stub.renamed tt
           {[ "accessToken" := PStr "abc.def.ghi" ]}
           eq_refl eq_refl eq_refl eq_refl eq_refl).
Defined.

(** Witness of X7: the welcoming target answers 200 to the three
    entries, so that the probe sends its four requests and logs
    nothing. *)
Lemma input_validation_checks_every_entry_witness :
  length (sent (test_input_validation (H := Stub.welcoming))
               Stub.welcoming_start) = 4%nat.
Proof.
  apply (proj2 (proj2 (proj2 (proj2
           (input_validation_checks_every_entry (H := Stub.welcoming)
              Stub.welcoming_start Stub.login_url Stub.welcome tt
              {[ "token" := PStr "abc.def.ghi" ]}
              eq_refl eq_refl eq_refl eq_refl eq_refl))))
           [ "http://localhost:3000/api/tasks";
             "http://localhost:3000/api/projects";
             "http://localhost:3000/api/users/profile" ]).
  repeat constructor.
Defined.

(** Witness of X8: the rejecting target is asked for the seven paths. *)
Lemma information_disclosure_checks_every_path_witness :
  length (sent (test_information_disclosure (H := Stub.rejecting))
               Stub.rejecting_start) = 7%nat.
Proof.
  apply (proj2 (proj2 (proj2
           (information_disclosure_checks_every_path (H := Stub.rejecting)
              Stub.rejecting_start)))
           [ "http://localhost:3000/.env";
             "http://localhost:3000/config.json";
             "http://localhost:3000/package.json";
             "http://localhost:3000/api/debug";
             "http://localhost:3000/api/health";
             "http://localhost:3000/swagger.json";
             "http://localhost:3000/api-docs" ]).
  repeat constructor.
Defined.

(** Witness of X9: the target that hands out its token under
    [accessToken] accepts the token without its signature, which the
    probe reports. *)
Lemma session_probe_erases_signature_witness :
  sent (test_session_management (H := Stub.renaming)) Stub.renaming_start
  = [ (login_request Stub.login_url, Responded Stub.renamed);
      (profile_request Stub.profile_url "abc.def.", Responded Stub.renamed) ]
  /\ exists x,
       emitted (test_session_management (H := Stub.renaming))
               Stub.renaming_start = [x]
       /\ status x = "VULNERABLE" /\ severity x = "critical".
Proof.
  apply (proj2 (session_probe_erases_signature (H := Stub.renaming)
                  Stub.renaming_start Stub.login_url Stub.renamed tt
                  {[ "accessToken" := PStr "abc.def.ghi" ]} "abc.def.ghi"
                  "abc" "def" "ghi"
                  eq_refl eq_refl eq_refl eq_refl eq_refl eq_refl)).
Defined.

(** Witness of X10: a session identifier without dots. *)
Lemma session_probe_without_jwt_witness :
  (test_session_management (H := Stub.opaque_site) Stub.opaque_start).1
  = Ok tt
  /\ sent (test_session_management (H := Stub.opaque_site)) Stub.opaque_start
     = [(login_request Stub.login_url, Responded Stub.opaque)]
  /\ emitted (test_session_management (H := Stub.opaque_site))
             Stub.opaque_start = [].
Proof.
  apply (session_probe_without_jwt (H := Stub.opaque_site) Stub.opaque_start
           Stub.login_url Stub.opaque tt
           {[ "token" := PStr "opaque-session-id" ]}
           eq_refl eq_refl eq_refl eq_refl eq_refl).
  intros tok Htok. injection Htok as <-. vm_compute. discriminate.
Defined.

(** Witness of X12: the target that refuses every connection. *)
Lemma unreachable_target_yields_no_finding_witness :
  Forall (fun r => status r <> "VULNERABLE")
         (emitted (run_all_tests (H := Stub.down)) Stub.down_start)
  /\ map status (emitted (test_sql_injection (H := Stub.down))
                         Stub.down_start)
     = ["ERROR"; "ERROR"; "ERROR"; "ERROR"; "ERROR"; "SECURE"]
  /\ map status (emitted (test_authentication_security (H := Stub.down))
                         Stub.down_start) = ["ERROR"].
Proof.
  assert (unreachable (H := Stub.down)) as Hdown.
  { intros t q. exists "Connection refused", t. reflexivity. }
  split.
  - apply (proj1 (unreachable_target_yields_no_finding (H := Stub.down)
                    Hdown Stub.down_start)).
  - apply (proj2 (unreachable_target_yields_no_finding (H := Stub.down)
                    Hdown Stub.down_start) Stub.login_url eq_refl).
Defined.

(** The bound of X13 is reached: a target that logs everybody in and
    shows nothing makes every probe send all its requests. *)
Lemma run_all_tests_sends_all_39 :
  length (sent (run_all_tests (H := Stub.renaming)) Stub.renaming_start)
  = 39%nat.
Proof. vm_compute. reflexivity. Qed.

(** A run in front of a base URL that [urljoin] rejects: the two
    modules that build their URL outside any [try] raise, the loop logs
    their error under their name and goes on, and every module is
    attempted. *)
Lemma run_survives_malformed_base :
  map (fun x => (test_name x, status x))
      (results (run_all_tests (H := Stub.malformed) Stub.malformed_start).2)
  = [ ("Test Error - test_sql_injection", "ERROR");
      ("Authentication Error", "ERROR");
      ("XSS Testing", "SKIPPED");
      ("Test Error - test_authentication_security", "ERROR");
      ("Authorization Test Error", "ERROR");
      ("Authorization Test Error", "ERROR");
      ("Authorization Test Error", "ERROR");
      ("Authorization Test Error", "ERROR");
      ("Authentication Error", "ERROR");
      ("Input Validation Testing", "SKIPPED");
      ("Authentication Error", "ERROR");
      ("Information Disclosure Test Error", "ERROR");
      ("Information Disclosure Test Error", "ERROR");
      ("Information Disclosure Test Error", "ERROR");
      ("Information Disclosure Test Error", "ERROR");
      ("Information Disclosure Test Error", "ERROR");
      ("Information Disclosure Test Error", "ERROR");
      ("Information Disclosure Test Error", "ERROR");
      ("Security Headers Test Error", "ERROR") ]
  /\ banners (stdout (run_all_tests (H := Stub.malformed)
                                    Stub.malformed_start).2)
     = module_banners.
Proof. split; vm_compute; reflexivity. Qed.
